(** * Linux Universal App Installer: the installation engine of [main.py]

    A shallow embedding of the task model, format detection and dispatch,
    the command wrapper, the AppImage procedure, the desktop integration
    steps, the batch scheduler, the history ledger and the interactive
    entry point, followed by the properties established about them.

    Python text is modelled as the [string] of its bytes in UTF-8. Searching,
    slicing and joining act on these bytes as the methods of [str] act on the
    characters, and [strip] removes the white space of Unicode; [lower] is
    modelled on ASCII text (code points below 128), which is what the names
    of package files are made of. *)

From Stdlib Require Import ZArith Ascii String List Lia DecimalString DecimalZ.
From stdpp Require Import gmap strings list pretty functions.

Local Open Scope Z_scope.

(** ** Python string methods used by the program *)

Module Py.

(** [s.endswith(suf)]: some tail of [s] is [suf]. *)
Fixpoint endswith (s suf : string) : bool :=
  if String.eqb s suf then true
  else match s with
       | EmptyString => false
       | String _ s' => endswith s' suf
       end.

(** [s.startswith(pre)]. *)
Definition startswith (s pre : string) : bool := String.prefix pre s.

Fixpoint rfind_from (c : ascii) (s : string) (i acc : Z) : Z :=
  match s with
  | EmptyString => acc
  | String a s' => rfind_from c s' (i + 1) (if Ascii.eqb a c then i else acc)
  end.

(** [s.rfind(c)] for a one-character [c]: the highest index, or [-1]. *)
Definition rfind (c : ascii) (s : string) : Z := rfind_from c s 0 (-1).

(** [s[:n]] and [s[n:]] for [0 <= n]. *)
Fixpoint take (n : nat) (s : string) : string :=
  match n, s with
  | S n', String a s' => String a (take n' s')
  | _, _ => EmptyString
  end.

Fixpoint drop (n : nat) (s : string) : string :=
  match n, s with
  | S n', String _ s' => drop n' s'
  | _, _ => s
  end.

(** [s[i:i+1] != c]: true also when [i] is out of range (the slice is
    empty then). *)
Definition char_differs (s : string) (i : Z) (c : ascii) : bool :=
  match String.get (Z.to_nat i) s with
  | Some a => negb (Ascii.eqb a c)
  | None => true
  end.

Definition lower_char (a : ascii) : ascii :=
  let n := nat_of_ascii a in
  if ((65 <=? n) && (n <=? 90))%nat then ascii_of_nat (n + 32) else a.

(** [s.lower()]. *)
Fixpoint lower (s : string) : string :=
  match s with
  | EmptyString => EmptyString
  | String a s' => String (lower_char a) (lower s')
  end.

(** [s.lstrip(c)] for a one-character set. *)
Fixpoint lstrip (c : ascii) (s : string) : string :=
  match s with
  | String a s' => if Ascii.eqb a c then lstrip c s' else s
  | EmptyString => EmptyString
  end.

(** The text of the given bytes. *)
Definition bytes (l : list nat) : string :=
  string_of_list_ascii (ascii_of_nat <$> l).

(** The characters for which [str.isspace] holds, in UTF-8: U+0009 to
    U+000D, U+001C to U+0020, U+0085, U+00A0, U+1680, U+2000 to U+200A,
    U+2028, U+2029, U+202F, U+205F and U+3000. *)
Definition spaces : list string :=
  Eval cbv in
  ((fun n => bytes [n]) <$> [9; 10; 11; 12; 13; 28; 29; 30; 31; 32]%nat)
  ++ (bytes <$> [[194; 133]; [194; 160]; [225; 154; 128]]%nat)
  ++ ((fun n => bytes [226; 128; n]%nat) <$> seq 128%nat 11%nat)
  ++ (bytes <$> [[226; 128; 168]; [226; 128; 169]; [226; 128; 175];
                 [226; 129; 159]; [227; 128; 128]]%nat).

(** The text without the members of [chars] it begins with; a round
    removes one of them, and there are no more rounds than bytes. *)
Fixpoint lstrip_any (chars : list string) (rounds : nat) (s : string) : string :=
  match rounds with
  | O => s
  | S rounds' =>
      match List.find (fun c => String.prefix c s) chars with
      | Some c => lstrip_any chars rounds' (drop (String.length c) s)
      | None => s
      end
  end.

Definition lstrip_space (s : string) : string :=
  lstrip_any spaces (String.length s) s.

(** The same from the end, on the reversed text. *)
Definition rstrip_space (s : string) : string :=
  String.rev (lstrip_any (String.rev <$> spaces) (String.length s) (String.rev s)).

(** [s.strip()]. *)
Definition strip (s : string) : string := rstrip_space (lstrip_space s).

(** [s.replace(a, b)] for one-character [a] and [b]. *)
Fixpoint replace (a b : ascii) (s : string) : string :=
  match s with
  | EmptyString => EmptyString
  | String c s' => String (if Ascii.eqb c a then b else c) (replace a b s')
  end.

(** [sep.join(l)]. *)
Fixpoint join (sep : string) (l : list string) : string :=
  match l with
  | [] => ""
  | [x] => x
  | x :: rest => x +:+ sep +:+ join sep rest
  end.

(** [needle in s]. *)
Fixpoint contains (s needle : string) : bool :=
  if String.prefix needle s then true
  else match s with
       | EmptyString => false
       | String _ s' => contains s' needle
       end.

(** [a or b] on text: an empty string is false. *)
Definition or_str (a b : string) : string :=
  if String.eqb a "" then b else a.

(** [posixpath.basename]. *)
Definition basename (p : string) : string :=
  drop (Z.to_nat (rfind "/" p + 1)) p.

(** [posixpath.dirname]: the head, without its trailing slashes unless it
    is made of slashes only. *)
Definition dirname (p : string) : string :=
  let head := take (Z.to_nat (rfind "/" p + 1)) p in
  if String.eqb (lstrip "/" head) "" then head
  else String.rev (lstrip "/" (String.rev head)).

(** [posixpath.join(a, b)]. *)
Definition path_join (a b : string) : string :=
  if startswith b "/" then b
  else if String.eqb a "" || endswith a "/" then a +:+ b
  else a +:+ "/" +:+ b.

(** The loop of [genericpath._splitext] that skips the leading dots of the
    file name: it is entered with [filenameIndex = sepIndex + 1] and makes
    at most [dotIndex - filenameIndex] rounds. *)
Fixpoint skip_leading_dots (p : string) (dotIndex : Z) (rounds : nat)
    (filenameIndex : Z) : string * string :=
  match rounds with
  | O => (p, "")
  | S rounds' =>
      if filenameIndex <? dotIndex then
        if char_differs p filenameIndex "."
        then (take (Z.to_nat dotIndex) p, drop (Z.to_nat dotIndex) p)
        else skip_leading_dots p dotIndex rounds' (filenameIndex + 1)
      else (p, "")
  end.

(** [posixpath.splitext]. *)
Definition splitext (p : string) : string * string :=
  let sepIndex := rfind "/" p in
  let dotIndex := rfind "." p in
  if sepIndex <? dotIndex
  then skip_leading_dots p dotIndex (String.length p) (sepIndex + 1)
  else (p, "").

End Py.

(** ** Format detection and the two dispatchers *)

(** [get_file_type]: the same body in [InstallationTask], [BatchInstaller]
    and [LinuxAppInstaller]. *)
Definition get_file_type (file_path : string) : string :=
  if Py.endswith file_path ".tar.gz" then "tar.gz"
  else if Py.endswith file_path ".tar.xz" then "tar.xz"
  else Py.lstrip "." (Py.lower (snd (Py.splitext file_path))).

(** The install procedures a dispatcher can resolve to. *)
Inductive procedure :=
  | ProcDeb | ProcAppImage | ProcTar | ProcSnap | ProcFlatpak | ProcExecutable.

(** The list [LinuxAppInstaller.install_file] tests the tag against. *)
Definition supported_types : list string :=
  ["deb"; "appimage"; "tar.gz"; "tar.xz"; "tgz"; "snap"; "flatpak"; "run"; "bin"].

(** The attributes named [install_...] of [BatchInstaller], with the
    procedure each one runs ([install_tar_gz], [install_run] and the like
    only forward to [install_tar] or [install_executable]).
    [LinuxAppInstaller] has the same methods under these names; its other
    attributes of that form, [install_file] and [install_button], are out
    of reach of its dispatch, which tests the tag against its list first. *)
Definition install_methods : list (string * procedure) :=
  [("install_deb", ProcDeb); ("install_appimage", ProcAppImage);
   ("install_tar_gz", ProcTar); ("install_tar_xz", ProcTar);
   ("install_tgz", ProcTar); ("install_tar", ProcTar);
   ("install_snap", ProcSnap); ("install_flatpak", ProcFlatpak);
   ("install_run", ProcExecutable); ("install_bin", ProcExecutable);
   ("install_executable", ProcExecutable)].

(** [getattr(self, f"install_{ext.replace('.', '_')}", None)]. *)
Definition getattr_install (ext : string) : option procedure :=
  snd <$> List.find (fun m => String.eqb (fst m) ("install_" +:+ Py.replace "." "_" ext))
                    install_methods.

(** The dispatch of [LinuxAppInstaller.install_file]: the membership test,
    then the attribute lookup. *)
Definition interactive_dispatch (file_path : string) : option procedure :=
  let ext := get_file_type file_path in
  if bool_decide (ext ∈ supported_types) then getattr_install ext else None.

(** The dispatch of [BatchInstaller.run]: the attribute lookup alone. *)
Definition batch_dispatch (file_path : string) : option procedure :=
  getattr_install (get_file_type file_path).

(** ** The task model and the host *)

(** Values that travel through [to_dict], [json.dump] and [json.load]. *)
Inductive pyval :=
  | PNone
  | PInt (z : Z)
  | PStr (s : string).

#[global] Instance pyval_eq_dec : EqDecision pyval.
Proof. solve_decision. Defined.

(** The attributes of an [InstallationTask]; a [datetime] is modelled as its
    count of microseconds. *)
Record InstallationTask := mkTask {
  file_path : string;
  task_id : string;
  status : string;                  (* "queued", "installing", "completed", "failed" *)
  progress : Z;
  message : string;
  start_time : option Z;
  end_time : option Z;
  file_hash : string;
  file_size : Z
}.

#[global] Instance InstallationTask_eq_dec : EqDecision InstallationTask.
Proof. solve_decision. Defined.

Definition set_status (s : string) (t : InstallationTask) : InstallationTask :=
  mkTask (file_path t) (task_id t) s (progress t) (message t) (start_time t)
         (end_time t) (file_hash t) (file_size t).
Definition set_message (m : string) (t : InstallationTask) : InstallationTask :=
  mkTask (file_path t) (task_id t) (status t) (progress t) m (start_time t)
         (end_time t) (file_hash t) (file_size t).
Definition set_start_time (d : option Z) (t : InstallationTask) : InstallationTask :=
  mkTask (file_path t) (task_id t) (status t) (progress t) (message t) d
         (end_time t) (file_hash t) (file_size t).
Definition set_end_time (d : option Z) (t : InstallationTask) : InstallationTask :=
  mkTask (file_path t) (task_id t) (status t) (progress t) (message t)
         (start_time t) d (file_hash t) (file_size t).

(** A task object with attributes of any type that travels. The tasks that
    the program constructs have the types of [InstallationTask]; [from_dict]
    stores the values of a record as it finds them, and the history of the
    window holds the objects it returns. *)
Record TaskObject := mkObject {
  object_file_path : pyval;
  object_task_id : pyval;
  object_status : pyval;
  object_progress : pyval;
  object_message : pyval;
  object_start_time : option Z;
  object_end_time : option Z;
  object_file_hash : pyval;
  object_file_size : pyval
}.

#[global] Instance TaskObject_eq_dec : EqDecision TaskObject.
Proof. solve_decision. Defined.

(** A constructed task is such an object. *)
Definition object_of (t : InstallationTask) : TaskObject :=
  mkObject (PStr (file_path t)) (PStr (task_id t)) (PStr (status t)) (PInt (progress t))
           (PStr (message t)) (start_time t) (end_time t) (PStr (file_hash t))
           (PInt (file_size t)).

Coercion object_of : InstallationTask >-> TaskObject.

(** The typed record of an object each of whose attributes holds a value of
    the type that the constructed tasks have. *)
Definition as_task (o : TaskObject) : option InstallationTask :=
  match object_file_path o, object_task_id o, object_status o, object_progress o,
        object_message o, object_file_hash o, object_file_size o with
  | PStr path, PStr id, PStr st, PInt pr, PStr msg, PStr hash, PInt size =>
      Some (mkTask path id st pr msg (object_start_time o) (object_end_time o) hash size)
  | _, _, _, _, _, _, _ => None
  end.

(** The signals of [BatchInstaller] and of [InstallWorker]. *)
Inductive signal :=
  | progress_updated (id : string) (percent : Z) (msg : string)
  | task_completed (id : string) (success : bool) (msg : string)
  | batch_finished
  | finished (msg : string)
  | error (msg : string).

#[global] Instance signal_eq_dec : EqDecision signal.
Proof. solve_decision. Defined.

(** The state of [history.json]: absent, a file that cannot be read or
    whose text [json.load] refuses, or a list of records whose values are
    null, integers and text, as [json.dump] writes it. *)
Inductive history_file :=
  | NoFile
  | Unparsable
  | Dumped (data : list (gmap string pyval)).

(** The calls that act on the host. Every attempt is recorded in [calls],
    whether it succeeds or not. *)
Inductive syscall :=
  | Spawn (argv : list string) (timeout : Z)
  | MakeDirs (path : string)
  | Move (src dst : string)
  | Chmod (path : string)
  | WriteText (path : string) (content : string)
  | CopyFile (src dst : string)
  | WriteJson (path : string) (data : list (gmap string pyval))
  | Remove (path : string).

Inductive level := DEBUG | INFO | WARNING | ERROR.

(** Everything the threads of the program share: the host, the task objects
    (a reference is a number; the queue of the window and the deque of a
    batch hold references to the same objects) and the signals emitted. *)
Record World := mkWorld {
  files : gset string;              (* the paths for which os.path.exists holds *)
  history_json : history_file;      (* the backing store of the ledger *)
  calls : list syscall;             (* the calls made so far, oldest first *)
  log : list (level * string);      (* the records handed to logging *)
  ticks : nat;                      (* how often the clock was read *)
  heap : nat -> InstallationTask;   (* the task objects *)
  signals : list signal             (* the signals emitted so far, oldest first *)
}.

Definition set_files (f : gset string) (w : World) : World :=
  mkWorld f (history_json w) (calls w) (log w) (ticks w) (heap w) (signals w).
Definition set_history_json (h : history_file) (w : World) : World :=
  mkWorld (files w) h (calls w) (log w) (ticks w) (heap w) (signals w).
Definition record_call (c : syscall) (w : World) : World :=
  mkWorld (files w) (history_json w) (calls w ++ [c]) (log w) (ticks w) (heap w)
          (signals w).
Definition record_log (l : level) (msg : string) (w : World) : World :=
  mkWorld (files w) (history_json w) (calls w) (log w ++ [(l, msg)]) (ticks w)
          (heap w) (signals w).
Definition tick (w : World) : World :=
  mkWorld (files w) (history_json w) (calls w) (log w) (S (ticks w)) (heap w)
          (signals w).
Definition set_heap (h : nat -> InstallationTask) (w : World) : World :=
  mkWorld (files w) (history_json w) (calls w) (log w) (ticks w) h (signals w).
Definition record_signal (s : signal) (w : World) : World :=
  mkWorld (files w) (history_json w) (calls w) (log w) (ticks w) (heap w)
          (signals w ++ [s]).

(** [task.<attribute> = ...] on the object [r] refers to. *)
Definition update_task (r : nat) (f : InstallationTask -> InstallationTask)
    (w : World) : World :=
  set_heap (<[r := f (heap w r)]> (heap w)) w.

(** What a child process does once [subprocess.run] is asked to start it.
    The output of a child that exits is text only when the codec of the
    locale accepts its bytes. *)
Inductive child_result :=
  | CannotStart (err : string)                        (* OSError from the spawn *)
  | Exits (seconds : Z) (returncode : Z) (stdout stderr : string)
  | Garbled (seconds : Z) (reason : string)           (* exits; its output is not text *)
  | Hangs.                                            (* never exits *)

(** What the program cannot decide by itself: the behaviour of the host and
    of the Python library functions whose results it only passes on. *)
Record Env := mkEnv {
  expanduser : string -> string;
  child : list string -> World -> child_result;
  aftermath : list string -> World -> gset string;   (* the files a child leaves *)
  fault : syscall -> World -> option string;          (* the OSError of a call, if any *)
  torn : World -> history_file;                       (* history.json after a failed write *)
  which : string -> World -> bool;                    (* shutil.which(..) is not None *)
  isfile : string -> World -> bool;                   (* os.path.isfile *)
  access_r : string -> World -> bool;                 (* os.access(.., os.R_OK) *)
  access_x : string -> World -> bool;                 (* os.access(.., os.X_OK) *)
  walk : string -> World -> list (string * string);   (* os.walk: (root, file), in order *)
  read_head : string -> World -> option string;       (* the first 4 bytes, if readable *)
  read_lines : string -> World -> option (list string); (* the lines, if readable *)
  getsize : string -> World -> Z;                     (* os.path.getsize *)
  sha256_hex : string -> World -> option string;      (* digest of the content, if readable *)
  md5_hex8 : string -> string;                        (* md5(path).hexdigest()[:8] *)
  clock : nat -> Z;                                   (* datetime.now() at each reading *)
  isoformat : Z -> string;
  fromisoformat : string -> option Z;
  repr_argv : list string -> string;                  (* repr of a list of str *)
  repr_str : string -> string;                        (* repr of a str *)
  load_error : World -> string                        (* str(e) of a failed json.load *)
}.

(** What the development uses of the library functions in [Env]. *)
Record EnvLaws (env : Env) : Prop := mkEnvLaws {
  fromisoformat_isoformat : forall d, fromisoformat env (isoformat env d) = Some d;
  isoformat_nonempty : forall d, isoformat env d <> "";
  md5_hex8_nonempty : forall p, md5_hex8 env p <> ""
}.

(** ** Exceptions and the monad of effects *)

(** The exceptions that occur; all of them are subclasses of [Exception]. *)
Inductive exn :=
  | Exception (msg : string)
  | OSError (msg : string)
  | TimeoutExpired (argv : list string) (timeout : Z)
  | KeyError (key : string)
  | ValueError (msg : string)
  | UnicodeDecodeError (msg : string)
  | TypeError (msg : string)
  | AttributeError (msg : string).

Definition is_TimeoutExpired (e : exn) : bool :=
  match e with TimeoutExpired _ _ => true | _ => false end.

(** [str(e)]. *)
Definition exn_str (env : Env) (e : exn) : string :=
  match e with
  | Exception msg | OSError msg | ValueError msg | UnicodeDecodeError msg
  | TypeError msg | AttributeError msg => msg
  | TimeoutExpired argv timeout =>
      "Command '" +:+ repr_argv env argv +:+ "' timed out after "
        +:+ pretty timeout +:+ " seconds"
  | KeyError key => repr_str env key
  end.

(** The ways a call ends: a value, an exception, or never (a loop that
    does not stop). *)
Inductive res (A : Type) :=
  | Ok (a : A)
  | Raise (e : exn)
  | Diverges.
Arguments Ok {A} a.
Arguments Raise {A} e.
Arguments Diverges {A}.

Definition M (S A : Type) : Type := S -> res A * S.

Definition ret {S A} (a : A) : M S A := fun s => (Ok a, s).
Definition raise {S A} (e : exn) : M S A := fun s => (Raise e, s).
Definition bind {S A B} (m : M S A) (k : A -> M S B) : M S B :=
  fun s => match m s with
           | (Ok a, s') => k a s'
           | (Raise e, s') => (Raise e, s')
           | (Diverges, s') => (Diverges, s')
           end.

Declare Scope py_scope.
Delimit Scope py_scope with py.
Notation "x <- m ;; k" := (bind m (fun x => k))
  (at level 100, m at next level, right associativity) : py_scope.
Notation "m ;; k" := (bind m (fun _ => k))
  (at level 100, right associativity) : py_scope.
Local Open Scope py_scope.

(** [try: body  except Exception as e: handler(e)]. *)
Definition try_except {S A} (body : M S A) (handler : exn -> M S A) : M S A :=
  fun s => match body s with
           | (Raise e, s') => handler e s'
           | other => other
           end.

(** [try: body  except <class> as e: handler(e)] for the classes selected by
    [catches]. *)
Definition try_except_only {S A} (catches : exn -> bool) (body : M S A)
    (handler : exn -> M S A) : M S A :=
  fun s => match body s with
           | (Raise e, s') => if catches e then handler e s' else (Raise e, s')
           | other => other
           end.

(** A method of an object with attributes [X] runs on the pair of the
    attributes and the world. *)
Definition liftW {X A} (m : M World A) : M (X * World) A :=
  fun s => let '(r, w') := m (snd s) in (r, (fst s, w')).
Definition self {X} : M (X * World) X := fun s => (Ok (fst s), s).
Definition set_self {X} (f : X -> X) : M (X * World) unit :=
  fun s => (Ok tt, (f (fst s), snd s)).

Definition get_world : M World World := fun w => (Ok w, w).
Definition modify_world (f : World -> World) : M World unit :=
  fun w => (Ok tt, f w).
Definition logging (l : level) (msg : string) : M World unit :=
  modify_world (record_log l msg).
Definition emit (s : signal) : M World unit := modify_world (record_signal s).

(** [datetime.now()]. *)
Definition datetime_now (env : Env) : M World Z :=
  fun w => (Ok (clock env (ticks w)), tick w).

(** [os.path.exists]. *)
Definition path_exists (p : string) (w : World) : bool := bool_decide (p ∈ files w).

(** A call on the file system: recorded, then either the host's error or
    the effect on the set of existing paths. *)
Definition fs_call (env : Env) (c : syscall) (effect : gset string -> gset string)
    : M World unit :=
  fun w => match fault env c w with
           | Some err => (Raise (OSError err), record_call c w)
           | None => (Ok tt, set_files (effect (files w)) (record_call c w))
           end.

(** [os.makedirs(path, exist_ok=True)]; the parents it creates on the way
    are not tracked. *)
Definition makedirs (env : Env) (path : string) : M World unit :=
  fs_call env (MakeDirs path) (fun f => {[path]} ∪ f).

(** [str(e)] of the [FileNotFoundError] for [path]. *)
Definition no_such_file (env : Env) (path : string) : string :=
  "[Errno 2] No such file or directory: " +:+ repr_str env path.

(** [shutil.move(src, dst)] for a [dst] that is not a directory. *)
Definition move (env : Env) (src dst : string) : M World unit :=
  fun w => if path_exists src w
           then fs_call env (Move src dst) (fun f => {[dst]} ∪ (f ∖ {[src]})) w
           else (Raise (OSError (no_such_file env src)), record_call (Move src dst) w).

(** [os.chmod(path, 0o755)]. *)
Definition chmod (env : Env) (path : string) : M World unit :=
  fun w => if path_exists path w
           then fs_call env (Chmod path) (fun f => f) w
           else (Raise (OSError (no_such_file env path)), record_call (Chmod path) w).

(** [with open(path, 'w') as f: f.write(content)]. *)
Definition write_text (env : Env) (path content : string) : M World unit :=
  fs_call env (WriteText path content) (fun f => {[path]} ∪ f).

(** [shutil.copy2(src, dst)]. *)
Definition copy2 (env : Env) (src dst : string) : M World unit :=
  fs_call env (CopyFile src dst) (fun f => {[dst]} ∪ f).

(** The record [subprocess.run] returns. *)
Record CompletedProcess := mkCompleted {
  returncode : Z;
  stdout : string;
  stderr : string
}.

(** [subprocess.run(argv, capture_output=True, text=True, timeout=timeout)]:
    one child is started; it is killed when it has not exited after
    [timeout] seconds. The output of a child that exits in time is decoded
    before its return code is looked at, and bytes the codec refuses make
    the call raise [UnicodeDecodeError]. *)
Definition subprocess_run (env : Env) (argv : list string) (timeout : Z)
    : M World CompletedProcess :=
  fun w =>
    let w' := set_files (aftermath env argv w) (record_call (Spawn argv timeout) w) in
    match child env argv w with
    | CannotStart err => (Raise (OSError err), record_call (Spawn argv timeout) w)
    | Exits seconds rc out err =>
        if seconds <=? timeout then (Ok (mkCompleted rc out err), w')
        else (Raise (TimeoutExpired argv timeout), w')
    | Garbled seconds reason =>
        if seconds <=? timeout then (Raise (UnicodeDecodeError reason), w')
        else (Raise (TimeoutExpired argv timeout), w')
    | Hangs => (Raise (TimeoutExpired argv timeout), w')
    end.

Definition of_res {S A} (r : res A) : M S A := fun s => (r, s).

(** ** [InstallationTask] *)

Module Task.

(** [calculate_hash]: the digest, or ["unknown"] when the file cannot be
    read. *)
Definition calculate_hash (env : Env) (path : string) : M World string :=
  fun w => (Ok (default "unknown" (sha256_hex env path w)), w).

(** [__init__(file_path, task_id=None)]. *)
Definition init (env : Env) (path : string) (id : option string)
    : M World InstallationTask :=
  hash <- calculate_hash env path ;;
  w <- get_world ;;
  ret (mkTask path
         (match id with
          | Some s => Py.or_str s (md5_hex8 env path)
          | None => md5_hex8 env path
          end)
         "queued" 0 "" None None hash
         (if path_exists path w then getsize env path w else 0)).

Definition timestamp_to_wire (env : Env) (d : option Z) : pyval :=
  match d with
  | Some d => PStr (isoformat env d)
  | None => PNone
  end.

(** [to_dict], on any task object. *)
Definition to_dict (env : Env) (t : TaskObject) : gmap string pyval :=
  <["file_path" := object_file_path t]>
  (<["task_id" := object_task_id t]>
  (<["status" := object_status t]>
  (<["progress" := object_progress t]>
  (<["message" := object_message t]>
  (<["start_time" := timestamp_to_wire env (object_start_time t)]>
  (<["end_time" := timestamp_to_wire env (object_end_time t)]>
  (<["file_hash" := object_file_hash t]>
  (<["file_size" := object_file_size t]> ∅)))))))).

(** The truth value of [data.get(key)]. *)
Definition truthy (v : option pyval) : bool :=
  match v with
  | Some (PStr s) => negb (String.eqb s "")
  | Some (PInt z) => negb (z =? 0)
  | Some PNone | None => false
  end.

(** [datetime.fromisoformat(data[key]) if data.get(key) else None]. *)
Definition read_timestamp (env : Env) (data : gmap string pyval) (key : string)
    : res (option Z) :=
  if truthy (data !! key) then
    match data !! key with
    | Some (PStr s) =>
        match fromisoformat env s with
        | Some d => Ok (Some d)
        | None => Raise (ValueError ("Invalid isoformat string: " +:+ repr_str env s))
        end
    | _ => Raise (TypeError "fromisoformat: argument must be str")
    end
  else Ok None.

(** [task_id or hashlib.md5(file_path.encode()).hexdigest()[:8]] of
    [__init__], for arguments of any type. *)
Definition choose_task_id (env : Env) (file_path : pyval) (task_id : option pyval)
    : res pyval :=
  if truthy task_id then Ok (default PNone task_id)
  else match file_path with
       | PStr path => Ok (PStr (md5_hex8 env path))
       | PInt _ => Raise (AttributeError "'int' object has no attribute 'encode'")
       | PNone => Raise (AttributeError "'NoneType' object has no attribute 'encode'")
       end.

(** [os.path.exists(file_path)] of [__init__], which refuses [None]. A
    number is taken for a file descriptor, by the [open] of [calculate_hash]
    before (whose failure is caught there, and whose reading is taken to
    end, like that of a file) and here, where it is answered without an
    error. *)
Definition probe (file_path : pyval) : res unit :=
  match file_path with
  | PNone => Raise (TypeError
      "stat: path should be string, bytes, os.PathLike or integer, not NoneType")
  | _ => Ok tt
  end.

(** [from_dict]: the object it returns. [__init__] raises for a [file_path]
    that is [None], and for one that is a number unless the record has a
    [task_id] that is true; the hash and the size that it computes are
    replaced by the fields of the record, or by their defaults; every other
    value is stored as it is. *)
Definition object_from_dict (env : Env) (data : gmap string pyval) : M World TaskObject :=
  match data !! "file_path" with
  | None => raise (KeyError "file_path")
  | Some path =>
      id <- of_res (choose_task_id env path (data !! "task_id")) ;;
      of_res (probe path) ;;
      start <- of_res (read_timestamp env data "start_time") ;;
      stop <- of_res (read_timestamp env data "end_time") ;;
      ret (mkObject path id
             (default (PStr "queued") (data !! "status"))
             (default (PInt 0) (data !! "progress"))
             (default (PStr "") (data !! "message"))
             start stop
             (default (PStr "unknown") (data !! "file_hash"))
             (default (PInt 0) (data !! "file_size")))
  end.

(** [from_dict], with the object it returns as a typed record. The result
    [None] stands for an object one of whose attributes holds a value of a
    type that no constructed task has. *)
Definition from_dict (env : Env) (data : gmap string pyval)
    : M World (option InstallationTask) :=
  o <- object_from_dict env data ;;
  ret (as_task o).

End Task.

(** ** [BatchInstaller] *)

(** The first counter from [counter] on whose candidate name is free; the
    loop [while os.path.exists(f"{base}_{counter}{ext}"): counter += 1] with
    a bound on its rounds. *)
Definition candidate (base ext : string) (counter : nat) : string :=
  base +:+ "_" +:+ pretty counter +:+ ext.

Fixpoint count_up (taken : string -> bool) (base ext : string) (rounds counter : nat)
    : option nat :=
  match rounds with
  | O => None
  | S rounds' =>
      if taken (candidate base ext counter)
      then count_up taken base ext rounds' (S counter)
      else Some counter
  end.

(** The destination of an AppImage: [dest] itself when it is free, else
    the first free [base_counter.ext]. One round more than there are paths
    is a bound no run of the loop reaches. *)
Definition resolve_destination (dest : string) : M World string :=
  fun w =>
    if path_exists dest w then
      let '(base, ext) := Py.splitext dest in
      match count_up (fun p => path_exists p w) base ext (S (size (files w))) 1 with
      | Some counter => (Ok (candidate base ext counter), w)
      | None => (Diverges, w)
      end
    else (Ok dest, w).

Module BatchInstaller.

(** [run_command]. *)
Definition run_command (env : Env) (cmd : list string) : M World unit :=
  result <- subprocess_run env cmd 300 ;;
  if bool_decide (returncode result <> 0)
  then raise (Exception (Py.or_str (Py.strip (stderr result)) (Py.strip (stdout result))))
  else ret tt.

Definition install_deb (env : Env) (path : string) : M World string :=
  w <- get_world ;;
  if negb (which env "dpkg" w)
  then raise (Exception "dpkg not found. Please install dpkg.")
  else
    run_command env ["pkexec"; "dpkg"; "-i"; path] ;;
    run_command env ["pkexec"; "apt-get"; "install"; "-f"] ;;
    ret ("Successfully installed " +:+ Py.basename path).

Definition install_appimage (env : Env) (path : string) : M World string :=
  let app_dir := expanduser env "~/Applications" in
  makedirs env app_dir ;;
  dest <- resolve_destination (Py.path_join app_dir (Py.basename path)) ;;
  move env path dest ;;
  chmod env dest ;;
  ret ("AppImage installed to " +:+ dest).

Definition install_tar (env : Env) (path : string) : M World string :=
  let app_dir := expanduser env "~/Applications" in
  makedirs env app_dir ;;
  let extract_dir := Py.path_join app_dir (fst (Py.splitext (Py.basename path))) in
  makedirs env extract_dir ;;
  run_command env ["tar"; "-xf"; path; "-C"; extract_dir] ;;
  let install_script := Py.path_join extract_dir "install.sh" in
  w <- get_world ;;
  (if path_exists install_script w
   then chmod env install_script ;;
        run_command env ["pkexec"; "bash"; install_script]
   else ret tt) ;;
  ret ("Extracted to " +:+ extract_dir).

Definition install_snap (env : Env) (path : string) : M World string :=
  w <- get_world ;;
  if negb (which env "snap" w)
  then raise (Exception "snap not found. Please install snapd.")
  else
    run_command env ["pkexec"; "snap"; "install"; path; "--dangerous"] ;;
    ret ("Successfully installed " +:+ Py.basename path).

Definition install_flatpak (env : Env) (path : string) : M World string :=
  w <- get_world ;;
  if negb (which env "flatpak" w)
  then raise (Exception "flatpak not found. Please install flatpak.")
  else
    run_command env ["flatpak"; "install"; "--user"; path] ;;
    ret ("Successfully installed " +:+ Py.basename path).

Definition install_executable (env : Env) (path : string) : M World string :=
  chmod env path ;;
  run_command env ["pkexec"; "bash"; path] ;;
  ret ("Executed " +:+ Py.basename path).

(** The method an attribute of the class denotes. *)
Definition method (env : Env) (p : procedure) : string -> M World string :=
  match p with
  | ProcDeb => install_deb env
  | ProcAppImage => install_appimage env
  | ProcTar => install_tar env
  | ProcSnap => install_snap env
  | ProcFlatpak => install_flatpak env
  | ProcExecutable => install_executable env
  end.

(** The attributes of a [BatchInstaller]: the deque of task references and
    the flag the loop tests. *)
Record obj := mkObj {
  tasks : list nat;
  running : bool
}.

(** [__init__(tasks)]: [deque(tasks)] is a new sequence of the same
    references. *)
Definition init (queue : list nat) : obj := mkObj queue true.

Definition set_tasks (l : list nat) (b : obj) : obj := mkObj l (running b).

(** [task.<attribute>] of the object [r] refers to. *)
Definition attr {A} (r : nat) (f : InstallationTask -> A) : M World A :=
  fun w => (Ok (f (heap w r)), w).

(** The [try] block of the loop of [run]. *)
Definition attempt (env : Env) (r : nat) : M World unit :=
  id <- attr r task_id ;;
  path <- attr r file_path ;;
  emit (progress_updated id 10 ("Starting installation of " +:+ Py.basename path)) ;;
  path <- attr r file_path ;;
  let ext := get_file_type path in
  match getattr_install ext with
  | None => raise (Exception ("Unsupported file type: " +:+ ext))
  | Some install_func =>
      id <- attr r task_id ;;
      emit (progress_updated id 50 "Installing...") ;;
      path <- attr r file_path ;;
      result <- method env install_func path ;;
      modify_world (update_task r (set_status "completed")) ;;
      modify_world (update_task r (set_message result)) ;;
      id <- attr r task_id ;;
      emit (progress_updated id 100 result) ;;
      id <- attr r task_id ;;
      emit (task_completed id true result)
  end.

(** Its [except Exception as e] block. *)
Definition failed (env : Env) (r : nat) (e : exn) : M World unit :=
  modify_world (update_task r (set_status "failed")) ;;
  modify_world (update_task r (set_message (exn_str env e))) ;;
  path <- attr r file_path ;;
  logging ERROR ("Installation failed for " +:+ path +:+ ": " +:+ exn_str env e) ;;
  id <- attr r task_id ;;
  emit (progress_updated id 100 ("Failed: " +:+ exn_str env e)) ;;
  id <- attr r task_id ;;
  emit (task_completed id false (exn_str env e)).

(** The body of the loop of [run] for the task popped. *)
Definition run_task (env : Env) (r : nat) : M World unit :=
  modify_world (update_task r (set_status "installing")) ;;
  now <- datetime_now env ;;
  modify_world (update_task r (set_start_time (Some now))) ;;
  try_except (attempt env r) (failed env r) ;;
  now <- datetime_now env ;;
  modify_world (update_task r (set_end_time (Some now))).

(** [while self.tasks and self.running: task = self.tasks.popleft(); ...],
    with a bound on its rounds. *)
Fixpoint run_loop (env : Env) (rounds : nat) : M (obj * World) unit :=
  match rounds with
  | O => fun s => (Diverges, s)
  | S rounds' =>
      b <- self ;;
      match tasks b with
      | r :: rest =>
          if running b
          then set_self (set_tasks rest) ;;
               liftW (run_task env r) ;;
               run_loop env rounds'
          else ret tt
      | [] => ret tt
      end
  end.

(** The names an instance of the class answers to: the signals, attributes
    and methods the class defines, and the methods of [QThread] that the
    program calls. Neither the class nor [QThread] has a [set_installer]. *)
Definition attributes : list string :=
  ["progress_updated"; "task_completed"; "batch_finished"; "tasks"; "running";
   "run"; "get_file_type"; "install_deb"; "install_appimage"; "install_tar_gz";
   "install_tar_xz"; "install_tgz"; "install_tar"; "install_snap";
   "install_flatpak"; "install_run"; "install_bin"; "install_executable";
   "run_command"; "start"; "isRunning"].

(** The lookup of an attribute by name, as a call [installer.name(...)]
    begins. *)
Definition getattr {S} (name : string) : M S unit :=
  if bool_decide (name ∈ attributes) then ret tt
  else raise (AttributeError ("'BatchInstaller' object has no attribute '"
                              +:+ name +:+ "'")).

(** [run]: the loop makes one round per task and one more test. *)
Definition run (env : Env) : M (obj * World) unit :=
  b <- self ;;
  run_loop env (S (length (tasks b))) ;;
  liftW (emit batch_finished).

End BatchInstaller.


(** ** [LinuxAppInstaller]: the install procedures and desktop integration *)

(** The double quote and the line feed, for the texts written to files. *)
Definition dq : string := String "034"%char EmptyString.
Definition nl : string := String "010"%char EmptyString.

(** The text made of the given lines, each one ended by a line feed. *)
Fixpoint text_of_lines (l : list string) : string :=
  match l with
  | [] => ""
  | x :: rest => x +:+ nl +:+ text_of_lines rest
  end.

(** A [dict] with text keys, in insertion order. *)
Fixpoint dict_set (k v : string) (d : list (string * string)) : list (string * string) :=
  match d with
  | [] => [(k, v)]
  | (k', v') :: d' =>
      if String.eqb k' k then (k, v) :: d' else (k', v') :: dict_set k v d'
  end.

Fixpoint dict_get (k default : string) (d : list (string * string)) : string :=
  match d with
  | [] => default
  | (k', v') :: d' => if String.eqb k' k then v' else dict_get k default d'
  end.

(** [s.split('=', 1)] for an [s] that holds an ['=']. *)
Fixpoint split_eq (s : string) : string * string :=
  match s with
  | EmptyString => ("", "")
  | String a s' =>
      if Ascii.eqb a "=" then ("", s')
      else let '(k, v) := split_eq s' in (String a k, v)
  end.

Module LinuxAppInstaller.

(** [run_command]. *)
Definition run_command (env : Env) (cmd : list string) : M World unit :=
  try_except_only is_TimeoutExpired
    (result <- subprocess_run env cmd 300 ;;
     if bool_decide (returncode result <> 0)
     then
       let error_msg := Py.or_str (Py.strip (stderr result)) (Py.strip (stdout result)) in
       logging ERROR ("Command failed: " +:+ Py.join " " cmd +:+ " - " +:+ error_msg) ;;
       raise (Exception error_msg)
     else ret tt)
    (fun _ =>
       let error_msg := "Command timed out: " +:+ Py.join " " cmd in
       logging ERROR error_msg ;;
       raise (Exception error_msg)).

Definition install_deb (env : Env) (path : string) : M World string :=
  w <- get_world ;;
  if negb (which env "dpkg" w)
  then raise (Exception "dpkg not found. Please install dpkg.")
  else
    run_command env ["pkexec"; "dpkg"; "-i"; path] ;;
    run_command env ["pkexec"; "apt-get"; "install"; "-f"] ;;
    ret ("Successfully installed " +:+ Py.basename path).

(** The copy of a found icon into the user's icon directory. *)
Definition copy_icon (env : Env) (icon app_name : string) : M World (option string) :=
  let icons_dir := expanduser env "~/.local/share/icons" in
  makedirs env icons_dir ;;
  let icon_dest := Py.path_join icons_dir (app_name +:+ ".png") in
  copy2 env icon icon_dest ;;
  ret (Some icon_dest).

(** The loop over the common icon names in the mount point. *)
Fixpoint first_icon (env : Env) (actual_mount app_name : string) (names : list string)
    : M World (option string) :=
  match names with
  | [] => ret None
  | icon_name :: rest =>
      let icon_path := Py.path_join actual_mount icon_name in
      w <- get_world ;;
      if path_exists icon_path w then copy_icon env icon_path app_name
      else first_icon env actual_mount app_name rest
  end.

(** [extract_appimage_icon]. *)
Definition extract_appimage_icon (env : Env) (appimage_path app_name : string)
    : M World (option string) :=
  try_except
    (let mount_point := "/tmp/" +:+ app_name +:+ "_mount" in
     makedirs env mount_point ;;
     result <- subprocess_run env [appimage_path; "--appimage-mount"] 10 ;;
     if (returncode result =? 0) && negb (String.eqb (Py.strip (stdout result)) "")
     then
       let actual_mount := Py.strip (stdout result) in
       let icon_dir := Py.path_join actual_mount ".DirIcon" in
       w <- get_world ;;
       if path_exists icon_dir w then copy_icon env icon_dir app_name
       else first_icon env actual_mount app_name
              [".DirIcon"; "icon.png"; "Icon.png"; app_name +:+ ".png"]
     else ret None)
    (fun e =>
       logging DEBUG ("Could not extract icon from AppImage " +:+ appimage_path
                      +:+ ": " +:+ exn_str env e) ;;
       ret None).

(** The two copies of a desktop entry and their mode: the menu entry under
    [~/.local/share/applications] and the shortcut under [~/Desktop]. *)
Definition write_desktop_files (env : Env) (app_name desktop_content : string)
    : M World unit :=
  let desktop_file :=
    expanduser env ("~/.local/share/applications/" +:+ app_name +:+ ".desktop") in
  makedirs env (Py.dirname desktop_file) ;;
  write_text env desktop_file desktop_content ;;
  let desktop_shortcut := expanduser env ("~/Desktop/" +:+ app_name +:+ ".desktop") in
  write_text env desktop_shortcut desktop_content ;;
  chmod env desktop_file ;;
  chmod env desktop_shortcut.

Definition update_desktop_database (env : Env) : M World unit :=
  run_command env ["update-desktop-database";
                   expanduser env "~/.local/share/applications"].

(** [create_appimage_desktop_entry]. *)
Definition create_appimage_desktop_entry (env : Env) (appimage_path : string)
    : M World unit :=
  try_except
    (let app_name := fst (Py.splitext (Py.basename appimage_path)) in
     icon_path <- extract_appimage_icon env appimage_path app_name ;;
     let desktop_content := text_of_lines
       ["[Desktop Entry]"; "Version=1.0"; "Type=Application";
        "Name=" +:+ app_name;
        "Comment=Application installed by Linux Universal App Installer";
        "Exec=" +:+ dq +:+ appimage_path +:+ dq;
        "Icon=" +:+ default "application-x-executable" icon_path;
        "Terminal=false";
        "StartupWMClass=" +:+ app_name;
        "Categories=Utility;Application;"] in
     write_desktop_files env app_name desktop_content ;;
     update_desktop_database env)
    (fun e =>
       logging WARNING ("Failed to create desktop entry for " +:+ appimage_path
                        +:+ ": " +:+ exn_str env e)).

(** The test of [create_tar_desktop_entries] on one walked file. *)
Definition is_application (env : Env) (root file : string) (w : World) : bool :=
  let path := Py.path_join root file in
  access_x env path w
  && negb (Py.endswith file ".so" || Py.endswith file ".dll" || Py.endswith file ".dylib")
  && match read_head env path w with
     | Some header =>
         Py.startswith header (String "127"%char "ELF") || Py.startswith header "#!/"
     | None => false
     end.

(** The loop over [executables[:3]]. *)
Fixpoint write_tar_entries (env : Env) (executables : list string) : M World unit :=
  match executables with
  | [] => ret tt
  | exe_path :: rest =>
      let exe_name := Py.basename exe_path in
      if bool_decide (exe_name ∈ ["install.sh"; "uninstall.sh"; "configure"])
      then write_tar_entries env rest
      else
        write_desktop_files env exe_name (text_of_lines
          ["[Desktop Entry]"; "Version=1.0"; "Type=Application";
           "Name=" +:+ exe_name;
           "Comment=Application installed by Linux Universal App Installer";
           "Exec=" +:+ dq +:+ exe_path +:+ dq;
           "Icon=application-x-executable";
           "Terminal=false";
           "Categories=Utility;Application;"]) ;;
        write_tar_entries env rest
  end.

(** [create_tar_desktop_entries]. *)
Definition create_tar_desktop_entries (env : Env) (extract_dir : string)
    : M World unit :=
  try_except
    (w <- get_world ;;
     let executables :=
       (fun rf => Py.path_join (fst rf) (snd rf))
         <$> List.filter (fun rf => is_application env (fst rf) (snd rf) w)
                         (walk env extract_dir w) in
     write_tar_entries env (firstn 3 executables) ;;
     match executables with
     | [] => ret tt
     | _ :: _ => update_desktop_database env
     end)
    (fun e =>
       logging WARNING ("Failed to create desktop entries for " +:+ extract_dir
                        +:+ ": " +:+ exn_str env e)).

(** [create_executable_desktop_entry]. *)
Definition create_executable_desktop_entry (env : Env) (exe_path : string)
    : M World unit :=
  try_except
    (let exe_name := Py.basename exe_path in
     let app_name := fst (Py.splitext exe_name) in
     write_desktop_files env app_name (text_of_lines
       ["[Desktop Entry]"; "Version=1.0"; "Type=Application";
        "Name=" +:+ app_name;
        "Comment=Application installed by Linux Universal App Installer";
        "Exec=" +:+ exe_path;
        "Icon=application-x-executable";
        "Terminal=false";
        "Categories=Utility;Application;"]) ;;
     update_desktop_database env)
    (fun e =>
       logging WARNING ("Failed to create desktop entry for " +:+ exe_path
                        +:+ ": " +:+ exn_str env e)).

(** [setup_application_directories]: the dict of the three directories, or
    the empty dict. *)
Definition setup_application_directories (env : Env) (app_name : string)
    : M World (list (string * string)) :=
  try_except
    (let app_data_dir := expanduser env ("~/.local/share/" +:+ app_name) in
     makedirs env app_data_dir ;;
     let config_dir := expanduser env ("~/.config/" +:+ app_name) in
     makedirs env config_dir ;;
     let cache_dir := expanduser env ("~/.cache/" +:+ app_name) in
     makedirs env cache_dir ;;
     ret [("data", app_data_dir); ("config", config_dir); ("cache", cache_dir)])
    (fun e =>
       logging WARNING ("Failed to create application directories for " +:+ app_name
                        +:+ ": " +:+ exn_str env e) ;;
       ret []).

(** [create_uninstall_entry(app_name, install_path, uninstall_command=None)]. *)
Definition create_uninstall_entry (env : Env) (app_name install_path : string)
    (uninstall_command : option string) : M World unit :=
  try_except
    (let uninstall_desktop :=
       expanduser env ("~/.local/share/applications/" +:+ app_name
                       +:+ "-uninstall.desktop") in
     let exec_cmd :=
       match uninstall_command with
       | Some c => Py.or_str c ("rm -rf " +:+ install_path)
       | None => "rm -rf " +:+ install_path
       end in
     write_text env uninstall_desktop (text_of_lines
       ["[Desktop Entry]"; "Version=1.0"; "Type=Application";
        "Name=Uninstall " +:+ app_name;
        "Comment=Uninstall " +:+ app_name;
        "Exec=" +:+ exec_cmd;
        "Icon=edit-delete";
        "Terminal=true";
        "Categories=Utility;System;"]) ;;
     chmod env uninstall_desktop)
    (fun e =>
       logging WARNING ("Failed to create uninstall entry for " +:+ app_name
                        +:+ ": " +:+ exn_str env e)).

(** The dict read from the lines of [defaults.list]. *)
Fixpoint parse_defaults (lines : list string) (defaults : list (string * string))
    : list (string * string) :=
  match lines with
  | [] => defaults
  | line :: rest =>
      if Py.contains line "="
      then let '(key, value) := split_eq (Py.strip line) in
           parse_defaults rest (dict_set key value defaults)
      else parse_defaults rest defaults
  end.

(** The body of the loop of [setup_file_associations] for one extension. *)
Definition associate (env : Env) (app_name ext : string) : M World unit :=
  let bare := Py.lstrip "." ext in
  let mime_type := "application/x-" +:+ app_name +:+ "-" +:+ bare in
  let mime_dir := expanduser env "~/.local/share/mime/packages" in
  makedirs env mime_dir ;;
  let mime_file := Py.path_join mime_dir (app_name +:+ "-" +:+ bare +:+ ".xml") in
  write_text env mime_file (Py.join nl
    ["<?xml version=" +:+ dq +:+ "1.0" +:+ dq +:+ " encoding=" +:+ dq +:+ "UTF-8"
       +:+ dq +:+ "?>";
     "<mime-info xmlns=" +:+ dq
       +:+ "http://www.freedesktop.org/standards/shared-mime-info" +:+ dq +:+ ">";
     "  <mime-type type=" +:+ dq +:+ mime_type +:+ dq +:+ ">";
     "    <comment>" +:+ app_name +:+ " " +:+ ext +:+ " file</comment>";
     "    <glob pattern=" +:+ dq +:+ "*" +:+ ext +:+ dq +:+ "/>";
     "  </mime-type>";
     "</mime-info>"]) ;;
  run_command env ["update-mime-database"; expanduser env "~/.local/share/mime"] ;;
  let apps_dir := expanduser env "~/.local/share/applications" in
  let defaults_file := Py.path_join apps_dir "defaults.list" in
  makedirs env apps_dir ;;
  w <- get_world ;;
  defaults <-
    (if path_exists defaults_file w then
       match read_lines env defaults_file w with
       | Some lines => ret (parse_defaults lines [])
       | None => raise (OSError ("cannot read " +:+ defaults_file))
       end
     else ret []) ;;
  let defaults := dict_set mime_type (app_name +:+ ".desktop") defaults in
  write_text env defaults_file
    (text_of_lines ((fun kv => fst kv +:+ "=" +:+ snd kv) <$> defaults)).

Fixpoint associate_all (env : Env) (app_name : string) (exts : list string)
    : M World unit :=
  match exts with
  | [] => ret tt
  | ext :: rest => associate env app_name ext ;; associate_all env app_name rest
  end.

(** [setup_file_associations(app_name, file_extensions=None)]. *)
Definition setup_file_associations (env : Env) (app_name : string)
    (file_extensions : option (list string)) : M World unit :=
  match file_extensions with
  | None | Some [] => ret tt
  | Some exts =>
      try_except (associate_all env app_name exts)
        (fun e =>
           logging WARNING ("Failed to setup file associations for " +:+ app_name
                            +:+ ": " +:+ exn_str env e))
  end.

(** The table [file_associations] of [post_install_setup]. *)
Definition file_associations : list (string * list string) :=
  [("appimage", [".appimage"]); ("tar.gz", [".tar.gz"; ".tgz"]);
   ("tar.xz", [".tar.xz"]); ("run", [".run"]); ("bin", [".bin"])].

Definition degraded_message (app_name : string) : string :=
  "Application '" +:+ app_name
    +:+ "' installed successfully, but some integration features may not be available.".

(** [post_install_setup]. *)
Definition post_install_setup (env : Env) (app_name install_path file_type : string)
    : M World string :=
  try_except
    (dirs <- setup_application_directories env app_name ;;
     create_uninstall_entry env app_name install_path None ;;
     match List.find (fun kv => String.eqb (fst kv) file_type) file_associations with
     | Some kv => setup_file_associations env app_name (Some (snd kv))
     | None => ret tt
     end ;;
     let completion_msg := Py.join nl
       [""; "Application '" +:+ app_name +:+ "' has been successfully installed!";
        ""; "Installation Details:";
        " Application Location: " +:+ install_path;
        " Desktop Shortcut: ~/Desktop/" +:+ app_name +:+ ".desktop";
        " Menu Entry: ~/.local/share/applications/" +:+ app_name +:+ ".desktop";
        " Data Directory: " +:+ dict_get "data" "N/A" dirs;
        " Config Directory: " +:+ dict_get "config" "N/A" dirs;
        "";
        "The application is now ready to use. You can find it in your applications menu or on your desktop.";
        ""] in
     logging INFO ("Post-installation setup completed for " +:+ app_name) ;;
     ret completion_msg)
    (fun e =>
       logging WARNING ("Post-installation setup failed for " +:+ app_name +:+ ": "
                        +:+ exn_str env e) ;;
       ret (degraded_message app_name)).

(** [install_appimage]. *)
Definition install_appimage (env : Env) (path : string) : M World string :=
  let app_dir := expanduser env "~/Applications" in
  dest <- try_except
    (makedirs env app_dir ;;
     dest <- resolve_destination (Py.path_join app_dir (Py.basename path)) ;;
     move env path dest ;;
     chmod env dest ;;
     create_appimage_desktop_entry env dest ;;
     completion_msg <- post_install_setup env
                         (fst (Py.splitext (Py.basename dest))) dest "appimage" ;;
     ret dest)
    (fun e => raise (Exception ("Failed to install AppImage: " +:+ exn_str env e))) ;;
  ret ("AppImage installed to " +:+ dest +:+ " with desktop integration").

(** [install_tar]. *)
Definition install_tar (env : Env) (path : string) : M World string :=
  let app_dir := expanduser env "~/Applications" in
  extract_dir <- try_except
    (makedirs env app_dir ;;
     let extract_dir := Py.path_join app_dir (fst (Py.splitext (Py.basename path))) in
     makedirs env extract_dir ;;
     run_command env ["tar"; "-xf"; path; "-C"; extract_dir] ;;
     create_tar_desktop_entries env extract_dir ;;
     let install_script := Py.path_join extract_dir "install.sh" in
     w <- get_world ;;
     (if path_exists install_script w
      then chmod env install_script ;;
           run_command env ["pkexec"; "bash"; install_script]
      else ret tt) ;;
     let app_name := Py.basename extract_dir in
     completion_msg <- post_install_setup env app_name extract_dir "tar" ;;
     ret extract_dir)
    (fun e => raise (Exception ("Failed to extract archive: " +:+ exn_str env e))) ;;
  ret ("Extracted to " +:+ extract_dir +:+ " with desktop integration").

Definition install_snap (env : Env) (path : string) : M World string :=
  w <- get_world ;;
  if negb (which env "snap" w)
  then raise (Exception "snap not found. Please install snapd.")
  else
    run_command env ["pkexec"; "snap"; "install"; path; "--dangerous"] ;;
    ret ("Successfully installed " +:+ Py.basename path).

Definition install_flatpak (env : Env) (path : string) : M World string :=
  w <- get_world ;;
  if negb (which env "flatpak" w)
  then raise (Exception "flatpak not found. Please install flatpak.")
  else
    run_command env ["flatpak"; "install"; "--user"; path] ;;
    ret ("Successfully installed " +:+ Py.basename path).

(** [install_executable]. *)
Definition install_executable (env : Env) (path : string) : M World string :=
  try_except
    (chmod env path ;;
     run_command env ["pkexec"; "bash"; path] ;;
     let exe_name := Py.basename path in
     (if negb (Py.startswith (Py.lower exe_name) "install"
               || Py.startswith (Py.lower exe_name) "setup"
               || Py.startswith (Py.lower exe_name) "configure")
      then create_executable_desktop_entry env path
      else ret tt) ;;
     let app_name := fst (Py.splitext exe_name) in
     completion_msg <- post_install_setup env app_name path "executable" ;;
     ret tt)
    (fun e => raise (Exception ("Failed to execute installer: " +:+ exn_str env e))) ;;
  ret ("Executed " +:+ Py.basename path +:+ " with desktop integration").

(** The method an attribute of the class denotes. *)
Definition method (env : Env) (p : procedure) : string -> M World string :=
  match p with
  | ProcDeb => install_deb env
  | ProcAppImage => install_appimage env
  | ProcTar => install_tar env
  | ProcSnap => install_snap env
  | ProcFlatpak => install_flatpak env
  | ProcExecutable => install_executable env
  end.

End LinuxAppInstaller.


(** ** [LinuxAppInstaller]: the window, the queue and the ledger *)

(** An [InstallWorker] and the thread of a [BatchInstaller], each with the
    answer of [isRunning]. *)
Record InstallWorker := mkWorker {
  install_func : procedure;
  worker_path : string;
  worker_running : bool
}.

Record BatchThread := mkThread {
  batch : BatchInstaller.obj;
  batch_connected : bool;           (* the three signals are connected *)
  batch_running : bool
}.

Inductive dialog :=
  | Information (title text : string)
  | Warning (title text : string)
  | Critical (title text : string).

(** What the window shows. *)
Record Window := mkWindow {
  status_label : string;
  status_bar : string;
  dialogs : list dialog;            (* the message boxes shown, oldest first *)
  accept_drops : bool;
  browse_enabled : bool;
  progress_visible : bool;
  batch_install_enabled : bool
}.

Definition set_status_label (s : string) (v : Window) : Window :=
  mkWindow s (status_bar v) (dialogs v) (accept_drops v) (browse_enabled v)
           (progress_visible v) (batch_install_enabled v).
Definition set_status_bar (s : string) (v : Window) : Window :=
  mkWindow (status_label v) s (dialogs v) (accept_drops v) (browse_enabled v)
           (progress_visible v) (batch_install_enabled v).
Definition show_dialog (d : dialog) (v : Window) : Window :=
  mkWindow (status_label v) (status_bar v) (dialogs v ++ [d]) (accept_drops v)
           (browse_enabled v) (progress_visible v) (batch_install_enabled v).
Definition set_accept_drops (b : bool) (v : Window) : Window :=
  mkWindow (status_label v) (status_bar v) (dialogs v) b (browse_enabled v)
           (progress_visible v) (batch_install_enabled v).
Definition set_browse_enabled (b : bool) (v : Window) : Window :=
  mkWindow (status_label v) (status_bar v) (dialogs v) (accept_drops v) b
           (progress_visible v) (batch_install_enabled v).
Definition set_progress_visible (b : bool) (v : Window) : Window :=
  mkWindow (status_label v) (status_bar v) (dialogs v) (accept_drops v)
           (browse_enabled v) b (batch_install_enabled v).
Definition set_batch_install_enabled (b : bool) (v : Window) : Window :=
  mkWindow (status_label v) (status_bar v) (dialogs v) (accept_drops v)
           (browse_enabled v) (progress_visible v) b.

(** The attributes of the main window. The queue holds references to task
    objects; the history holds the tasks as they are when appended, and the
    objects that [from_dict] made of the store when loaded. *)
Record App := mkApp {
  installation_queue : list nat;
  installation_history : list TaskObject;
  current_batch_installer : option BatchThread;
  current_worker : option InstallWorker;
  installing : bool;
  window : Window;
  next_ref : nat                    (* the next unused reference *)
}.

Definition set_queue (q : list nat) (a : App) : App :=
  mkApp q (installation_history a) (current_batch_installer a) (current_worker a)
        (installing a) (window a) (next_ref a).
Definition set_history (h : list TaskObject) (a : App) : App :=
  mkApp (installation_queue a) h (current_batch_installer a) (current_worker a)
        (installing a) (window a) (next_ref a).
Definition set_batch_installer (b : option BatchThread) (a : App) : App :=
  mkApp (installation_queue a) (installation_history a) b (current_worker a)
        (installing a) (window a) (next_ref a).
Definition set_worker (k : option InstallWorker) (a : App) : App :=
  mkApp (installation_queue a) (installation_history a) (current_batch_installer a) k
        (installing a) (window a) (next_ref a).
Definition set_installing (b : bool) (a : App) : App :=
  mkApp (installation_queue a) (installation_history a) (current_batch_installer a)
        (current_worker a) b (window a) (next_ref a).
Definition set_window (f : Window -> Window) (a : App) : App :=
  mkApp (installation_queue a) (installation_history a) (current_batch_installer a)
        (current_worker a) (installing a) (f (window a)) (next_ref a).
Definition set_next_ref (n : nat) (a : App) : App :=
  mkApp (installation_queue a) (installation_history a) (current_batch_installer a)
        (current_worker a) (installing a) (window a) n.

(** [l[-n:]] for [0 < n]. *)
Definition lastn {A} (n : nat) (l : list A) : list A :=
  List.skipn (length l - n) l.

(** [json.dump(data, open('history.json', 'w'))]: the store holds [data]
    afterwards, or what a failed write leaves. *)
Definition write_history_json (env : Env) (data : list (gmap string pyval))
    : M World unit :=
  fun w =>
    let w1 := record_call (WriteJson "history.json" data) w in
    match fault env (WriteJson "history.json" data) w with
    | Some err => (Raise (OSError err), set_history_json (torn env w) w1)
    | None => (Ok tt, set_history_json (Dumped data) w1)
    end.

(** [os.remove('history.json')]. *)
Definition remove_history_json (env : Env) : M World unit :=
  fun w =>
    let w1 := record_call (Remove "history.json") w in
    match fault env (Remove "history.json") w with
    | Some err => (Raise (OSError err), w1)
    | None => (Ok tt, set_history_json NoFile w1)
    end.

(** [[InstallationTask.from_dict(item) for item in history_data]]. *)
Fixpoint load_entries (env : Env) (data : list (gmap string pyval))
    : M World (list TaskObject) :=
  match data with
  | [] => ret []
  | item :: rest =>
      t <- Task.object_from_dict env item ;;
      ts <- load_entries env rest ;;
      ret (t :: ts)
  end.

Module MainWindow.

Definition show_error (msg : string) : M (App * World) unit :=
  set_self (set_window (show_dialog (Critical "Error" msg))).

(** [update_queue_display] fills the list of the window from the tasks of
    the queue, which the program constructed; it changes nothing that the
    development follows. *)
Definition update_queue_display : M (App * World) unit := ret tt.

(** The row of the history table for a task: [os.path.basename] and
    [get_file_type] need a [file_path] that is text, and [capitalize] a
    [status] that is; [end_time] is a [datetime] or [None]. The items of the
    table are not followed. *)
Definition show_row {S} (task : TaskObject) : M S unit :=
  match object_file_path task with
  | PStr _ =>
      match object_status task with
      | PStr _ => ret tt
      | PInt _ => raise (AttributeError "'int' object has no attribute 'capitalize'")
      | PNone => raise (AttributeError "'NoneType' object has no attribute 'capitalize'")
      end
  | PInt _ => raise (TypeError "expected str, bytes or os.PathLike object, not int")
  | PNone => raise (TypeError "expected str, bytes or os.PathLike object, not NoneType")
  end.

Fixpoint show_rows {S} (l : list TaskObject) : M S unit :=
  match l with
  | [] => ret tt
  | task :: rest => show_row task ;; show_rows rest
  end.

(** [update_history_display]: the rows of the last 100 entries, the newest
    first. *)
Definition update_history_display : M (App * World) unit :=
  a <- self ;;
  show_rows (rev (lastn 100 (installation_history a))).

(** [load_history]. The store that cannot be read or parsed makes [open] or
    [json.load] raise inside the [try]; the table is filled after it. *)
Definition load_history (env : Env) : M (App * World) unit :=
  try_except
    (w <- liftW get_world ;;
     match history_json w with
     | Dumped history_data =>
         loaded <- liftW (load_entries env history_data) ;;
         set_self (set_history loaded)
     | Unparsable => raise (ValueError (load_error env w))
     | NoFile => set_self (set_history [])
     end)
    (fun e =>
       liftW (logging ERROR ("Failed to load history: " +:+ exn_str env e)) ;;
       set_self (set_history [])) ;;
  update_history_display.

(** [save_history_entry(task)], for the task the reference denotes. *)
Definition save_history_entry (env : Env) (r : nat) : M (App * World) unit :=
  task <- liftW (BatchInstaller.attr r (fun t => t)) ;;
  a <- self ;;
  set_self (set_history (installation_history a ++ [object_of task])) ;;
  try_except
    (a <- self ;;
     let history_data := Task.to_dict env <$> lastn 1000 (installation_history a) in
     liftW (write_history_json env history_data))
    (fun e => liftW (logging ERROR ("Failed to save history: " +:+ exn_str env e))).

(** [add_to_queue], for the files chosen in the dialog. *)
Fixpoint add_to_queue (env : Env) (chosen : list string) : M (App * World) unit :=
  match chosen with
  | [] => ret tt
  | path :: rest =>
      w <- liftW get_world ;;
      (if isfile env path w then
         task <- liftW (Task.init env path None) ;;
         a <- self ;;
         liftW (modify_world (fun w => set_heap (<[next_ref a := task]> (heap w)) w)) ;;
         set_self (fun a => set_next_ref (S (next_ref a))
                              (set_queue (installation_queue a ++ [next_ref a]) a)) ;;
         update_queue_display
       else ret tt) ;;
      add_to_queue env rest
  end.

(** [remove_from_queue], for the id of the selected item. *)
Definition remove_from_queue (selected : option string) : M (App * World) unit :=
  match selected with
  | Some id =>
      w <- liftW get_world ;;
      set_self (fun a =>
        set_queue (List.filter (fun r => negb (String.eqb (task_id (heap w r)) id))
                               (installation_queue a)) a) ;;
      update_queue_display
  | None => ret tt
  end.

Definition clear_queue : M (App * World) unit :=
  set_self (set_queue []) ;;
  update_queue_display.

Definition batch_is_running (a : App) : bool :=
  match current_batch_installer a with
  | Some t => batch_running t
  | None => false
  end.

(** [start_batch_installation]. *)
Definition start_batch_installation : M (App * World) unit :=
  a <- self ;;
  match installation_queue a with
  | [] =>
      set_self (set_window (show_dialog
        (Information "No Files" "Please add files to the queue first.")))
  | _ :: _ =>
      if batch_is_running a then
        set_self (set_window (show_dialog
          (Warning "Installation in Progress" "Batch installation is already running.")))
      else
        set_self (set_batch_installer
          (Some (mkThread (BatchInstaller.init (installation_queue a)) false false))) ;;
        BatchInstaller.getattr "set_installer" ;;
        set_self (fun a => set_batch_installer
          ((fun t => mkThread (batch t) true (batch_running t))
             <$> current_batch_installer a) a) ;;
        BatchInstaller.getattr "start" ;;
        set_self (fun a => set_batch_installer
          ((fun t => mkThread (batch t) (batch_connected t) true)
             <$> current_batch_installer a) a) ;;
        set_self (set_window (set_batch_install_enabled false)) ;;
        set_self (set_window (set_status_bar "Batch installation started..."))
  end.

(** [on_batch_progress]. *)
Definition on_batch_progress (id : string) (percent : Z) (msg : string)
    : M (App * World) unit := ret tt.

(** [on_batch_task_completed]. *)
Definition on_batch_task_completed (env : Env) (id : string) (success : bool)
    (msg : string) : M (App * World) unit :=
  a <- self ;;
  w <- liftW get_world ;;
  match List.find (fun r => String.eqb (task_id (heap w r)) id) (installation_queue a) with
  | Some r =>
      liftW (modify_world (update_task r
               (set_status (if success then "completed" else "failed")))) ;;
      liftW (modify_world (update_task r (set_message msg))) ;;
      save_history_entry env r ;;
      update_queue_display ;;
      load_history env
  | None => ret tt
  end.

(** [on_batch_finished]. *)
Definition on_batch_finished : M (App * World) unit :=
  set_self (set_batch_installer None) ;;
  set_self (set_window (set_batch_install_enabled true)) ;;
  set_self (set_window (set_status_bar "Batch installation completed.")) ;;
  set_self (set_window (show_dialog
    (Information "Batch Complete" "All files in the queue have been processed."))).

(** [clear_history], with the answer to the question. *)
Definition clear_history (env : Env) (yes : bool) : M (App * World) unit :=
  if yes then
    set_self (set_history []) ;;
    try_except
      (w <- liftW get_world ;;
       match history_json w with
       | NoFile => ret tt
       | _ => liftW (remove_history_json env)
       end)
      (fun e => liftW (logging ERROR ("Failed to delete history file: "
                                      +:+ exn_str env e))) ;;
    update_history_display
  else ret tt.

Definition worker_is_running (a : App) : bool :=
  match current_worker a with
  | Some k => worker_running k
  | None => false
  end.

Definition busy_notice : string := "Installation already in progress. Please wait.".

(** The three tests of [install_file] on the file; each failure is logged
    and raised. *)
Definition check_file (env : Env) (path : string) : M World unit :=
  w <- get_world ;;
  if negb (path_exists path w) then
    logging ERROR ("File does not exist: " +:+ path) ;;
    raise (Exception ("File does not exist: " +:+ path))
  else if negb (access_r env path w) then
    logging ERROR ("File is not readable: " +:+ path) ;;
    raise (Exception ("File is not readable: " +:+ path))
  else if getsize env path w =? 0 then
    logging ERROR ("File is empty: " +:+ path) ;;
    raise (Exception ("File is empty: " +:+ path))
  else ret tt.

(** [install_file]. *)
Definition install_file (env : Env) (path : string) : M (App * World) unit :=
  a <- self ;;
  if installing a then set_self (set_window (set_status_label busy_notice))
  else if worker_is_running a then set_self (set_window (set_status_label busy_notice))
  else
    accepted <- try_except
      (liftW (check_file env path) ;; ret true)
      (fun e => show_error (exn_str env e) ;; ret false) ;;
    if negb accepted then ret tt
    else
      let ext := get_file_type path in
      if negb (bool_decide (ext ∈ supported_types)) then
        liftW (logging ERROR ("Unsupported file type: " +:+ ext)) ;;
        show_error ("Unsupported file type: " +:+ ext)
      else
        set_self (set_installing true) ;;
        set_self (set_window (set_accept_drops false)) ;;
        set_self (set_window (set_browse_enabled false)) ;;
        set_self (set_window (set_status_label
          ("Installing " +:+ Py.basename path +:+ "..."))) ;;
        set_self (set_window (set_progress_visible true)) ;;
        match getattr_install ext with
        | Some f => set_self (set_worker (Some (mkWorker f path true)))
        | None =>
            raise (AttributeError ("'LinuxAppInstaller' object has no attribute 'install_"
                                   +:+ Py.replace "." "_" ext +:+ "'"))
        end.

(** [reset_drop_style], like the style sheet [dragEnterEvent] sets, changes
    the look of the drop area only, which the development does not follow. *)
Definition reset_drop_style : M (App * World) unit := ret tt.

(** The loop that ends [dropEvent] and [browse_files]:
    [for file_path in files: if os.path.isfile(file_path): self.install_file(file_path)]. *)
Fixpoint install_each (env : Env) (files : list string) : M (App * World) unit :=
  match files with
  | [] => ret tt
  | file_path :: rest =>
      w <- liftW get_world ;;
      (if isfile env file_path w then install_file env file_path else ret tt) ;;
      install_each env rest
  end.

(** [dropEvent], for the local files of the urls that were dropped. *)
Definition dropEvent (env : Env) (files : list string) : M (App * World) unit :=
  reset_drop_style ;;
  a <- self ;;
  if installing a then set_self (set_window (set_status_label busy_notice))
  else install_each env files.

(** [browse_files], for the files chosen in the dialog. *)
Definition browse_files (env : Env) (chosen : list string) : M (App * World) unit :=
  a <- self ;;
  if installing a then set_self (set_window (set_status_label busy_notice))
  else install_each env chosen.

(** [start_installation]. *)
Definition start_installation (env : Env) (chosen : list string) : M (App * World) unit :=
  browse_files env chosen.

(** The loop of [check_dependencies] over the required commands; the result
    [Some 1] stands for [sys.exit(1)]. *)
Fixpoint check_commands (env : Env) (required_cmds : list string)
    : M (App * World) (option Z) :=
  match required_cmds with
  | [] => ret None
  | cmd :: rest =>
      w <- liftW get_world ;;
      if negb (which env cmd w) then
        let error_msg := "Required command '" +:+ cmd +:+ "' not found. Please install it." in
        liftW (logging ERROR error_msg) ;;
        set_self (set_window (show_dialog (Critical "Missing Dependency" error_msg))) ;;
        ret (Some 1)
      else check_commands env rest
  end.

(** [check_dependencies]. *)
Definition check_dependencies (env : Env) : M (App * World) (option Z) :=
  check_commands env ["pkexec"; "tar"].

(** [InstallWorker.run]. *)
Definition worker_run (env : Env) (k : InstallWorker) : M World unit :=
  try_except
    (result <- LinuxAppInstaller.method env (install_func k) (worker_path k) ;;
     emit (finished result))
    (fun e => emit (error (exn_str env e))).

(** The statements that [on_install_finished] and [on_install_error] share. *)
Definition restore_window : M (App * World) unit :=
  set_self (set_installing false) ;;
  set_self (set_worker None) ;;
  set_self (set_window (set_accept_drops true)) ;;
  set_self (set_window (set_browse_enabled true)) ;;
  set_self (set_window (set_progress_visible false)) ;;
  set_self (set_window (set_status_label "")).

(** [on_install_finished]. *)
Definition on_install_finished (env : Env) (msg : string) : M (App * World) unit :=
  try_except
    (restore_window ;;
     set_self (set_window (show_dialog (Information "Success" msg))))
    (fun e => liftW (logging ERROR ("Error in on_install_finished: " +:+ exn_str env e))).

(** [on_install_error]. *)
Definition on_install_error (env : Env) (error_msg : string) : M (App * World) unit :=
  try_except
    (restore_window ;;
     liftW (logging ERROR ("Installation failed: " +:+ error_msg)) ;;
     set_self (set_window (show_dialog (Critical "Installation Failed" error_msg))))
    (fun e => liftW (logging ERROR ("Error in on_install_error: " +:+ exn_str env e))).

End MainWindow.

(** ** A host to run the model on *)

(** A host on which every command exits with status 0 after one second, no
    call fails, every file is a readable, executable file of one byte, and
    the home directory is [/home/user]. *)
Definition quiet_host : Env :=
  mkEnv
    (fun p => "/home/user" +:+ Py.drop 1 p)
    (fun _ _ => Exits 1 0 "" "")
    (fun _ w => files w)
    (fun _ _ => None)
    (fun _ => Unparsable)
    (fun _ _ => true)
    path_exists
    (fun _ _ => true)
    (fun _ _ => true)
    (fun _ _ => [])
    (fun _ _ => None)
    (fun _ _ => Some [])
    (fun _ _ => 1)
    (fun _ _ => Some "e3b0c44298fc1c149afbf4c8996fb92427ae41e4649b934ca495991b7852b855")
    (fun _ => "d41d8cd9")
    Z.of_nat
    (fun d => "T" +:+ NilEmpty.string_of_int (Z.to_int d))
    (fun s => match s with
              | String "T" s' => Z.of_int <$> NilEmpty.int_of_string s'
              | _ => None
              end)
    (fun argv => "[" +:+ Py.join ", " ((fun a => "'" +:+ a +:+ "'") <$> argv) +:+ "]")
    (fun a => "'" +:+ a +:+ "'")
    (fun _ => "Expecting value: line 1 column 1 (char 0)").

(** The same host with another behaviour of the child processes, and with
    failing calls. *)
Definition with_child (f : list string -> World -> child_result) (env : Env) : Env :=
  mkEnv (expanduser env) f (aftermath env) (fault env) (torn env) (which env)
        (isfile env) (access_r env) (access_x env) (walk env) (read_head env)
        (read_lines env) (getsize env) (sha256_hex env) (md5_hex8 env) (clock env)
        (isoformat env) (fromisoformat env) (repr_argv env) (repr_str env)
        (load_error env).

Definition with_fault (f : syscall -> World -> option string) (env : Env) : Env :=
  mkEnv (expanduser env) (child env) (aftermath env) f (torn env) (which env)
        (isfile env) (access_r env) (access_x env) (walk env) (read_head env)
        (read_lines env) (getsize env) (sha256_hex env) (md5_hex8 env) (clock env)
        (isoformat env) (fromisoformat env) (repr_argv env) (repr_str env)
        (load_error env).

(** A task as [InstallationTask(path)] makes it on the quiet host, and a
    world with the given files and task objects and nothing else. *)
Definition fresh_task (path : string) : InstallationTask :=
  mkTask path "d41d8cd9" "queued" 0 "" None None
         "e3b0c44298fc1c149afbf4c8996fb92427ae41e4649b934ca495991b7852b855" 1.

Definition world_of (f : gset string) (objects : list InstallationTask) : World :=
  mkWorld f NoFile [] [] 0
          (fun r => nth r objects (fresh_task "")) [].

Definition empty_window : Window := mkWindow "" "Ready" [] true true false true.

Definition app_of (queue : list nat) : App :=
  mkApp queue [] None None false empty_window (length queue).

(** ** The vocabulary of the properties *)

(** The character [c] does not occur in [s]. *)
Fixpoint free_of (c : ascii) (s : string) : bool :=
  match s with
  | EmptyString => true
  | String a s' => negb (Ascii.eqb a c) && free_of c s'
  end.

(** A task object whose row [update_history_display] can fill: its path and
    its status are text. *)
Definition displayable (o : TaskObject) : bool :=
  match object_file_path o, object_status o with
  | PStr _, PStr _ => true
  | _, _ => false
  end.

(** A task object that [from_dict] makes again of its own record: its id is
    true, so that [__init__] keeps it, and its path is not [None]. *)
Definition storable (o : TaskObject) : Prop :=
  Task.truthy (Some (object_task_id o)) = true /\ object_file_path o <> PNone.

(** The text is ASCII: each of its bytes is below 128. *)
Fixpoint is_ascii (s : string) : bool :=
  match s with
  | EmptyString => true
  | String a s' => (nat_of_ascii a <? 128)%nat && is_ascii s'
  end.

(** What a procedure on the host leaves alone: the task objects, the
    signals, the ledger's store and the clock; the calls and the log only
    grow. *)
Record frame (w w' : World) : Prop := mkFrame {
  frame_heap : heap w' = heap w;
  frame_signals : signals w' = signals w;
  frame_history : history_json w' = history_json w;
  frame_ticks : ticks w' = ticks w;
  frame_calls : calls w `prefix_of` calls w';
  frame_log : log w `prefix_of` log w'
}.

(** A procedure that returns or raises, and moves the world within
    [frame]. *)
Definition host_only {A} (m : M World A) : Prop :=
  forall w, fst (m w) <> Diverges /\ frame w (snd (m w)).

(** The task as a round of the loop leaves it. *)
Definition closed_task (env : Env) (t : InstallationTask) (ticks0 : nat)
    (st msg : string) : InstallationTask :=
  mkTask (file_path t) (task_id t) st (progress t) msg
         (Some (clock env ticks0)) (Some (clock env (S ticks0)))
         (file_hash t) (file_size t).

Definition starting (t : InstallationTask) : signal :=
  progress_updated (task_id t) 10
    ("Starting installation of " +:+ Py.basename (file_path t)).

Definition installing_signal (t : InstallationTask) : signal :=
  progress_updated (task_id t) 50 "Installing...".

(** The world in which [install_func(task.file_path)] is called in the round
    that starts in [w], and what the call gives. *)
Definition attempted_in (env : Env) (r : nat) (w : World) : World :=
  record_signal (installing_signal (heap w r))
    (record_signal (starting (heap w r))
       (update_task r (set_start_time (Some (clock env (ticks w))))
          (tick (update_task r (set_status "installing") w)))).

Definition install_result (env : Env) (r : nat) (w : World) : res string :=
  let path := file_path (heap w r) in
  match getattr_install (get_file_type path) with
  | None => Raise (Exception ("Unsupported file type: " +:+ get_file_type path))
  | Some f => fst (BatchInstaller.method env f path (attempted_in env r w))
  end.

Definition final_status (result : res string) : string :=
  match result with Ok _ => "completed" | _ => "failed" end.

Definition final_message (env : Env) (result : res string) : string :=
  match result with
  | Ok msg => msg
  | Raise e => exn_str env e
  | Diverges => ""
  end.

(** The signals of one round. *)
Definition task_signals (env : Env) (t : InstallationTask) (result : res string)
    : list signal :=
  [starting t]
  ++ match getattr_install (get_file_type (file_path t)) with
     | Some _ => [installing_signal t]
     | None => []
     end
  ++ match result with
     | Ok msg => [progress_updated (task_id t) 100 msg;
                  task_completed (task_id t) true msg]
     | Raise e => [progress_updated (task_id t) 100 ("Failed: " +:+ exn_str env e);
                   task_completed (task_id t) false (exn_str env e)]
     | Diverges => []
     end.

(** The world after the rounds for the tasks of [q], taken from the left. *)
Definition processed (env : Env) (q : list nat) (w : World) : World :=
  fold_left (fun w r => snd (BatchInstaller.run_task env r w)) q w.

Definition done_task (t : InstallationTask) : Prop :=
  (status t = "completed" \/ status t = "failed")
  /\ is_Some (start_time t) /\ is_Some (end_time t).

(** The ids of the [task_completed] signals, and the number of
    [batch_finished] signals, in a list of signals. *)
Definition completed_ids (l : list signal) : list string :=
  omap (fun s => match s with task_completed id _ _ => Some id | _ => None end) l.

Definition finished_count (l : list signal) : nat :=
  length (List.filter (fun s => bool_decide (s = batch_finished)) l).

(** A computation that makes the calls [marks], in this order and possibly
    among others, whether it returns or raises; and one that moreover
    returns. *)
Definition attempts {A} (marks : list syscall) (m : M World A) : Prop :=
  forall w, fst (m w) <> Diverges
    /\ exists l, calls (snd (m w)) = calls w ++ l /\ marks `sublist_of` l.

Definition runs {A} (marks : list syscall) (m : M World A) : Prop :=
  forall w, (exists a, fst (m w) = Ok a)
    /\ exists l, calls (snd (m w)) = calls w ++ l /\ marks `sublist_of` l.

(** The calls the integration steps begin with. *)
Definition mount_point (app_name : string) : syscall :=
  MakeDirs ("/tmp/" +:+ app_name +:+ "_mount").
Definition menu_directory (env : Env) (app_name : string) : syscall :=
  MakeDirs (Py.dirname (expanduser env
    ("~/.local/share/applications/" +:+ app_name +:+ ".desktop"))).
Definition data_directory (env : Env) (app_name : string) : syscall :=
  MakeDirs (expanduser env ("~/.local/share/" +:+ app_name)).
Definition uninstall_entry (env : Env) (app_name install_path : string) : syscall :=
  WriteText
    (expanduser env ("~/.local/share/applications/" +:+ app_name +:+ "-uninstall.desktop"))
    (text_of_lines
       ["[Desktop Entry]"; "Version=1.0"; "Type=Application";
        "Name=Uninstall " +:+ app_name;
        "Comment=Uninstall " +:+ app_name;
        "Exec=rm -rf " +:+ install_path;
        "Icon=edit-delete";
        "Terminal=true";
        "Categories=Utility;System;"]).
Definition mime_directory (env : Env) : syscall :=
  MakeDirs (expanduser env "~/.local/share/mime/packages").

Definition hostile_host : Env :=
  with_child (fun _ _ => CannotStart "Permission denied")
    (with_fault (fun c _ =>
       match c with
       | MakeDirs "/home/user/Applications" | Move _ _ | Chmod _ => None
       | _ => Some "Permission denied"
       end) quiet_host).

(** The message of the first test of [install_file] that the file fails. *)
Definition rejection (env : Env) (path : string) (w : World) : option string :=
  if negb (path_exists path w) then Some ("File does not exist: " +:+ path)
  else if negb (access_r env path w) then Some ("File is not readable: " +:+ path)
  else if getsize env path w =? 0 then Some ("File is empty: " +:+ path)
  else None.

(** The texts that [s.replace(a, b)] maps to [t]. *)
Fixpoint unreplace (a b : ascii) (t : string) : list string :=
  match t with
  | EmptyString => [EmptyString]
  | String c t' =>
      if Ascii.eqb c b then (String a <$> unreplace a b t') ++ (String b <$> unreplace a b t')
      else if Ascii.eqb c a then []
      else String c <$> unreplace a b t'
  end.

(** The child of [cmd] exits with status 0 within the 300 seconds of
    [run_command], and its output is text. *)
Definition child_ok (env : Env) (cmd : list string) (w : World) : bool :=
  match child env cmd w with
  | Exits seconds rc _ _ => (seconds <=? 300) && (rc =? 0)
  | _ => false
  end.

(** The world a command that [run_command] accepts leaves. *)
Definition after_command (env : Env) (cmd : list string) (w : World) : World :=
  set_files (aftermath env cmd w) (record_call (Spawn cmd 300) w).

(** [os.chmod(path, 0o755)] succeeds in [w]. *)
Definition chmod_ok (env : Env) (path : string) (w : World) : bool :=
  path_exists path w
  && match fault env (Chmod path) w with None => true | Some _ => false end.

(** The window as [install_file] leaves it when it accepts [path] and hands
    it to a worker that runs [f]. *)
Definition accepted (f : procedure) (path : string) (a : App) : App :=
  set_worker (Some (mkWorker f path true))
    (set_window (set_progress_visible true)
       (set_window (set_status_label ("Installing " +:+ Py.basename path +:+ "..."))
          (set_window (set_browse_enabled false)
             (set_window (set_accept_drops false) (set_installing true a))))).

(** A computation all of whose calls on the host pass the test [P]. *)
Definition only_calls {A} (P : syscall -> bool) (m : M World A) : Prop :=
  forall w, exists l, calls (snd (m w)) = calls w ++ l /\ Forall (fun c => P c = true) l.

(** An argument vector against a pattern in which [None] stands for any one
    argument. *)
Fixpoint matches (pattern : list (option string)) (argv : list string) : bool :=
  match pattern, argv with
  | [], [] => true
  | Some s :: pattern', a :: argv' => String.eqb s a && matches pattern' argv'
  | None :: pattern', _ :: argv' => matches pattern' argv'
  | _, _ => false
  end.

(** The commands of the install procedures of [BatchInstaller], and the
    commands that the desktop integration of the window adds. *)
Definition batch_commands : list (list (option string)) :=
  [[Some "pkexec"; Some "dpkg"; Some "-i"; None];
   [Some "pkexec"; Some "apt-get"; Some "install"; Some "-f"];
   [Some "tar"; Some "-xf"; None; Some "-C"; None];
   [Some "pkexec"; Some "bash"; None];
   [Some "pkexec"; Some "snap"; Some "install"; None; Some "--dangerous"];
   [Some "flatpak"; Some "install"; Some "--user"; None]].

Definition integration_commands : list (list (option string)) :=
  [[Some "update-desktop-database"; None]; [Some "update-mime-database"; None]].

(** The calls of a procedure of the batch: directories, a move, modes, and
    its commands with the timeout of 300 seconds. *)
Definition batch_call (c : syscall) : bool :=
  match c with
  | Spawn argv timeout =>
      (timeout =? 300) && existsb (fun p => matches p argv) batch_commands
  | MakeDirs _ | Move _ _ | Chmod _ => true
  | WriteText _ _ | CopyFile _ _ | WriteJson _ _ | Remove _ => false
  end.

(** The calls of a procedure of the window: those of the batch, the files
    and commands of the desktop integration, and the mount of an AppImage
    with its timeout of 10 seconds. *)
Definition window_call (c : syscall) : bool :=
  match c with
  | Spawn argv timeout =>
      (timeout =? 300)
        && existsb (fun p => matches p argv) (batch_commands ++ integration_commands)
      || (timeout =? 10) && matches [None; Some "--appimage-mount"] argv
  | MakeDirs _ | Move _ _ | Chmod _ | WriteText _ _ | CopyFile _ _ => true
  | WriteJson _ _ | Remove _ => false
  end.

(** A call that is not the update of the MIME database. *)
Definition association_free (c : syscall) : bool :=
  match c with
  | Spawn argv _ => negb (matches [Some "update-mime-database"; None] argv)
  | _ => true
  end.

(** A test that every call on a directory or a file passes, whatever its
    paths. *)
Definition plain (P : syscall -> bool) : Prop :=
  (forall p, P (MakeDirs p) = true) /\ (forall p c, P (WriteText p c) = true)
  /\ (forall p, P (Chmod p) = true) /\ (forall p q, P (CopyFile p q) = true)
  /\ (forall p q, P (Move p q) = true).

(** The executables [create_tar_desktop_entries] finds under a directory,
    in the order of the walk. *)
Definition found_executables (env : Env) (extract_dir : string) (w : World) : list string :=
  (fun rf => Py.path_join (fst rf) (snd rf))
    <$> List.filter (fun rf => LinuxAppInstaller.is_application env (fst rf) (snd rf) w)
                    (walk env extract_dir w).

(** A call that writes no file but the menu entry or the shortcut of one of
    the given executables, installer scripts apart. *)
Definition writes_entries_of (env : Env) (executables : list string) (c : syscall) : bool :=
  match c with
  | WriteText path _ =>
      existsb (fun exe =>
                 let name := Py.basename exe in
                 negb (bool_decide (name ∈ ["install.sh"; "uninstall.sh"; "configure"]))
                 && (String.eqb path (expanduser env ("~/.local/share/applications/"
                                                       +:+ name +:+ ".desktop"))
                     || String.eqb path (expanduser env ("~/Desktop/" +:+ name
                                                          +:+ ".desktop"))))
              executables
  | _ => true
  end.

(** A call that writes a text file. *)
Definition writes_text (c : syscall) : bool :=
  match c with WriteText _ _ => true | _ => false end.

(** The percentages of the [progress_updated] signals in a list of
    signals. *)
Definition percents (l : list signal) : list Z :=
  omap (fun s => match s with progress_updated _ p _ => Some p | _ => None end) l.


(** * Properties *)

(** ** Text *)

Lemma app_cons (a : ascii) (s t : string) : String a s +:+ t = String a (s +:+ t).
Proof. reflexivity. Qed.

Lemma app_empty_l (t : string) : "" +:+ t = t.
Proof. reflexivity. Qed.

Lemma string_length_app (s t : string) :
  String.length (s +:+ t) = (String.length s + String.length t)%nat.
Proof.
  induction s as [|a s IH]; [reflexivity|].
  rewrite app_cons. simpl. now rewrite IH.
Qed.

Lemma app_assoc_str (s t u : string) : (s +:+ t) +:+ u = s +:+ (t +:+ u).
Proof.
  induction s as [|a s IH]; [reflexivity|].
  rewrite !app_cons. now rewrite IH.
Qed.

Lemma app_inj_r (s1 s2 t : string) : s1 +:+ t = s2 +:+ t -> s1 = s2.
Proof.
  revert s2. induction s1 as [|a s1 IH]; intros [|b s2] H.
  - reflexivity.
  - apply (f_equal String.length) in H. rewrite app_cons in H. simpl in H.
    rewrite app_empty_l, string_length_app in H. lia.
  - apply (f_equal String.length) in H. rewrite app_cons in H. simpl in H.
    rewrite app_empty_l, string_length_app in H. lia.
  - rewrite !app_cons in H. injection H as -> H. f_equal. now apply IH.
Qed.

Lemma endswith_app (s suf : string) : Py.endswith (s +:+ suf) suf = true.
Proof.
  induction s as [|a s IH].
  - rewrite app_empty_l. destruct suf; [reflexivity|].
    cbn [Py.endswith]. now rewrite String.eqb_refl.
  - rewrite app_cons. cbn [Py.endswith].
    destruct (String.eqb (String a (s +:+ suf)) suf); [reflexivity|exact IH].
Qed.

Lemma endswith_inv (s suf : string) :
  Py.endswith s suf = true -> exists pre, s = pre +:+ suf.
Proof.
  induction s as [|a s IH]; cbn [Py.endswith].
  - destruct (String.eqb_spec "" suf) as [<-|]; [|discriminate].
    intros _. now exists "".
  - destruct (String.eqb_spec (String a s) suf) as [<-|].
    + intros _. now exists "".
    + intros [pre ->]%IH. now exists (String a pre).
Qed.

(** Two suffixes of one text that have the same length are equal. *)
Lemma suffix_same_length (p1 p2 s1 s2 : string) :
  p1 +:+ s1 = p2 +:+ s2 -> String.length s1 = String.length s2 -> s1 = s2.
Proof.
  revert p2. induction p1 as [|a p1 IH]; intros [|b p2] H L.
  - exact H.
  - apply (f_equal String.length) in H. rewrite app_cons in H. simpl in H.
    rewrite app_empty_l, string_length_app in H. lia.
  - apply (f_equal String.length) in H. rewrite app_cons in H. simpl in H.
    rewrite app_empty_l, string_length_app in H. lia.
  - rewrite !app_cons in H. injection H as _ H. now apply (IH p2).
Qed.

Lemma prefix_app (n t : string) : String.prefix n (n +:+ t) = true.
Proof.
  induction n as [|a n IH]; [now destruct t|].
  rewrite app_cons. simpl. destruct (ascii_dec a a); [apply IH|congruence].
Qed.

Lemma contains_unfold (s needle : string) :
  Py.contains s needle =
  if String.prefix needle s then true
  else match s with
       | EmptyString => false
       | String _ s' => Py.contains s' needle
       end.
Proof. now destruct s. Qed.

Lemma contains_app (pre needle post : string) :
  Py.contains (pre +:+ needle +:+ post) needle = true.
Proof.
  induction pre as [|a pre IH].
  - rewrite app_empty_l, contains_unfold. now rewrite prefix_app.
  - rewrite app_cons, contains_unfold.
    destruct (String.prefix needle (String a (pre +:+ needle +:+ post)));
      [reflexivity|exact IH].
Qed.

(** ** Format detection and dispatch (C4) *)

Lemma get_file_type_tar_gz (stem : string) : get_file_type (stem +:+ ".tar.gz") = "tar.gz".
Proof. unfold get_file_type. now rewrite endswith_app. Qed.

Lemma get_file_type_tar_xz (stem : string) : get_file_type (stem +:+ ".tar.xz") = "tar.xz".
Proof.
  unfold get_file_type.
  destruct (Py.endswith (stem +:+ ".tar.xz") ".tar.gz") eqn:E.
  - apply endswith_inv in E as [pre E].
    apply suffix_same_length in E; [discriminate|reflexivity].
  - now rewrite endswith_app.
Qed.

(** A path that ends in neither of the two gets the tag of its last
    suffix. *)
Lemma get_file_type_single (path : string) :
  Py.endswith path ".tar.gz" = false ->
  Py.endswith path ".tar.xz" = false ->
  get_file_type path = Py.lstrip "." (Py.lower (snd (Py.splitext path))).
Proof. unfold get_file_type. now intros -> ->. Qed.

Lemma free_of_app (c : ascii) (s t : string) :
  free_of c (s +:+ t) = free_of c s && free_of c t.
Proof.
  induction s as [|a s IH]; [reflexivity|].
  rewrite app_cons. cbn [free_of]. rewrite IH. now rewrite andb_assoc.
Qed.

Lemma rfind_from_free (c : ascii) (s : string) (i acc : Z) :
  free_of c s = true -> Py.rfind_from c s i acc = acc.
Proof.
  revert i acc. induction s as [|a s IH]; intros i acc H; [reflexivity|].
  cbn [free_of] in H. apply andb_true_iff in H as [Ha Hs].
  cbn [Py.rfind_from]. apply negb_true_iff in Ha. rewrite Ha. now apply IH.
Qed.

Lemma rfind_from_last (c : ascii) (pre post : string) (i acc : Z) :
  free_of c post = true ->
  Py.rfind_from c (pre +:+ String c post) i acc = i + Z.of_nat (String.length pre).
Proof.
  intros Hpost. revert i acc. induction pre as [|a pre IH]; intros i acc.
  - rewrite app_empty_l. cbn [Py.rfind_from]. rewrite Ascii.eqb_refl.
    rewrite rfind_from_free by exact Hpost. cbn [String.length]. lia.
  - rewrite app_cons. cbn [Py.rfind_from]. rewrite IH. cbn [String.length]. lia.
Qed.

Lemma get_app_length (pre : string) (a : ascii) (s : string) :
  String.get (String.length pre) (pre +:+ String a s) = Some a.
Proof. induction pre as [|b pre IH]; [reflexivity|exact IH]. Qed.

Lemma take_app_length (pre s : string) : Py.take (String.length pre) (pre +:+ s) = pre.
Proof.
  induction pre as [|b pre IH]; [now destruct s|].
  rewrite app_cons. cbn [String.length Py.take]. now rewrite IH.
Qed.

Lemma drop_app_length (pre s : string) : Py.drop (String.length pre) (pre +:+ s) = s.
Proof. induction pre as [|b pre IH]; [now destruct s|exact IH]. Qed.

Lemma lower_char_dot (a : ascii) : Ascii.eqb a "." = false -> Ascii.eqb (Py.lower_char a) "." = false.
Proof.
  destruct a as [[] [] [] [] [] [] [] []]; intros H; try discriminate H; reflexivity.
Qed.

Lemma lstrip_lower_free (s : string) :
  free_of "." s = true -> Py.lstrip "." (Py.lower s) = Py.lower s.
Proof.
  destruct s as [|a s]; [reflexivity|].
  cbn [free_of]. intros [Ha _]%andb_true_iff. apply negb_true_iff in Ha.
  cbn [Py.lower Py.lstrip]. now rewrite lower_char_dot.
Qed.

(** The separator that ends the directory part is the last one of the path. *)
Lemma rfind_sep (pre rest : string) :
  pre = "" \/ (exists dir, pre = dir +:+ "/") ->
  free_of "/" rest = true ->
  Py.rfind "/" (pre +:+ rest) + 1 = Z.of_nat (String.length pre).
Proof.
  intros [->|[dir ->]] Hrest; unfold Py.rfind.
  - rewrite app_empty_l, rfind_from_free by exact Hrest. reflexivity.
  - rewrite app_assoc_str. change ("/" +:+ rest) with (String "/" rest).
    rewrite rfind_from_last by exact Hrest.
    rewrite string_length_app. cbn [String.length]. lia.
Qed.

Lemma splitext_last_suffix (pre : string) (c : ascii) (stem ext : string) :
  pre = "" \/ (exists dir, pre = dir +:+ "/") ->
  Ascii.eqb c "." = false ->
  free_of "/" (String c stem) = true ->
  free_of "/" ext = true ->
  free_of "." ext = true ->
  Py.splitext (pre +:+ (String c stem +:+ String "." ext))
  = (pre +:+ String c stem, String "." ext).
Proof.
  intros Hpre Hc Hstem Hext Hdot.
  set (p := pre +:+ (String c stem +:+ String "." ext)).
  assert (Hsep : Py.rfind "/" p + 1 = Z.of_nat (String.length pre)).
  { apply rfind_sep; [exact Hpre|].
    rewrite free_of_app, Hstem. cbn [free_of]. now rewrite Hext. }
  assert (Hp : p = (pre +:+ String c stem) +:+ String "." ext).
  { unfold p. now rewrite app_assoc_str. }
  assert (Hdoti : Py.rfind "." p = Z.of_nat (String.length (pre +:+ String c stem))).
  { rewrite Hp. unfold Py.rfind. rewrite rfind_from_last by exact Hdot. lia. }
  unfold Py.splitext. fold p. rewrite Hdoti.
  assert (Hlen : (String.length (pre +:+ String c stem) = String.length pre + S (String.length stem))%nat).
  { now rewrite string_length_app. }
  destruct (Z.ltb_spec (Py.rfind "/" p) (Z.of_nat (String.length (pre +:+ String c stem)))) as [_|Hge];
    [|lia].
  destruct (String.length p) as [|rounds] eqn:Hrounds.
  { rewrite Hp, string_length_app in Hrounds. cbn [String.length] in Hrounds. lia. }
  cbn [Py.skip_leading_dots]. rewrite Hsep.
  destruct (Z.ltb_spec (Z.of_nat (String.length pre)) (Z.of_nat (String.length (pre +:+ String c stem)))) as [_|Hge];
    [|lia].
  unfold Py.char_differs. rewrite Nat2Z.id. unfold p at 1.
  rewrite app_cons, get_app_length. rewrite Hc. cbn [negb]. rewrite Nat2Z.id.
  rewrite Hp. now rewrite take_app_length, drop_app_length.
Qed.

(** X1. A file name with a stem and one last suffix gets the suffix, lowered
    and without its dot, unless the path ends in one of the two double ones.
    The suffix is ASCII text, on which [lower] is the method of [str]; the
    directory and the stem are any text. *)
Lemma get_file_type_last_suffix (pre : string) (c : ascii) (stem ext : string) :
  pre = "" \/ (exists dir, pre = dir +:+ "/") ->
  Ascii.eqb c "." = false ->
  free_of "/" (String c stem) = true ->
  free_of "/" ext = true ->
  free_of "." ext = true ->
  is_ascii ext = true ->
  let path := pre +:+ (String c stem +:+ String "." ext) in
  Py.endswith path ".tar.gz" = false ->
  Py.endswith path ".tar.xz" = false ->
  get_file_type path = Py.lower ext.
Proof.
  intros Hpre Hc Hstem Hext Hdot _ path Hgz Hxz.
  rewrite get_file_type_single by assumption.
  unfold path. rewrite splitext_last_suffix by assumption.
  cbn [snd Py.lower Py.lstrip]. 
  change (Ascii.eqb (Py.lower_char ".") ".") with true. cbn iota.
  now apply lstrip_lower_free.
Qed.

Lemma get_file_type_last_suffix_witness :
  get_file_type "/d/App.AppImage" = Py.lower "AppImage".
Proof.
  exact (get_file_type_last_suffix "/d/" "A" "pp" "AppImage"
           (or_intror (ex_intro _ "/d" eq_refl)) eq_refl eq_refl eq_refl eq_refl
           eq_refl eq_refl eq_refl).
Defined.

Example get_file_type_samples :
  get_file_type "/d/App.AppImage" = "appimage"
  /\ get_file_type "/d/pkg_1.0-2_amd64.deb" = "deb"
  /\ get_file_type "/d/archive.tar.gz" = "tar.gz"
  /\ get_file_type "/d/archive.TAR.GZ" = "gz"
  /\ get_file_type "/d/.bashrc" = ""
  /\ get_file_type "/d.v2/tool" = "".
Proof. repeat split; reflexivity. Qed.

(** The window accepts exactly the paths whose tag is in its list; each of
    them resolves to a procedure. *)
Lemma interactive_dispatch_supported (path : string) :
  (exists f, interactive_dispatch path = Some f) <-> get_file_type path ∈ supported_types.
Proof.
  unfold interactive_dispatch. case_bool_decide as H; split.
  - intros _. exact H.
  - intros _. unfold supported_types in H.
    repeat (apply elem_of_cons in H as [->|H]; [eexists; reflexivity|]).
    now apply elem_of_nil in H.
  - intros [f Hf]. discriminate.
  - intros H'. contradiction.
Qed.

(** C4. The tag [executable] is outside the list of supported types, and the
    window rejects a path that carries it; the dispatcher of the batch
    resolves the same path to [install_executable], the helper behind
    [install_run] and [install_bin], and the batch runs the file. *)
Theorem batch_dispatch_accepts_unsupported_tag :
  get_file_type "/d/tool.executable" = "executable"
  /\ ("executable" ∉ supported_types)
  /\ interactive_dispatch "/d/tool.executable" = None
  /\ batch_dispatch "/d/tool.executable" = Some ProcExecutable
  /\ signals (snd (snd (BatchInstaller.run quiet_host
        (BatchInstaller.init [0%nat],
         world_of {["/d/tool.executable"]} [fresh_task "/d/tool.executable"]))))
     = [progress_updated "d41d8cd9" 10 "Starting installation of tool.executable";
        progress_updated "d41d8cd9" 50 "Installing...";
        progress_updated "d41d8cd9" 100 "Executed tool.executable";
        task_completed "d41d8cd9" true "Executed tool.executable";
        batch_finished].
Proof.
  split; [reflexivity|]. split; [|split; [|split]].
  - unfold supported_types. intros H.
    repeat (apply elem_of_cons in H as [H|H]; [discriminate|]).
    now apply elem_of_nil in H.
  - vm_compute. reflexivity.
  - reflexivity.
  - vm_compute. reflexivity.
Qed.

(** ** The destination of an AppImage (C2) *)

Lemma candidate_inj (base ext : string) (j k : nat) :
  candidate base ext j = candidate base ext k -> j = k.
Proof.
  unfold candidate. intros H.
  apply (inj (String.app base)) in H.
  apply (inj (String.app "_")) in H.
  apply app_inj_r in H.
  now apply (inj pretty) in H.
Qed.

(** When the loop stops at [k], the candidates from [counter] up to [k] are
    taken and the one of [k] is free. *)
Lemma count_up_Some (taken : string -> bool) (base ext : string) (rounds counter k : nat) :
  count_up taken base ext rounds counter = Some k ->
  (counter <= k)%nat
  /\ taken (candidate base ext k) = false
  /\ forall j, (counter <= j < k)%nat -> taken (candidate base ext j) = true.
Proof.
  revert counter. induction rounds as [|rounds IH]; intros counter; [discriminate|].
  simpl. destruct (taken (candidate base ext counter)) eqn:E.
  - intros [H1 [H2 H3]]%IH. split; [lia|]. split; [exact H2|].
    intros j Hj. destruct (decide (j = counter)) as [->|]; [exact E|].
    apply H3. lia.
  - intros [= <-]. split; [lia|]. split; [exact E|]. intros j Hj. lia.
Qed.

(** When the bound is reached, one candidate per round is taken. *)
Lemma count_up_None (taken : string -> bool) (base ext : string) (rounds counter : nat) :
  count_up taken base ext rounds counter = None ->
  forall j, (counter <= j < counter + rounds)%nat -> taken (candidate base ext j) = true.
Proof.
  revert counter. induction rounds as [|rounds IH]; intros counter; [intros _ j; lia|].
  simpl. destruct (taken (candidate base ext counter)) eqn:E; [|discriminate].
  intros H j Hj. destruct (decide (j = counter)) as [->|]; [exact E|].
  apply (IH _ H). lia.
Qed.

(** One round more than there are paths is enough: the candidates are
    different names, and not all of them can be taken. *)
Lemma count_up_ends (fs : gset string) (base ext : string) (counter : nat) :
  exists k, count_up (fun p => bool_decide (p ∈ fs)) base ext (S (size fs)) counter = Some k.
Proof.
  destruct (count_up _ base ext (S (size fs)) counter) as [k|] eqn:E; [now exists k|].
  exfalso.
  pose proof (count_up_None _ _ _ _ _ E) as H.
  set (l := candidate base ext <$> seq counter (S (size fs))).
  assert (ND : NoDup l).
  { apply NoDup_fmap_2_strong; [|apply NoDup_seq].
    intros j k _ _. apply candidate_inj. }
  assert (Sub : list_to_set (C := gset string) l ⊆ fs).
  { intros p [j [-> Hj]]%elem_of_list_to_set%list_elem_of_fmap.
    apply elem_of_seq in Hj. specialize (H j ltac:(lia)).
    now apply bool_decide_eq_true in H. }
  apply subseteq_size in Sub. rewrite size_list_to_set in Sub by exact ND.
  unfold l in Sub. rewrite length_fmap, length_seq in Sub. lia.
Qed.

(** The loop of the procedure returns, and what it returns: [dest] itself
    when it is free, else the candidate of the least counter from 1 on whose
    name is free. *)
Lemma resolve_destination_spec (dest : string) (w : World) :
  exists d,
    resolve_destination dest w = (Ok d, w)
    /\ path_exists d w = false
    /\ (path_exists dest w = false -> d = dest)
    /\ (path_exists dest w = true ->
        exists k, (1 <= k)%nat
          /\ d = candidate (fst (Py.splitext dest)) (snd (Py.splitext dest)) k
          /\ forall j, (1 <= j < k)%nat ->
               path_exists (candidate (fst (Py.splitext dest)) (snd (Py.splitext dest)) j) w
               = true).
Proof.
  unfold resolve_destination.
  destruct (path_exists dest w) eqn:E.
  - destruct (Py.splitext dest) as [base ext]. cbn [fst snd].
    destruct (count_up_ends (files w) base ext 1) as [k Hk].
    change (fun p => path_exists p w) with (fun p => bool_decide (p ∈ files w)).
    rewrite Hk.
    apply count_up_Some in Hk as [H1 [H2 H3]].
    exists (candidate base ext k). split; [reflexivity|]. split; [exact H2|].
    split; [discriminate|]. intros _. exists k. split; [exact H1|].
    split; [reflexivity|exact H3].
  - exists dest. split; [reflexivity|]. split; [exact E|].
    split; [reflexivity|discriminate].
Qed.

Lemma path_exists_true (p : string) (w : World) : path_exists p w = true <-> p ∈ files w.
Proof. unfold path_exists. apply bool_decide_eq_true. Qed.

Lemma path_exists_false (p : string) (w : World) : path_exists p w = false <-> p ∉ files w.
Proof. unfold path_exists. apply bool_decide_eq_false. Qed.

(** What [BatchInstaller.install_appimage] does when no call fails: the
    file is moved onto the resolved name, which no path carried. *)
Lemma batch_install_appimage_moves (env : Env) (path : string) (w : World) :
  let app_dir := expanduser env "~/Applications" in
  let w1 := snd (makedirs env app_dir w) in
  forall msg w',
    BatchInstaller.install_appimage env path w = (Ok msg, w') ->
    exists d,
      resolve_destination (Py.path_join app_dir (Py.basename path)) w1 = (Ok d, w1)
      /\ (d ∉ files w1)
      /\ msg = "AppImage installed to " +:+ d
      /\ calls w' = calls w ++ [MakeDirs app_dir; Move path d; Chmod d]
      /\ files w' = {[d]} ∪ (files w1 ∖ {[path]}).
Proof.
  intros app_dir w1 msg w'. unfold BatchInstaller.install_appimage.
  fold app_dir. unfold bind at 1. subst w1.
  unfold makedirs, fs_call.
  destruct (fault env (MakeDirs app_dir) w) eqn:F1; [discriminate|]. simpl.
  set (w1 := set_files _ _).
  destruct (resolve_destination_spec (Py.path_join app_dir (Py.basename path)) w1)
    as [d [Hd [Hfree _]]].
  unfold bind at 1. rewrite Hd.
  unfold bind at 1. unfold move.
  destruct (path_exists path w1) eqn:Hsrc; [|discriminate].
  unfold fs_call. destruct (fault env (Move path d) w1) eqn:F2; [discriminate|].
  unfold bind at 1. unfold chmod. set (w2 := set_files _ (record_call _ w1)).
  destruct (path_exists d w2) eqn:Hd2; [|discriminate].
  unfold fs_call. destruct (fault env (Chmod d) w2) eqn:F3; [discriminate|].
  unfold ret. intros [= <- <-].
  apply path_exists_false in Hfree.
  exists d. split; [reflexivity|]. split; [exact Hfree|].
  split; [reflexivity|]. split.
  - simpl. now rewrite <- !app_assoc.
  - reflexivity.
Qed.

(** Between two worlds of which the second has all the paths of the first
    and the name chosen in the first, the counter chosen grows. *)
Lemma resolve_destination_grows (dest : string) (w w' : World) (k k' : nat) :
  let base := fst (Py.splitext dest) in
  let ext := snd (Py.splitext dest) in
  (forall j, (1 <= j < k)%nat -> path_exists (candidate base ext j) w = true) ->
  files w ⊆ files w' ->
  candidate base ext k ∈ files w' ->
  (1 <= k')%nat ->
  path_exists (candidate base ext k') w' = false ->
  (k < k')%nat.
Proof.
  intros base ext Hbelow Hsub Hk Hk' Hfree.
  apply path_exists_false in Hfree.
  destruct (decide (k < k')%nat) as [|Hle]; [assumption|]. exfalso. apply Hfree.
  destruct (decide (k' = k)) as [->|]; [exact Hk|].
  apply Hsub. apply path_exists_true. apply Hbelow. lia.
Qed.

(** C2 (as amended). When [BatchInstaller.install_appimage] succeeds, the file
    has been moved onto a name that no path carried: the destination
    itself when it was free, else the name with the least counter from 1 on
    whose name was free. A later install into a directory that has lost no
    path and holds the name chosen before chooses a greater counter. *)
Theorem appimage_destination_first_free (env : Env) (path : string) (w : World)
    (msg : string) (w' : World) :
  BatchInstaller.install_appimage env path w = (Ok msg, w') ->
  let app_dir := expanduser env "~/Applications" in
  let dest := Py.path_join app_dir (Py.basename path) in
  let base := fst (Py.splitext dest) in
  let ext := snd (Py.splitext dest) in
  let w1 := snd (makedirs env app_dir w) in
  exists d,
    msg = "AppImage installed to " +:+ d
    /\ calls w' = calls w ++ [MakeDirs app_dir; Move path d; Chmod d]
    /\ files w' = {[d]} ∪ (files w1 ∖ {[path]})
    /\ (d ∉ files w1)
    /\ (dest ∉ files w1 -> d = dest)
    /\ (dest ∈ files w1 ->
        exists k, (1 <= k)%nat
          /\ d = candidate base ext k
          /\ (forall j, (1 <= j < k)%nat -> candidate base ext j ∈ files w1)
          /\ forall later d', files w1 ⊆ files later -> d ∈ files later ->
               resolve_destination dest later = (Ok d', later) ->
               exists k', (k < k')%nat /\ d' = candidate base ext k').
Proof.
  intros H app_dir dest base ext w1.
  destruct (batch_install_appimage_moves env path w msg w' H)
    as [d [Hd [Hfree [-> [Hcalls Hfiles]]]]].
  fold app_dir dest w1 in Hd, Hfree, Hcalls, Hfiles.
  exists d. split; [reflexivity|]. split; [exact Hcalls|]. split; [exact Hfiles|].
  split; [exact Hfree|].
  destruct (resolve_destination_spec dest w1) as [d0 [Hd0 [_ [Hfree0 Htaken0]]]].
  rewrite Hd in Hd0. injection Hd0 as <-.
  split.
  - intros Hn. apply Hfree0. now apply path_exists_false.
  - intros Hin. apply path_exists_true in Hin.
    destruct (Htaken0 Hin) as [k [Hk [-> Hbelow]]]. fold base ext in Hbelow |- *.
    exists k. split; [exact Hk|]. split; [reflexivity|]. split.
    + intros j Hj. apply path_exists_true. now apply Hbelow.
    + intros later d' Hsub Hlater Hres.
      destruct (resolve_destination_spec dest later) as [d1 [Hd1 [Hfree1 [_ Htaken1]]]].
      rewrite Hres in Hd1. injection Hd1 as <-.
      assert (Hin' : path_exists dest later = true).
      { apply path_exists_true. apply Hsub. now apply path_exists_true. }
      destruct (Htaken1 Hin') as [k' [Hk' [-> _]]]. fold base ext in Hfree1 |- *.
      exists k'. split; [|reflexivity].
      now apply (resolve_destination_grows dest w1 later k k').
Qed.

(** A run of the theorem: [app.AppImage] and [app_1.AppImage] are there, and
    the file goes to [app_2.AppImage]. *)
Lemma appimage_destination_first_free_witness :
  exists d,
    "AppImage installed to /home/user/Applications/app_2.AppImage"
      = "AppImage installed to " +:+ d
    /\ d ∉ ({["/home/user/Applications"]} ∪
            ({["/d/app.AppImage"; "/home/user/Applications/app.AppImage";
               "/home/user/Applications/app_1.AppImage"]} : gset string)).
Proof.
  pose (w := world_of {["/d/app.AppImage"; "/home/user/Applications/app.AppImage";
                        "/home/user/Applications/app_1.AppImage"]} []).
  destruct (appimage_destination_first_free quiet_host "/d/app.AppImage" w
              "AppImage installed to /home/user/Applications/app_2.AppImage"
              (snd (BatchInstaller.install_appimage quiet_host "/d/app.AppImage" w)))
    as [d [Hmsg [_ [_ [Hfree _]]]]].
  - vm_compute. reflexivity.
  - exists d. split; [exact Hmsg|exact Hfree].
Defined.

(** C2 (as stated) fails: with [app.AppImage] and [app_1.AppImage] in place a
    file named [app.AppImage] goes to [app_2.AppImage]; once [app_1.AppImage]
    is deleted, the next file of that name goes to [app_1.AppImage], the
    freed slot below the counter reached before. *)
Lemma appimage_counter_reuses_freed_slot :
  let w := world_of {["/d/app.AppImage"; "/home/user/Applications/app.AppImage";
                      "/home/user/Applications/app_1.AppImage"]} [] in
  let after := snd (BatchInstaller.install_appimage quiet_host "/d/app.AppImage" w) in
  let later := set_files ({["/e/app.AppImage"]} ∪
                          (files after ∖ {["/home/user/Applications/app_1.AppImage"]}))
                         after in
  fst (BatchInstaller.install_appimage quiet_host "/d/app.AppImage" w)
    = Ok "AppImage installed to /home/user/Applications/app_2.AppImage"
  /\ fst (BatchInstaller.install_appimage quiet_host "/e/app.AppImage" later)
    = Ok "AppImage installed to /home/user/Applications/app_1.AppImage".
Proof. vm_compute. split; reflexivity. Qed.

(** ** The command wrapper (C5) *)

Lemma subprocess_run_calls (env : Env) (argv : list string) (timeout : Z) (w : World) :
  calls (snd (subprocess_run env argv timeout w)) = calls w ++ [Spawn argv timeout].
Proof.
  unfold subprocess_run.
  destruct (child env argv w) as [err|seconds rc out err|seconds reason|];
    try reflexivity; now destruct (seconds <=? timeout).
Qed.

(** Both wrappers start the command once, whatever comes of it. *)
Lemma run_command_once (env : Env) (cmd : list string) (w : World) :
  calls (snd (BatchInstaller.run_command env cmd w)) = calls w ++ [Spawn cmd 300]
  /\ calls (snd (LinuxAppInstaller.run_command env cmd w)) = calls w ++ [Spawn cmd 300].
Proof.
  pose proof (subprocess_run_calls env cmd 300 w) as H.
  unfold BatchInstaller.run_command, LinuxAppInstaller.run_command,
    try_except_only, bind.
  destruct (subprocess_run env cmd 300 w) as [[result|e|] w1]; simpl in H.
  - simpl. case_bool_decide; simpl; now split.
  - simpl. destruct (is_TimeoutExpired e); simpl; now split.
  - simpl. now split.
Qed.

(** What the wrappers return for each behaviour of the child. *)
Lemma run_command_outcome (env : Env) (cmd : list string) (w : World) :
  match child env cmd w with
  | CannotStart err =>
      fst (BatchInstaller.run_command env cmd w) = Raise (OSError err)
      /\ fst (LinuxAppInstaller.run_command env cmd w) = Raise (OSError err)
  | Exits seconds rc out err =>
      if seconds <=? 300 then
        if rc =? 0 then
          fst (BatchInstaller.run_command env cmd w) = Ok tt
          /\ fst (LinuxAppInstaller.run_command env cmd w) = Ok tt
        else
          fst (BatchInstaller.run_command env cmd w)
            = Raise (Exception (Py.or_str (Py.strip err) (Py.strip out)))
          /\ fst (LinuxAppInstaller.run_command env cmd w)
            = Raise (Exception (Py.or_str (Py.strip err) (Py.strip out)))
      else
        fst (BatchInstaller.run_command env cmd w) = Raise (TimeoutExpired cmd 300)
        /\ fst (LinuxAppInstaller.run_command env cmd w)
           = Raise (Exception ("Command timed out: " +:+ Py.join " " cmd))
  | Garbled seconds reason =>
      if seconds <=? 300 then
        fst (BatchInstaller.run_command env cmd w) = Raise (UnicodeDecodeError reason)
        /\ fst (LinuxAppInstaller.run_command env cmd w) = Raise (UnicodeDecodeError reason)
      else
        fst (BatchInstaller.run_command env cmd w) = Raise (TimeoutExpired cmd 300)
        /\ fst (LinuxAppInstaller.run_command env cmd w)
           = Raise (Exception ("Command timed out: " +:+ Py.join " " cmd))
  | Hangs =>
      fst (BatchInstaller.run_command env cmd w) = Raise (TimeoutExpired cmd 300)
      /\ fst (LinuxAppInstaller.run_command env cmd w)
         = Raise (Exception ("Command timed out: " +:+ Py.join " " cmd))
  end.
Proof.
  unfold BatchInstaller.run_command, LinuxAppInstaller.run_command,
    try_except_only, bind, subprocess_run.
  destruct (child env cmd w) as [err|seconds rc out err|seconds reason|]; simpl.
  - now split.
  - destruct (seconds <=? 300); simpl; [|now split].
    destruct (Z.eqb_spec rc 0) as [->|Hrc].
    + rewrite bool_decide_eq_false_2 by (intros H; now apply H). now split.
    + rewrite bool_decide_eq_true_2 by exact Hrc. now split.
  - destruct (seconds <=? 300); simpl; now split.
  - now split.
Qed.

(** The wrappers return for the children that exit with status 0 in time
    and whose output is text, and raise for all others. *)
Lemma run_command_returns_iff (env : Env) (cmd : list string) (w : World) :
  (fst (BatchInstaller.run_command env cmd w) = Ok tt <-> child_ok env cmd w = true)
  /\ (fst (LinuxAppInstaller.run_command env cmd w) = Ok tt <-> child_ok env cmd w = true)
  /\ ((exists e, fst (BatchInstaller.run_command env cmd w) = Raise e)
      <-> child_ok env cmd w = false)
  /\ ((exists e, fst (LinuxAppInstaller.run_command env cmd w) = Raise e)
      <-> child_ok env cmd w = false).
Proof.
  pose proof (run_command_outcome env cmd w) as H. unfold child_ok.
  destruct (child env cmd w) as [err|seconds rc out err|seconds reason|].
  2: destruct (seconds <=? 300); [destruct (rc =? 0)|].
  5: destruct (seconds <=? 300).
  all: destruct H as [-> ->]; cbn [andb].
  all: repeat split; intros; try discriminate; try eauto.
  all: match goal with H : exists _, _ |- _ => destruct H; discriminate end.
Qed.

(** The message that a stripped stderr and stdout give: the first when it
    is not empty, else the second. *)
Lemma or_str_spec (a b : string) :
  (a <> "" -> Py.or_str a b = a) /\ (a = "" -> Py.or_str a b = b).
Proof.
  unfold Py.or_str. destruct (String.eqb_spec a ""); split; congruence.
Qed.

(** The message of either timeout error holds the command: joined by
    blanks in the window's wrapper, as the text of the list in the batch's. *)
Lemma timeout_message_holds_command (env : Env) (cmd : list string) :
  Py.contains ("Command timed out: " +:+ Py.join " " cmd) (Py.join " " cmd) = true
  /\ Py.contains (exn_str env (TimeoutExpired cmd 300)) (repr_argv env cmd) = true.
Proof.
  split.
  - pose proof (contains_app "Command timed out: " (Py.join " " cmd) "") as H.
    replace (Py.join " " cmd +:+ "") with (Py.join " " cmd) in H; [exact H|].
    generalize (Py.join " " cmd). induction s as [|a s IH]; [reflexivity|].
    rewrite app_cons. now f_equal.
  - unfold exn_str. apply contains_app.
Qed.

(** ** Procedures that act on the host only *)

Lemma frame_refl (w : World) : frame w w.
Proof. now split. Qed.

Lemma frame_trans (w1 w2 w3 : World) : frame w1 w2 -> frame w2 w3 -> frame w1 w3.
Proof.
  intros [] []. split; try congruence; etrans; eassumption.
Qed.

Create HintDb host discriminated.

Lemma host_only_ret {A} (a : A) : host_only (ret a).
Proof. intros w. split; [discriminate|apply frame_refl]. Qed.

Lemma host_only_raise {A} (e : exn) : host_only (raise (A := A) e).
Proof. intros w. split; [discriminate|apply frame_refl]. Qed.

Lemma host_only_of_res {A} (r : res A) : r <> Diverges -> host_only (of_res r).
Proof. intros H w. split; [exact H|apply frame_refl]. Qed.

Lemma host_only_bind {A B} (m : M World A) (k : A -> M World B) :
  host_only m -> (forall a, host_only (k a)) -> host_only (bind m k).
Proof.
  intros Hm Hk w. unfold bind. destruct (Hm w) as [Hd Hf].
  destruct (m w) as [[a|e|] w1]; simpl in *.
  - destruct (Hk a w1) as [Hd' Hf']. split; [exact Hd'|].
    eapply frame_trans; eassumption.
  - split; [discriminate|exact Hf].
  - contradiction.
Qed.

Lemma host_only_try_except {A} (body : M World A) (handler : exn -> M World A) :
  host_only body -> (forall e, host_only (handler e)) ->
  host_only (try_except body handler).
Proof.
  intros Hm Hk w. unfold try_except. destruct (Hm w) as [Hd Hf].
  destruct (body w) as [[a|e|] w1]; simpl in *.
  - split; [discriminate|exact Hf].
  - destruct (Hk e w1) as [Hd' Hf']. split; [exact Hd'|].
    eapply frame_trans; eassumption.
  - contradiction.
Qed.

Lemma host_only_try_except_only {A} (catches : exn -> bool) (body : M World A)
    (handler : exn -> M World A) :
  host_only body -> (forall e, host_only (handler e)) ->
  host_only (try_except_only catches body handler).
Proof.
  intros Hm Hk w. unfold try_except_only. destruct (Hm w) as [Hd Hf].
  destruct (body w) as [[a|e|] w1]; simpl in *.
  - split; [discriminate|exact Hf].
  - destruct (catches e).
    + destruct (Hk e w1) as [Hd' Hf']. split; [exact Hd'|].
      eapply frame_trans; eassumption.
    + split; [discriminate|exact Hf].
  - contradiction.
Qed.

Lemma host_only_get_world : host_only get_world.
Proof. intros w. split; [discriminate|apply frame_refl]. Qed.

Lemma host_only_logging (l : level) (msg : string) : host_only (logging l msg).
Proof.
  intros w. split; [discriminate|]. split; try reflexivity. simpl.
  now apply prefix_app_r.
Qed.

Lemma frame_record_call (c : syscall) (w : World) : frame w (record_call c w).
Proof. split; try reflexivity. simpl. now apply prefix_app_r. Qed.

Lemma host_only_fs_call (env : Env) (c : syscall) (effect : gset string -> gset string) :
  host_only (fs_call env c effect).
Proof.
  intros w. unfold fs_call. destruct (fault env c w); simpl.
  - split; [discriminate|apply frame_record_call].
  - split; [discriminate|]. split; try reflexivity. simpl. now apply prefix_app_r.
Qed.

Lemma host_only_makedirs (env : Env) (p : string) : host_only (makedirs env p).
Proof. apply host_only_fs_call. Qed.

Lemma host_only_write_text (env : Env) (p c : string) : host_only (write_text env p c).
Proof. apply host_only_fs_call. Qed.

Lemma host_only_copy2 (env : Env) (p q : string) : host_only (copy2 env p q).
Proof. apply host_only_fs_call. Qed.

Lemma host_only_move (env : Env) (p q : string) : host_only (move env p q).
Proof.
  intros w. unfold move. destruct (path_exists p w).
  - apply host_only_fs_call.
  - split; [discriminate|apply frame_record_call].
Qed.

Lemma host_only_chmod (env : Env) (p : string) : host_only (chmod env p).
Proof.
  intros w. unfold chmod. destruct (path_exists p w).
  - apply host_only_fs_call.
  - split; [discriminate|apply frame_record_call].
Qed.

Lemma host_only_subprocess_run (env : Env) (argv : list string) (timeout : Z) :
  host_only (subprocess_run env argv timeout).
Proof.
  intros w. unfold subprocess_run.
  assert (F : frame w (set_files (aftermath env argv w)
                                 (record_call (Spawn argv timeout) w))).
  { split; try reflexivity. simpl. now apply prefix_app_r. }
  destruct (child env argv w) as [err|seconds rc out err|seconds reason|]; simpl.
  - split; [discriminate|apply frame_record_call].
  - destruct (seconds <=? timeout); (split; [discriminate|exact F]).
  - destruct (seconds <=? timeout); (split; [discriminate|exact F]).
  - split; [discriminate|exact F].
Qed.

Lemma host_only_resolve_destination (dest : string) :
  host_only (resolve_destination dest).
Proof.
  intros w. destruct (resolve_destination_spec dest w) as [d [-> _]].
  split; [discriminate|apply frame_refl].
Qed.

#[export] Hint Resolve host_only_ret host_only_raise host_only_get_world
  host_only_logging host_only_fs_call host_only_makedirs host_only_write_text
  host_only_copy2 host_only_move host_only_chmod host_only_subprocess_run
  host_only_resolve_destination : host.

(** The steps of a proof that a procedure is [host_only]: through the
    binds and handlers, by cases on the tests. *)
Ltac host_step :=
  match goal with
  | |- host_only (bind _ _) => apply host_only_bind; [|intros ?]
  | |- host_only (try_except _ _) => apply host_only_try_except; [|intros ?]
  | |- host_only (try_except_only _ _ _) => apply host_only_try_except_only; [|intros ?]
  | |- host_only (if ?b then _ else _) => destruct b
  | |- host_only (match ?x with _ => _ end) => destruct x
  | |- host_only (let '(_, _) := ?x in _) => destruct x
  | |- host_only _ => solve [auto with host]
  end.

Ltac host_auto := repeat host_step.

Lemma host_only_batch_run_command (env : Env) (cmd : list string) :
  host_only (BatchInstaller.run_command env cmd).
Proof. unfold BatchInstaller.run_command. host_auto. Qed.

Lemma host_only_run_command (env : Env) (cmd : list string) :
  host_only (LinuxAppInstaller.run_command env cmd).
Proof. unfold LinuxAppInstaller.run_command. host_auto. Qed.

#[export] Hint Resolve host_only_batch_run_command host_only_run_command : host.

(** Every procedure of the batch returns or raises, and acts on the host
    only. *)
Lemma host_only_batch_method (env : Env) (f : procedure) (path : string) :
  host_only (BatchInstaller.method env f path).
Proof.
  destruct f; cbn [BatchInstaller.method];
    [unfold BatchInstaller.install_deb | unfold BatchInstaller.install_appimage
    |unfold BatchInstaller.install_tar | unfold BatchInstaller.install_snap
    |unfold BatchInstaller.install_flatpak | unfold BatchInstaller.install_executable];
    host_auto.
Qed.

(** ** The batch scheduler (C6) *)

Ltac task_simpl :=
  repeat first
    [ rewrite !fn_lookup_insert
    | progress cbn [heap signals ticks calls log files history_json update_task
                    set_heap record_signal tick record_log record_call set_files
                    set_history_json fst snd
                    file_path task_id status progress message start_time end_time
                    file_hash file_size set_status set_message set_start_time
                    set_end_time] ].

(** One round of the loop returns, whatever the procedure does, and leaves
    the task closed: completed with the procedure's result or failed with
    the text of its exception, both times set. No other task is touched. *)
Lemma run_task_spec (env : Env) (r : nat) (w : World) :
  let t := heap w r in
  let result := install_result env r w in
  exists w',
    BatchInstaller.run_task env r w = (Ok tt, w')
    /\ result <> Diverges
    /\ heap w' r = closed_task env t (ticks w) (final_status result)
                     (final_message env result)
    /\ (forall r', r <> r' -> heap w' r' = heap w r')
    /\ signals w' = signals w ++ task_signals env t result
    /\ ticks w' = S (S (ticks w))
    /\ history_json w' = history_json w.
Proof.
  intros t result. subst result. unfold install_result, task_signals. fold t.
  unfold BatchInstaller.run_task, bind, modify_world, datetime_now, try_except.
  unfold BatchInstaller.attempt, bind, BatchInstaller.attr, emit, modify_world.
  task_simpl. fold t.
  destruct (getattr_install (get_file_type (file_path t))) as [f|] eqn:D.
  - unfold attempted_in, starting, installing_signal. task_simpl. fold t.
    match goal with |- context [BatchInstaller.method env f (file_path t) ?w0] =>
      set (w3 := w0) end.
    destruct (host_only_batch_method env f (file_path t) w3) as [Hd [Hh Hs Hj Ht _ _]].
    destruct (BatchInstaller.method env f (file_path t) w3) as [[msg|e|] w4];
      [| |contradiction]; cbn [fst snd] in *.
    + eexists. split; [reflexivity|]. split; [discriminate|].
      task_simpl. rewrite Hh, Hs, Hj, Ht. subst w3. task_simpl. fold t.
      split; [reflexivity|]. split.
      { intros r' Hr. now rewrite !fn_lookup_insert_ne by exact Hr. }
      split; [|now split].
      now rewrite <- !app_assoc.
    + unfold BatchInstaller.failed, bind, modify_world, BatchInstaller.attr, logging,
        emit, modify_world.
      eexists. split; [reflexivity|]. split; [discriminate|].
      task_simpl. rewrite Hh, Hs, Hj, Ht. subst w3. task_simpl. fold t.
      split; [reflexivity|]. split.
      { intros r' Hr. now rewrite !fn_lookup_insert_ne by exact Hr. }
      split; [|now split].
      now rewrite <- !app_assoc.
  - unfold BatchInstaller.failed, bind, modify_world, BatchInstaller.attr, logging,
      emit, modify_world, raise.
    eexists. split; [reflexivity|]. split; [discriminate|].
    task_simpl. fold t.
    split; [reflexivity|]. split.
    { intros r' Hr. now rewrite !fn_lookup_insert_ne by exact Hr. }
    split; [|now split].
    now rewrite <- !app_assoc.
Qed.

Lemma processed_cons (env : Env) (r : nat) (q : list nat) (w : World) :
  processed env (r :: q) w = processed env q (snd (BatchInstaller.run_task env r w)).
Proof. reflexivity. Qed.

Lemma processed_app (env : Env) (q1 q2 : list nat) (w : World) :
  processed env (q1 ++ q2) w = processed env q2 (processed env q1 w).
Proof. unfold processed. apply fold_left_app. Qed.

(** The loop takes the tasks from the left, one round each, until the deque
    is empty; a round more than there are tasks is never needed. *)
Lemma run_loop_spec (env : Env) (q : list nat) (rounds : nat) (w : World) :
  (length q < rounds)%nat ->
  BatchInstaller.run_loop env rounds (BatchInstaller.mkObj q true, w)
  = (Ok tt, (BatchInstaller.mkObj [] true, processed env q w)).
Proof.
  revert rounds w. induction q as [|r q IH]; intros [|rounds] w H; simpl in H; try lia.
  - reflexivity.
  - cbn [BatchInstaller.run_loop]. unfold bind at 1. unfold self at 1.
    cbn [fst snd BatchInstaller.tasks BatchInstaller.running].
    unfold bind at 1. unfold set_self at 1. cbn [fst snd].
    unfold bind at 1. unfold liftW at 1. cbn [fst snd].
    destruct (run_task_spec env r w) as [w' [Hrun _]].
    rewrite processed_cons, Hrun. cbn [snd].
    unfold BatchInstaller.set_tasks. cbn [BatchInstaller.running].
    apply IH. lia.
Qed.

(** A deque whose flag is cleared is left as it is. *)
Lemma run_loop_stopped (env : Env) (q : list nat) (rounds : nat) (w : World) :
  BatchInstaller.run_loop env (S rounds) (BatchInstaller.mkObj q false, w)
  = (Ok tt, (BatchInstaller.mkObj q false, w)).
Proof. now destruct q. Qed.

Lemma run_task_done (env : Env) (r : nat) (w : World) :
  done_task (heap (snd (BatchInstaller.run_task env r w)) r).
Proof.
  destruct (run_task_spec env r w) as [w' [Hrun [_ [Hh _]]]].
  rewrite Hrun. cbn [snd]. rewrite Hh.
  unfold done_task, closed_task. cbn [status start_time end_time]. split; [|split; eauto].
  unfold final_status. destruct (install_result env r w); auto.
Qed.

Lemma run_task_other (env : Env) (r r' : nat) (w : World) :
  r <> r' -> heap (snd (BatchInstaller.run_task env r w)) r' = heap w r'.
Proof.
  intros H. destruct (run_task_spec env r w) as [w' [Hrun [_ [_ [Ho _]]]]].
  rewrite Hrun. now apply Ho.
Qed.

Lemma run_task_identity (env : Env) (r r' : nat) (w : World) :
  task_id (heap (snd (BatchInstaller.run_task env r w)) r') = task_id (heap w r')
  /\ file_path (heap (snd (BatchInstaller.run_task env r w)) r') = file_path (heap w r').
Proof.
  destruct (decide (r = r')) as [<-|H].
  - destruct (run_task_spec env r w) as [w' [Hrun [_ [Hh _]]]].
    rewrite Hrun. cbn [snd]. rewrite Hh. now split.
  - now rewrite run_task_other.
Qed.

(** Every task of the deque is closed in the end, and so is every task
    that was closed before. *)
Lemma processed_done (env : Env) (q : list nat) (w : World) (r : nat) :
  r ∈ q \/ done_task (heap w r) -> done_task (heap (processed env q w) r).
Proof.
  revert w. induction q as [|r0 q IH]; intros w [Hin|Hdone].
  - now apply elem_of_nil in Hin.
  - exact Hdone.
  - rewrite processed_cons. apply IH. apply elem_of_cons in Hin as [->|Hin].
    + right. apply run_task_done.
    + now left.
  - rewrite processed_cons. apply IH. right.
    destruct (decide (r0 = r)) as [->|Hne].
    + apply run_task_done.
    + now rewrite run_task_other.
Qed.

Lemma processed_identity (env : Env) (q : list nat) (w : World) (r : nat) :
  task_id (heap (processed env q w) r) = task_id (heap w r)
  /\ file_path (heap (processed env q w) r) = file_path (heap w r).
Proof.
  revert w. induction q as [|r0 q IH]; intros w; [now split|].
  rewrite processed_cons.
  destruct (IH (snd (BatchInstaller.run_task env r0 w))) as [-> ->].
  apply run_task_identity.
Qed.

Lemma task_signals_completed (env : Env) (t : InstallationTask) (result : res string) :
  result <> Diverges ->
  completed_ids (task_signals env t result) = [task_id t]
  /\ finished_count (task_signals env t result) = 0%nat.
Proof.
  intros H. unfold task_signals, completed_ids, finished_count.
  destruct (getattr_install _); destruct result; try contradiction; now split.
Qed.

Lemma completed_ids_app (l1 l2 : list signal) :
  completed_ids (l1 ++ l2) = completed_ids l1 ++ completed_ids l2.
Proof. apply omap_app. Qed.

Lemma finished_count_app (l1 l2 : list signal) :
  finished_count (l1 ++ l2) = (finished_count l1 + finished_count l2)%nat.
Proof. unfold finished_count. now rewrite List.filter_app, length_app. Qed.

(** One completion per task, in the order of the deque; no [batch_finished]
    from the rounds. *)
Lemma processed_signals (env : Env) (q : list nat) (w : World) :
  completed_ids (signals (processed env q w))
  = completed_ids (signals w) ++ ((fun r => task_id (heap w r)) <$> q)
  /\ finished_count (signals (processed env q w)) = finished_count (signals w)
  /\ history_json (processed env q w) = history_json w.
Proof.
  revert w. induction q as [|r q IH]; intros w.
  - cbn [processed fold_left fmap list_fmap]. now rewrite app_nil_r.
  - rewrite processed_cons.
    destruct (IH (snd (BatchInstaller.run_task env r w))) as [-> [-> ->]].
    destruct (run_task_spec env r w) as [w' [Hrun [Hres [_ [_ [Hs [_ Hj]]]]]]].
    destruct (task_signals_completed env (heap w r) _ Hres) as [Hc Hf].
    split; [|split].
    + rewrite fmap_cons.
      replace ((fun r0 => task_id (heap (snd (BatchInstaller.run_task env r w)) r0)) <$> q)
        with ((fun r0 => task_id (heap w r0)) <$> q).
      * rewrite Hrun. cbn [snd]. rewrite Hs, completed_ids_app, Hc.
        now rewrite <- app_assoc.
      * apply list_fmap_ext. intros _ r0 _.
        now destruct (run_task_identity env r r0 w) as [-> _].
    + rewrite Hrun. cbn [snd]. rewrite Hs, finished_count_app, Hf. lia.
    + rewrite Hrun. cbn [snd]. exact Hj.
Qed.

Lemma finished_count_last (l : list signal) :
  finished_count (l ++ [batch_finished]) = S (finished_count l)
  /\ list.last (l ++ [batch_finished]) = Some batch_finished.
Proof.
  split; [|apply list.last_snoc].
  rewrite finished_count_app. unfold finished_count at 2. simpl. lia.
Qed.

(** C6. A run of the batch takes the tasks of the deque from the left and
    gives each one its round, whatever the rounds before it came to: a round
    always returns, so the tasks after a failed one are processed from the
    world it leaves, and the tasks before it as if it were not there. In the
    end the deque is empty, every task is completed or failed with both
    times set, there is one [task_completed] per task, in the order of the
    deque, and one [batch_finished], the last signal. A run whose flag is
    cleared leaves the deque alone and emits [batch_finished] alone. *)
Theorem batch_run_isolates_failures (env : Env) (q : list nat) (w : World) :
  let final := processed env q w in
  BatchInstaller.run env (BatchInstaller.init q, w)
    = (Ok tt, (BatchInstaller.mkObj [] true, record_signal batch_finished final))
  /\ (forall q1 k q2, q = q1 ++ k :: q2 ->
        let before := processed env q1 w in
        exists after,
          BatchInstaller.run_task env k before = (Ok tt, after)
          /\ heap after k = closed_task env (heap before k) (ticks before)
                              (final_status (install_result env k before))
                              (final_message env (install_result env k before))
          /\ final = processed env q2 after)
  /\ (forall r, r ∈ q -> done_task (heap final r))
  /\ completed_ids (signals final)
     = completed_ids (signals w) ++ ((fun r => task_id (heap w r)) <$> q)
  /\ finished_count (signals (record_signal batch_finished final))
     = S (finished_count (signals w))
  /\ list.last (signals (record_signal batch_finished final)) = Some batch_finished
  /\ BatchInstaller.run env (BatchInstaller.mkObj q false, w)
     = (Ok tt, (BatchInstaller.mkObj q false, record_signal batch_finished w)).
Proof.
  intros final. subst final. split; [|split; [|split; [|split; [|split; [|split]]]]].
  - unfold BatchInstaller.run, BatchInstaller.init.
    unfold bind at 1. unfold self at 1. cbn [fst snd BatchInstaller.tasks].
    unfold bind at 1. rewrite run_loop_spec by lia. reflexivity.
  - intros q1 k q2 -> before.
    destruct (run_task_spec env k before) as [after [Hrun [_ [Hh _]]]].
    exists after. split; [exact Hrun|]. split; [exact Hh|].
    rewrite processed_app, processed_cons. fold before.
    now rewrite Hrun.
  - intros r Hr. apply processed_done. now left.
  - apply processed_signals.
  - cbn [signals record_signal].
    destruct (finished_count_last (signals (processed env q w))) as [-> _].
    now destruct (processed_signals env q w) as [_ [-> _]].
  - cbn [signals record_signal]. apply finished_count_last.
  - unfold BatchInstaller.run.
    unfold bind at 1. unfold self at 1. cbn [fst snd BatchInstaller.tasks].
    unfold bind at 1. now rewrite run_loop_stopped.
Qed.

(** A run with a failing task in the middle: the archive fails to extract,
    the packages before and after it are installed. *)
Example batch_run_with_failure :
  let env := with_child (fun argv _ =>
               match argv with
               | "tar" :: _ => Exits 1 2 "" "tar: Error is not recoverable"
               | _ => Exits 1 0 "" ""
               end) quiet_host in
  let w := world_of {["/d/a.deb"; "/d/b.tar.gz"; "/d/c.deb"]}
             [fresh_task "/d/a.deb"; fresh_task "/d/b.tar.gz"; fresh_task "/d/c.deb"] in
  let final := snd (snd (BatchInstaller.run env (BatchInstaller.init [0; 1; 2]%nat, w))) in
  (fun r => (status (heap final r), message (heap final r))) <$> [0; 1; 2]%nat
  = [("completed", "Successfully installed a.deb");
     ("failed", "tar: Error is not recoverable");
     ("completed", "Successfully installed c.deb")].
Proof. vm_compute. reflexivity. Qed.

(** ** The command wrapper, continued (C5) *)

(** C5 (as amended). Each wrapper starts the command once. It returns when the
    child exits with status 0 within 300 seconds and its output is text, and
    raises in the four other cases, and in these only: the child cannot be
    started (the error of the spawn is passed on), it exits in time with
    output that the codec refuses (the [UnicodeDecodeError] is passed on,
    whatever the status), it exits with another status (the message is the
    stripped stderr, or the stripped stdout when that is empty), or it has
    not exited after 300 seconds (the message holds the command). A task of
    the batch whose procedure raises the timeout is closed as failed with
    that message. *)
Theorem run_command_raises_on_failure (env : Env) (cmd : list string) (w : World) :
  (calls (snd (BatchInstaller.run_command env cmd w)) = calls w ++ [Spawn cmd 300]
   /\ calls (snd (LinuxAppInstaller.run_command env cmd w)) = calls w ++ [Spawn cmd 300])
  /\ match child env cmd w with
     | CannotStart err =>
         fst (BatchInstaller.run_command env cmd w) = Raise (OSError err)
         /\ fst (LinuxAppInstaller.run_command env cmd w) = Raise (OSError err)
     | Exits seconds rc out err =>
         if seconds <=? 300 then
           if rc =? 0 then
             fst (BatchInstaller.run_command env cmd w) = Ok tt
             /\ fst (LinuxAppInstaller.run_command env cmd w) = Ok tt
           else
             fst (BatchInstaller.run_command env cmd w)
               = Raise (Exception (Py.or_str (Py.strip err) (Py.strip out)))
             /\ fst (LinuxAppInstaller.run_command env cmd w)
               = Raise (Exception (Py.or_str (Py.strip err) (Py.strip out)))
         else
           fst (BatchInstaller.run_command env cmd w) = Raise (TimeoutExpired cmd 300)
           /\ fst (LinuxAppInstaller.run_command env cmd w)
              = Raise (Exception ("Command timed out: " +:+ Py.join " " cmd))
     | Garbled seconds reason =>
         if seconds <=? 300 then
           fst (BatchInstaller.run_command env cmd w) = Raise (UnicodeDecodeError reason)
           /\ fst (LinuxAppInstaller.run_command env cmd w)
              = Raise (UnicodeDecodeError reason)
         else
           fst (BatchInstaller.run_command env cmd w) = Raise (TimeoutExpired cmd 300)
           /\ fst (LinuxAppInstaller.run_command env cmd w)
              = Raise (Exception ("Command timed out: " +:+ Py.join " " cmd))
     | Hangs =>
         fst (BatchInstaller.run_command env cmd w) = Raise (TimeoutExpired cmd 300)
         /\ fst (LinuxAppInstaller.run_command env cmd w)
            = Raise (Exception ("Command timed out: " +:+ Py.join " " cmd))
     end
  /\ ((fst (BatchInstaller.run_command env cmd w) = Ok tt <-> child_ok env cmd w = true)
      /\ (fst (LinuxAppInstaller.run_command env cmd w) = Ok tt
          <-> child_ok env cmd w = true)
      /\ ((exists e, fst (BatchInstaller.run_command env cmd w) = Raise e)
          <-> child_ok env cmd w = false)
      /\ ((exists e, fst (LinuxAppInstaller.run_command env cmd w) = Raise e)
          <-> child_ok env cmd w = false))
  /\ (forall a b, (a <> "" -> Py.or_str a b = a) /\ (a = "" -> Py.or_str a b = b))
  /\ (Py.contains ("Command timed out: " +:+ Py.join " " cmd) (Py.join " " cmd) = true
      /\ Py.contains (exn_str env (TimeoutExpired cmd 300)) (repr_argv env cmd) = true)
  /\ (forall r w0,
        install_result env r w0 = Raise (TimeoutExpired cmd 300) ->
        status (heap (snd (BatchInstaller.run_task env r w0)) r) = "failed"
        /\ message (heap (snd (BatchInstaller.run_task env r w0)) r)
           = exn_str env (TimeoutExpired cmd 300)).
Proof.
  split; [apply run_command_once|]. split; [apply run_command_outcome|].
  split; [apply run_command_returns_iff|].
  split; [apply or_str_spec|]. split; [apply timeout_message_holds_command|].
  intros r w0 H.
  destruct (run_task_spec env r w0) as [w' [Hrun [_ [Hh _]]]].
  rewrite Hrun. cbn [snd]. rewrite Hh, H. now split.
Qed.

(** A task of the batch whose command hangs. *)
Example batch_task_times_out :
  let env := with_child (fun _ _ => Hangs) quiet_host in
  let w := world_of {["/d/a.deb"]} [fresh_task "/d/a.deb"] in
  let after := snd (BatchInstaller.run_task env 0 w) in
  (status (heap after 0%nat), message (heap after 0%nat))
  = ("failed", "Command '['pkexec', 'dpkg', '-i', '/d/a.deb']' timed out after 300 seconds").
Proof. vm_compute. reflexivity. Qed.

(** A child that exits with status 0 after one second, with output that is
    not text: both wrappers raise. *)
Example run_command_on_garbled_output :
  let reason := "'utf-8' codec can't decode byte 0xff in position 0: invalid start byte" in
  let env := with_child (fun _ _ => Garbled 1 reason) quiet_host in
  let cmd := ["flatpak"; "install"; "--user"; "/d/a.flatpak"] in
  let w := world_of ∅ [] in
  fst (BatchInstaller.run_command env cmd w) = Raise (UnicodeDecodeError reason)
  /\ fst (LinuxAppInstaller.run_command env cmd w) = Raise (UnicodeDecodeError reason).
Proof. split; reflexivity. Qed.

(** [strip] removes the white space of Unicode at both ends: here a no-break
    space (U+00A0) in front and an em space (U+2003) and a line feed at the
    end. *)
Example strip_unicode_space :
  Py.strip (Py.bytes [32; 194; 160; 69; 58; 32; 120; 226; 128; 131; 10]%nat) = "E: x".
Proof. reflexivity. Qed.

(** C5 (as stated) fails: a command that cannot be started makes the wrappers
    raise, and no child has exited with a status or run into the timeout. *)
Lemma run_command_raises_without_child :
  let env := with_child (fun _ _ => CannotStart "[Errno 2] No such file or directory: 'apt-get'")
               quiet_host in
  let cmd := ["pkexec"; "apt-get"; "install"; "-f"] in
  let w := world_of ∅ [] in
  child env cmd w = CannotStart "[Errno 2] No such file or directory: 'apt-get'"
  /\ LinuxAppInstaller.run_command env cmd w
     = (Raise (OSError "[Errno 2] No such file or directory: 'apt-get'"),
        record_call (Spawn cmd 300) w)
  /\ BatchInstaller.run_command env cmd w
     = (Raise (OSError "[Errno 2] No such file or directory: 'apt-get'"),
        record_call (Spawn cmd 300) w).
Proof. repeat split. Qed.

(** ** The wire form of a task (C9) *)

Lemma quiet_host_laws : EnvLaws quiet_host.
Proof.
  split.
  - intros d. cbn [fromisoformat isoformat quiet_host].
    rewrite app_cons, app_empty_l.
    rewrite NilEmpty.isi. cbn [fmap option_fmap option_map]. f_equal.
    apply DecimalZ.of_to.
  - intros d. cbn [isoformat quiet_host]. now rewrite app_cons.
  - intros p. discriminate.
Qed.

(** The fields [to_dict] writes for a constructed task. *)
Lemma to_dict_lookup (env : Env) (t : InstallationTask) :
  Task.to_dict env t !! "file_path" = Some (PStr (file_path t))
  /\ Task.to_dict env t !! "task_id" = Some (PStr (task_id t))
  /\ Task.to_dict env t !! "status" = Some (PStr (status t))
  /\ Task.to_dict env t !! "progress" = Some (PInt (progress t))
  /\ Task.to_dict env t !! "message" = Some (PStr (message t))
  /\ Task.to_dict env t !! "start_time" = Some (Task.timestamp_to_wire env (start_time t))
  /\ Task.to_dict env t !! "end_time" = Some (Task.timestamp_to_wire env (end_time t))
  /\ Task.to_dict env t !! "file_hash" = Some (PStr (file_hash t))
  /\ Task.to_dict env t !! "file_size" = Some (PInt (file_size t)).
Proof.
  unfold Task.to_dict, object_of.
  repeat split; rewrite ?lookup_insert_ne by discriminate; apply lookup_insert_eq.
Qed.

(** A timestamp written by [to_dict] is read back. *)
Lemma read_timestamp_wire (env : Env) (L : EnvLaws env) (data : gmap string pyval)
    (key : string) (d : option Z) :
  data !! key = Some (Task.timestamp_to_wire env d) ->
  Task.read_timestamp env data key = Ok d.
Proof.
  intros H. unfold Task.read_timestamp. rewrite H.
  destruct d as [d|]; cbn [Task.timestamp_to_wire Task.truthy]; [|reflexivity].
  destruct (String.eqb_spec (isoformat env d) "") as [E|_].
  - now apply (isoformat_nonempty env L) in E.
  - cbn [negb]. now rewrite (fromisoformat_isoformat env L).
Qed.

(** A field that is absent and a field that holds null are both read as
    [None]. *)
Lemma read_timestamp_none (env : Env) (data : gmap string pyval) (key : string) :
  data !! key = None \/ data !! key = Some PNone ->
  Task.read_timestamp env data key = Ok None.
Proof. unfold Task.read_timestamp. now intros [-> | ->]. Qed.

(** The fields [to_dict] writes. *)
Lemma to_dict_fields (env : Env) (o : TaskObject) :
  Task.to_dict env o !! "file_path" = Some (object_file_path o)
  /\ Task.to_dict env o !! "task_id" = Some (object_task_id o)
  /\ Task.to_dict env o !! "status" = Some (object_status o)
  /\ Task.to_dict env o !! "progress" = Some (object_progress o)
  /\ Task.to_dict env o !! "message" = Some (object_message o)
  /\ Task.to_dict env o !! "start_time"
     = Some (Task.timestamp_to_wire env (object_start_time o))
  /\ Task.to_dict env o !! "end_time" = Some (Task.timestamp_to_wire env (object_end_time o))
  /\ Task.to_dict env o !! "file_hash" = Some (object_file_hash o)
  /\ Task.to_dict env o !! "file_size" = Some (object_file_size o).
Proof.
  unfold Task.to_dict.
  repeat split; rewrite ?lookup_insert_ne by discriminate; apply lookup_insert_eq.
Qed.

(** Reading back the record of an object gives the object. *)
Lemma object_from_dict_to_dict (env : Env) (L : EnvLaws env) (o : TaskObject) (w : World) :
  storable o ->
  Task.object_from_dict env (Task.to_dict env o) w = (Ok o, w).
Proof.
  intros [Hid Hpath].
  destruct (to_dict_fields env o) as (H1 & H2 & H3 & H4 & H5 & H6 & H7 & H8 & H9).
  unfold Task.object_from_dict. rewrite H1.
  unfold Task.choose_task_id. rewrite H2, Hid.
  unfold bind, of_res, ret. cbn [fst snd default].
  assert (Hp : Task.probe (object_file_path o) = Ok tt).
  { unfold Task.probe. now destruct (object_file_path o). }
  rewrite Hp. cbn [fst snd].
  rewrite (read_timestamp_wire env L _ _ _ H6), (read_timestamp_wire env L _ _ _ H7).
  rewrite H3, H4, H5, H8, H9. cbn [default]. now destruct o.
Qed.

Lemma storable_object_of (t : InstallationTask) : task_id t <> "" -> storable (object_of t).
Proof.
  intros H. split; [|discriminate]. cbn [object_of object_task_id Task.truthy].
  now destruct (String.eqb_spec (task_id t) "").
Qed.

Lemma as_task_object_of (t : InstallationTask) : as_task (object_of t) = Some t.
Proof. now destruct t. Qed.

Lemma displayable_object_of (t : InstallationTask) : displayable (object_of t) = true.
Proof. reflexivity. Qed.

Lemma from_dict_to_dict (env : Env) (L : EnvLaws env) (t : InstallationTask) (w : World) :
  task_id t <> "" ->
  Task.from_dict env (Task.to_dict env t) w = (Ok (Some t), w).
Proof.
  intros Hid. unfold Task.from_dict, bind.
  rewrite (object_from_dict_to_dict env L t w (storable_object_of t Hid)).
  unfold ret. now rewrite as_task_object_of.
Qed.

(** Every task is made with an id and in the status queued, by [__init__]
    and so by [from_dict] and [add_to_queue]. *)
Lemma init_task (env : Env) (L : EnvLaws env) (path : string) (id : option string)
    (w : World) :
  exists t,
    Task.init env path id w = (Ok t, w)
    /\ task_id t <> "" /\ status t = "queued" /\ file_path t = path
    /\ start_time t = None /\ end_time t = None.
Proof.
  unfold Task.init, bind, Task.calculate_hash, get_world, ret. cbn [fst snd].
  eexists. split; [reflexivity|]. cbn [task_id status file_path start_time end_time].
  split; [|now repeat split].
  pose proof (md5_hex8_nonempty env L path) as Hmd5.
  destruct id as [s0|]; [|exact Hmd5].
  unfold Py.or_str. now destruct (String.eqb_spec s0 "").
Qed.

(** C9 (as amended). Reading back what [to_dict] wrote gives the task, field
    by field, for every task with an id (which [__init__] gives every
    task). A timestamp that is [None] is written as a field that is
    present and holds null; [from_dict] reads an absent field and a null
    one alike. *)
Theorem task_dict_round_trip (env : Env) (L : EnvLaws env) (t : InstallationTask)
    (w : World) :
  task_id t <> "" ->
  Task.from_dict env (Task.to_dict env t) w = (Ok (Some t), w)
  /\ Task.to_dict env t !! "start_time"
     = Some (match start_time t with
             | Some d => PStr (isoformat env d)
             | None => PNone
             end)
  /\ Task.to_dict env t !! "end_time"
     = Some (match end_time t with
             | Some d => PStr (isoformat env d)
             | None => PNone
             end)
  /\ (forall data key,
        data !! key = None \/ data !! key = Some PNone ->
        Task.read_timestamp env data key = Ok None).
Proof.
  intros Hid. split; [now apply from_dict_to_dict|].
  destruct (to_dict_lookup env t) as (_ & _ & _ & _ & _ & H6 & H7 & _).
  split; [exact H6|]. split; [exact H7|].
  intros data key. apply read_timestamp_none.
Qed.

(** The theorem on a task of the quiet host that a batch has closed. *)
Lemma task_dict_round_trip_witness :
  let t := mkTask "/d/a.deb" "d41d8cd9" "completed" 0 "Successfully installed a.deb"
                  (Some 0) (Some 1) "unknown" 0 in
  Task.from_dict quiet_host (Task.to_dict quiet_host t) (world_of ∅ [])
  = (Ok (Some t), world_of ∅ []).
Proof.
  intros t.
  apply (task_dict_round_trip quiet_host quiet_host_laws t (world_of ∅ [])).
  discriminate.
Defined.

(** C9 (as stated) fails: the timestamps of a new task are [None], and the
    dict [to_dict] makes of it has both fields, holding null. *)
Lemma none_timestamp_is_null_field :
  start_time (fresh_task "/d/a.deb") = None
  /\ end_time (fresh_task "/d/a.deb") = None
  /\ Task.to_dict quiet_host (fresh_task "/d/a.deb") !! "start_time" = Some PNone
  /\ Task.to_dict quiet_host (fresh_task "/d/a.deb") !! "end_time" = Some PNone.
Proof. repeat split. Qed.

(** ** The history ledger (C7) *)

Lemma lastn_spec {A} (n : nat) (l : list A) :
  exists dropped, l = dropped ++ lastn n l
    /\ length (lastn n l) = Nat.min n (length l).
Proof.
  unfold lastn. exists (firstn (length l - n) l). split.
  - symmetry. apply firstn_skipn.
  - rewrite length_skipn. lia.
Qed.

Lemma Forall_lastn {A} (P : A -> Prop) (n : nat) (l : list A) :
  Forall P l -> Forall P (lastn n l).
Proof.
  intros H. destruct (lastn_spec n l) as [dropped [E _]].
  rewrite E in H. now apply Forall_app in H as [_ ?].
Qed.

(** The rows of the table leave the state alone; they are filled when each
    task has a path and a status that are text, and the first task that has
    not makes the filling raise. *)
Lemma show_rows_displayable {S} (l : list TaskObject) (s : S) :
  if forallb displayable l then MainWindow.show_rows l s = (Ok tt, s)
  else exists e, MainWindow.show_rows l s = (Raise e, s).
Proof.
  induction l as [|o l IH]; [reflexivity|].
  cbn [forallb MainWindow.show_rows]. unfold bind, MainWindow.show_row, displayable.
  destruct (object_file_path o); cbn [andb]; try (eexists; reflexivity).
  destruct (object_status o); cbn [andb]; try (eexists; reflexivity).
  exact IH.
Qed.

Lemma forallb_rev {A} (p : A -> bool) (l : list A) : forallb p (rev l) = forallb p l.
Proof.
  induction l as [|x l IH]; [reflexivity|].
  cbn [rev forallb]. rewrite forallb_app, IH. cbn [forallb].
  rewrite andb_true_r. apply andb_comm.
Qed.

(** [update_history_display] on a history. *)
Lemma update_history_display_spec (a : App) (w : World) :
  if forallb displayable (lastn 100 (installation_history a))
  then MainWindow.update_history_display (a, w) = (Ok tt, (a, w))
  else exists e, MainWindow.update_history_display (a, w) = (Raise e, (a, w)).
Proof.
  unfold MainWindow.update_history_display, bind, self. cbn [fst snd].
  rewrite <- forallb_rev. apply show_rows_displayable.
Qed.

Lemma update_history_display_empty (a : App) (w : World) :
  installation_history a = [] ->
  MainWindow.update_history_display (a, w) = (Ok tt, (a, w)).
Proof.
  intros H. pose proof (update_history_display_spec a w) as Hd.
  now rewrite H in Hd.
Qed.

Lemma load_history_missing (env : Env) (a : App) (w : World) :
  history_json w = NoFile ->
  MainWindow.load_history env (a, w) = (Ok tt, (set_history [] a, w)).
Proof.
  intros H. unfold MainWindow.load_history. unfold bind at 1. unfold try_except.
  unfold bind at 1. unfold liftW at 1, get_world. cbn [fst snd]. rewrite H.
  unfold set_self. cbn [fst snd]. now apply update_history_display_empty.
Qed.

Lemma load_history_unparsable (env : Env) (a : App) (w : World) :
  history_json w = Unparsable ->
  MainWindow.load_history env (a, w)
  = (Ok tt, (set_history [] a,
             record_log ERROR ("Failed to load history: " +:+ load_error env w) w)).
Proof.
  intros H. unfold MainWindow.load_history. unfold bind at 1. unfold try_except.
  unfold bind at 1. unfold liftW at 1, get_world. cbn [fst snd]. rewrite H.
  unfold raise, bind, liftW, logging, modify_world, set_self. cbn [fst snd exn_str].
  now apply update_history_display_empty.
Qed.

(** [from_dict] only reads the world. *)
Lemma object_from_dict_reads (env : Env) (data : gmap string pyval) (w : World) :
  snd (Task.object_from_dict env data w) = w
  /\ fst (Task.object_from_dict env data w) <> Diverges.
Proof.
  unfold Task.object_from_dict.
  destruct (data !! "file_path") as [path|]; [|split; [reflexivity|discriminate]].
  unfold bind, of_res, ret.
  destruct (Task.choose_task_id env path (data !! "task_id")) as [id|e|] eqn:E1;
    cbn [fst snd]; [|split; [reflexivity|discriminate]|].
  2:{ unfold Task.choose_task_id in E1.
      destruct (Task.truthy _); [discriminate|]. now destruct path. }
  destruct (Task.probe path) as [[]|e|] eqn:E2; cbn [fst snd];
    [|split; [reflexivity|discriminate]|now destruct path].
  assert (T : forall key, Task.read_timestamp env data key <> Diverges).
  { intros key. unfold Task.read_timestamp. destruct (Task.truthy _); [|discriminate].
    destruct (data !! key) as [[| |s]|]; try discriminate.
    destruct (fromisoformat env s); discriminate. }
  destruct (Task.read_timestamp env data "start_time") as [start|e|] eqn:E3; cbn [fst snd];
    [|split; [reflexivity|discriminate]|now destruct (T "start_time")].
  destruct (Task.read_timestamp env data "end_time") as [stop|e|] eqn:E4; cbn [fst snd];
    [|split; [reflexivity|discriminate]|now destruct (T "end_time")].
  split; [reflexivity|discriminate].
Qed.

Lemma from_dict_reads (env : Env) (data : gmap string pyval) (w : World) :
  snd (Task.from_dict env data w) = w /\ fst (Task.from_dict env data w) <> Diverges.
Proof.
  destruct (object_from_dict_reads env data w) as [Hw Hd].
  unfold Task.from_dict, bind, ret.
  destruct (Task.object_from_dict env data w) as [[o|e|] w1]; cbn [fst snd] in *;
    (split; [exact Hw|]); [discriminate|discriminate|contradiction].
Qed.

(** [from_dict] raises exactly when the object cannot be made. *)
Lemma from_dict_raises (env : Env) (data : gmap string pyval) (w : World) (e : exn) :
  fst (Task.from_dict env data w) = Raise e
  <-> fst (Task.object_from_dict env data w) = Raise e.
Proof.
  unfold Task.from_dict, bind, ret.
  destruct (Task.object_from_dict env data w) as [[o|e1|] w1]; cbn [fst]; split;
    intros H; try discriminate; exact H || (now injection H as <-).
Qed.

Lemma load_entries_reads (env : Env) (data : list (gmap string pyval)) (w : World) :
  snd (load_entries env data w) = w /\ fst (load_entries env data w) <> Diverges.
Proof.
  induction data as [|item data IH]; [split; [reflexivity|discriminate]|].
  cbn [load_entries]. unfold bind, ret.
  destruct (object_from_dict_reads env item w) as [Hw Hd].
  destruct (Task.object_from_dict env item w) as [[t|e|] w1]; cbn [fst snd] in *; subst;
    [|split; [reflexivity|discriminate]|contradiction].
  destruct IH as [Hw Hd'].
  destruct (load_entries env data w) as [[ts|e|] w1]; cbn [fst snd] in *; subst;
    [split; [reflexivity|discriminate]|split; [reflexivity|discriminate]|contradiction].
Qed.

(** The object that [from_dict] makes of a record has a true id and a path
    that is not [None]. *)
Lemma object_from_dict_storable (env : Env) (L : EnvLaws env) (data : gmap string pyval)
    (w w' : World) (o : TaskObject) :
  Task.object_from_dict env data w = (Ok o, w') -> storable o.
Proof.
  unfold Task.object_from_dict.
  destruct (data !! "file_path") as [path|]; [|discriminate].
  unfold bind, of_res, ret.
  destruct (Task.choose_task_id env path (data !! "task_id")) as [id|e|] eqn:E1;
    cbn [fst snd]; [|discriminate|discriminate].
  destruct (Task.probe path) as [[]|e|] eqn:E2; cbn [fst snd]; [|discriminate|discriminate].
  destruct (Task.read_timestamp env data "start_time") as [start|e|]; cbn [fst snd];
    [|discriminate|discriminate].
  destruct (Task.read_timestamp env data "end_time") as [stop|e|]; cbn [fst snd];
    [|discriminate|discriminate].
  intros [= <- _]. split; cbn [object_task_id object_file_path].
  - unfold Task.choose_task_id in E1.
    destruct (Task.truthy (data !! "task_id")) eqn:Ht.
    + injection E1 as <-. now destruct (data !! "task_id").
    + destruct path as [|z|p]; try discriminate. injection E1 as <-.
      cbn [Task.truthy]. destruct (String.eqb_spec (md5_hex8 env p) "") as [E|_]; [|reflexivity].
      now apply (md5_hex8_nonempty env L) in E.
  - intros ->. discriminate.
Qed.

Lemma load_entries_storable (env : Env) (L : EnvLaws env) (data : list (gmap string pyval))
    (w w' : World) (loaded : list TaskObject) :
  load_entries env data w = (Ok loaded, w') -> Forall storable loaded.
Proof.
  revert loaded. induction data as [|item data IH]; intros loaded.
  - intros [= <- _]. constructor.
  - cbn [load_entries]. unfold bind at 1.
    destruct (object_from_dict_reads env item w) as [Hw _].
    destruct (Task.object_from_dict env item w) as [[o|e|] w1] eqn:E; cbn [snd] in Hw;
      subst w1; [|discriminate|discriminate].
    unfold bind, ret.
    destruct (load_entries env data w) as [[ts|e|] w1]; [|discriminate|discriminate].
    intros [= <- <-]. constructor.
    + exact (object_from_dict_storable env L _ _ _ _ E).
    + now apply IH.
Qed.

Lemma load_entries_to_dict (env : Env) (L : EnvLaws env) (l : list TaskObject) (w : World) :
  Forall storable l ->
  load_entries env (Task.to_dict env <$> l) w = (Ok l, w).
Proof.
  induction 1 as [|o l Ho _ IH]; [reflexivity|].
  rewrite !fmap_cons. cbn [load_entries]. unfold bind at 1.
  rewrite (object_from_dict_to_dict env L o w Ho).
  unfold bind at 1. now rewrite IH.
Qed.

(** [load_history] on a store that can be parsed: the history is what
    [from_dict] makes of the records, or empty when it refuses one; the
    table is filled from it. *)
Lemma load_history_parsed (env : Env) (a : App) (w : World)
    (records : list (gmap string pyval)) :
  history_json w = Dumped records ->
  match load_entries env records w with
  | (Ok loaded, _) =>
      MainWindow.load_history env (a, w)
      = MainWindow.update_history_display (set_history loaded a, w)
  | (Raise e, _) =>
      MainWindow.load_history env (a, w)
      = (Ok tt, (set_history [] a,
                 record_log ERROR ("Failed to load history: " +:+ exn_str env e) w))
  | (Diverges, _) => False
  end.
Proof.
  intros H. destruct (load_entries_reads env records w) as [Hw Hd].
  destruct (load_entries env records w) as [[loaded|e|] w1] eqn:El; cbn [fst snd] in *;
    subst w1; [| |contradiction].
  all: unfold MainWindow.load_history; unfold bind at 1; unfold try_except;
    unfold bind at 1; unfold liftW at 1, get_world; cbn [fst snd]; rewrite H;
    unfold bind at 1; unfold liftW at 1; cbn [fst snd]; rewrite El.
  - reflexivity.
  - unfold bind, liftW, logging, modify_world, set_self. cbn [fst snd].
    now apply update_history_display_empty.
Qed.

(** The store that [to_dict] wrote for constructed tasks gives them back. *)
Lemma load_history_dumped (env : Env) (L : EnvLaws env) (a : App) (w : World)
    (l : list InstallationTask) :
  Forall (fun t => task_id t <> "") l ->
  history_json w = Dumped (Task.to_dict env <$> (object_of <$> l)) ->
  MainWindow.load_history env (a, w) = (Ok tt, (set_history (object_of <$> l) a, w)).
Proof.
  intros Hl H. pose proof (load_history_parsed env a w _ H) as Hp.
  rewrite load_entries_to_dict in Hp; [|exact L|].
  2:{ apply Forall_fmap. eapply list.Forall_impl; [exact Hl|].
      intros t Ht. now apply storable_object_of. }
  rewrite Hp.
  pose proof (update_history_display_spec (set_history (object_of <$> l) a) w) as Hd.
  cbn [installation_history set_history] in Hd.
  assert (E : forallb displayable (lastn 100 (object_of <$> l)) = true).
  { apply forallb_forall. intros o Ho.
    assert (F : Forall (fun o => displayable o = true) (lastn 100 (object_of <$> l))).
    { apply Forall_lastn, Forall_fmap, Forall_forall. intros t _. reflexivity. }
    rewrite Forall_forall in F. now apply F. }
  now rewrite E in Hd.
Qed.

Lemma save_history_entry_spec (env : Env) (a : App) (w : World) (r : nat) :
  let all := installation_history a ++ [object_of (heap w r)] in
  let data := Task.to_dict env <$> lastn 1000 all in
  MainWindow.save_history_entry env r (a, w)
  = (Ok tt,
     (set_history all a,
      match fault env (WriteJson "history.json" data) w with
      | None => set_history_json (Dumped data) (record_call (WriteJson "history.json" data) w)
      | Some err =>
          record_log ERROR ("Failed to save history: " +:+ err)
            (set_history_json (torn env w) (record_call (WriteJson "history.json" data) w))
      end)).
Proof.
  intros all data. unfold MainWindow.save_history_entry.
  unfold bind, liftW, BatchInstaller.attr, self, set_self, try_except, write_history_json.
  cbn [fst snd installation_history set_history]. fold all. fold data.
  destruct (fault env (WriteJson "history.json" data) w); reflexivity.
Qed.

(** C7. [save_history_entry] appends the task to the history in memory and
    returns, whatever the write does: when the write succeeds the store
    holds the last 1000 entries of the history (the entries before them are
    dropped), when it fails the error is logged. After a successful write,
    [load_history] gives these entries back, every field as it was.
    [load_history] on a store that is missing or cannot be parsed, or with a
    record that [from_dict] refuses, returns with an empty history. But it
    does raise to its caller: [update_history_display] is called after the
    [try], and fills the table from the last 100 entries with
    [os.path.basename(task.file_path)] and [task.status.capitalize()]. On a
    store that holds the record of [/d/a.deb] with the status null,
    [from_dict] stores the [None], and [load_history] leaves with the
    [AttributeError] of [capitalize], the history in memory holding the
    object. It raises exactly when one of the last 100 objects that
    [from_dict] made has a status or a path that is not text. *)
Theorem history_ledger_round_trip (env : Env) (L : EnvLaws env) (a : App) (w : World)
    (r : nat) :
  Forall storable (installation_history a) ->
  task_id (heap w r) <> "" ->
  let all := installation_history a ++ [object_of (heap w r)] in
  let kept := lastn 1000 all in
  let data := Task.to_dict env <$> kept in
  let null_status := <["status" := PNone]> {["file_path" := PStr "/d/a.deb"]} in
  (forall a0 w0,
     history_json w0 = NoFile \/ history_json w0 = Unparsable ->
     exists w1, MainWindow.load_history env (a0, w0) = (Ok tt, (set_history [] a0, w1)))
  /\ (forall a0 w0 records,
        history_json w0 = Dumped records ->
        match load_entries env records w0 with
        | (Ok loaded, _) =>
            Forall storable loaded
            /\ if forallb displayable (lastn 100 loaded)
               then MainWindow.load_history env (a0, w0)
                    = (Ok tt, (set_history loaded a0, w0))
               else exists e, MainWindow.load_history env (a0, w0)
                              = (Raise e, (set_history loaded a0, w0))
        | (Raise e, _) =>
            MainWindow.load_history env (a0, w0)
            = (Ok tt, (set_history [] a0,
                       record_log ERROR ("Failed to load history: " +:+ exn_str env e) w0))
        | (Diverges, _) => False
        end)
  /\ (forall a0 w0,
        history_json w0 = Dumped [null_status] ->
        MainWindow.load_history env (a0, w0)
        = (Raise (AttributeError "'NoneType' object has no attribute 'capitalize'"),
           (set_history [mkObject (PStr "/d/a.deb") (PStr (md5_hex8 env "/d/a.deb")) PNone
                                  (PInt 0) (PStr "") None None (PStr "unknown") (PInt 0)]
                        a0, w0)))
  /\ (exists dropped, all = dropped ++ kept /\ length kept = Nat.min 1000 (length all))
  /\ exists w1,
       MainWindow.save_history_entry env r (a, w) = (Ok tt, (set_history all a, w1))
       /\ calls w1 = calls w ++ [WriteJson "history.json" data]
       /\ match fault env (WriteJson "history.json" data) w with
          | None =>
              history_json w1 = Dumped data
              /\ log w1 = log w
              /\ (if forallb displayable (lastn 100 kept)
                  then MainWindow.load_history env (set_history all a, w1)
                       = (Ok tt, (set_history kept a, w1))
                  else exists e, MainWindow.load_history env (set_history all a, w1)
                                 = (Raise e, (set_history kept a, w1)))
              /\ (Forall (fun o => is_Some (as_task o)) (installation_history a) ->
                  MainWindow.load_history env (set_history all a, w1)
                  = (Ok tt, (set_history kept a, w1)))
          | Some err =>
              history_json w1 = torn env w
              /\ log w1 = log w ++ [(ERROR, "Failed to save history: " +:+ err)]
          end.
Proof.
  intros Hall Hr all kept data null_status.
  destruct (lastn_spec 1000 all) as [dropped [Hsplit Hlen]]. fold kept in Hsplit, Hlen.
  assert (Parsed : forall a0 w0 loaded,
            load_entries env (Task.to_dict env <$> loaded) w0 = (Ok loaded, w0) ->
            history_json w0 = Dumped (Task.to_dict env <$> loaded) ->
            if forallb displayable (lastn 100 loaded)
            then MainWindow.load_history env (a0, w0) = (Ok tt, (set_history loaded a0, w0))
            else exists e, MainWindow.load_history env (a0, w0)
                           = (Raise e, (set_history loaded a0, w0))).
  { intros a0 w0 loaded El Hj.
    pose proof (load_history_parsed env a0 w0 _ Hj) as Hp. rewrite El in Hp.
    rewrite Hp. exact (update_history_display_spec (set_history loaded a0) w0). }
  split; [|split; [|split; [|split]]].
  - intros a0 w0 [H|H].
    + eexists. now apply load_history_missing.
    + eexists. now apply load_history_unparsable.
  - intros a0 w0 records Hj.
    pose proof (load_history_parsed env a0 w0 _ Hj) as Hp.
    destruct (load_entries_reads env records w0) as [Hw _].
    destruct (load_entries env records w0) as [[loaded|e|] w1] eqn:El; [|exact Hp|exact Hp].
    split; [exact (load_entries_storable env L _ _ _ _ El)|].
    rewrite Hp. exact (update_history_display_spec (set_history loaded a0) w0).
  - intros a0 w0 Hj.
    pose proof (load_history_parsed env a0 w0 _ Hj) as Hp.
    cbn in Hp. rewrite Hp. reflexivity.
  - now exists dropped.
  - rewrite save_history_entry_spec. fold all kept data. eexists. split; [reflexivity|].
    destruct (fault env (WriteJson "history.json" data) w) as [err|].
    + now split.
    + split; [reflexivity|]. split; [reflexivity|]. split; [reflexivity|].
      assert (Hfull : Forall storable all).
      { apply Forall_app. split; [exact Hall|]. constructor; [|constructor].
        now apply storable_object_of. }
      assert (Hkept : Forall storable kept) by now apply Forall_lastn.
      set (w1 := set_history_json _ _).
      assert (El : load_entries env data w1 = (Ok kept, w1))
        by exact (load_entries_to_dict env L kept w1 Hkept).
      pose proof (Parsed (set_history all a) w1 kept El eq_refl) as Hload.
      assert (Hset : set_history kept (set_history all a) = set_history kept a)
        by reflexivity.
      rewrite Hset in Hload. split; [exact Hload|].
      intros Htyped.
      assert (E : forallb displayable (lastn 100 kept) = true).
      { apply forallb_forall. intros o Ho.
        assert (F : Forall (fun o => is_Some (as_task o)) (lastn 100 kept)).
        { apply Forall_lastn, Forall_lastn, Forall_app. split; [exact Htyped|].
          constructor; [|constructor]. rewrite as_task_object_of. now eexists. }
        rewrite Forall_forall in F. apply F in Ho. destruct Ho as [t Ht].
        unfold as_task in Ht. unfold displayable.
        destruct (object_file_path o); try discriminate.
        destruct (object_task_id o); try discriminate.
        now destruct (object_status o). }
      now rewrite E in Hload.
Qed.

(** The theorem on the quiet host: the first entry of a ledger. *)
Lemma history_ledger_round_trip_witness :
  let t := mkTask "/d/a.deb" "d41d8cd9" "completed" 0 "Successfully installed a.deb"
                  (Some 0) (Some 1) "unknown" 0 in
  exists w1,
    MainWindow.save_history_entry quiet_host 0 (app_of [0%nat], world_of ∅ [t])
    = (Ok tt, (set_history [object_of t] (app_of [0%nat]), w1))
    /\ MainWindow.load_history quiet_host (set_history [object_of t] (app_of [0%nat]), w1)
       = (Ok tt, (set_history [object_of t] (app_of [0%nat]), w1)).
Proof.
  intros t.
  destruct (history_ledger_round_trip quiet_host quiet_host_laws (app_of [0%nat])
              (world_of ∅ [t]) 0%nat) as [_ [_ [_ [_ [w1 [Hsave [_ Hrest]]]]]]].
  - constructor.
  - discriminate.
  - exists w1. split; [exact Hsave|].
    apply (proj2 (proj2 (proj2 Hrest))). constructor.
Defined.

(** C7 (as stated) fails in the code: a store that can be parsed and holds
    one record whose status is null, on the quiet host. [from_dict] makes an
    object of it, and [load_history] raises to its caller. *)
Lemma load_history_raises_on_null_status :
  let record := <["status" := PNone]> {["file_path" := PStr "/d/a.deb"]} in
  let w := set_history_json (Dumped [record]) (world_of ∅ []) in
  fst (Task.from_dict quiet_host record w) = Ok None
  /\ fst (MainWindow.load_history quiet_host (app_of [], w))
     = Raise (AttributeError "'NoneType' object has no attribute 'capitalize'").
Proof. vm_compute. split; reflexivity. Qed.

(** What [from_dict] makes of records whose [file_path] or [start_time] is
    not text, on the quiet host. *)
Example from_dict_on_other_types :
  let w := world_of ∅ [] in
  let made := fun record => fst (Task.object_from_dict quiet_host record w) in
  made {["file_path" := PNone]}
  = Raise (AttributeError "'NoneType' object has no attribute 'encode'")
  /\ made (<["task_id" := PStr "x"]> {["file_path" := PNone]})
     = Raise (TypeError
         "stat: path should be string, bytes, os.PathLike or integer, not NoneType")
  /\ made {["file_path" := PInt 77]}
     = Raise (AttributeError "'int' object has no attribute 'encode'")
  /\ made (<["task_id" := PStr "x"]> {["file_path" := PInt 77]})
     = Ok (mkObject (PInt 77) (PStr "x") (PStr "queued") (PInt 0) (PStr "") None None
                    (PStr "unknown") (PInt 0))
  /\ made (<["start_time" := PInt 5]> {["file_path" := PStr "/a"]})
     = Raise (TypeError "fromisoformat: argument must be str")
  /\ made (<["start_time" := PStr "zz"]> {["file_path" := PStr "/a"]})
     = Raise (ValueError "Invalid isoformat string: 'zz'").
Proof. vm_compute. repeat split. Qed.

(** A record that [from_dict] refuses empties the history; a record with a
    number as [file_path] and an id is loaded, and the table cannot show
    it. *)
Example load_history_on_other_types :
  let loaded := fun record =>
    MainWindow.load_history quiet_host
      (app_of [], set_history_json (Dumped [record]) (world_of ∅ [])) in
  fst (loaded {["file_path" := PInt 77]}) = Ok tt
  /\ installation_history (fst (snd (loaded {["file_path" := PInt 77]}))) = []
  /\ log (snd (snd (loaded {["file_path" := PInt 77]})))
     = [(ERROR, "Failed to load history: 'int' object has no attribute 'encode'")]
  /\ fst (loaded (<["task_id" := PStr "x"]> {["file_path" := PInt 77]}))
     = Raise (TypeError "expected str, bytes or os.PathLike object, not int").
Proof. vm_compute. repeat split. Qed.

Example lastn_keeps_the_newest : lastn 3 [1; 2; 3; 4; 5]%nat = [3; 4; 5]%nat.
Proof. reflexivity. Qed.

(** ** Desktop integration (C8) *)

Lemma host_only_copy_icon (env : Env) (icon app_name : string) :
  host_only (LinuxAppInstaller.copy_icon env icon app_name).
Proof. unfold LinuxAppInstaller.copy_icon. host_auto. Qed.

#[export] Hint Resolve host_only_copy_icon : host.

Lemma host_only_first_icon (env : Env) (mount app_name : string) (names : list string) :
  host_only (LinuxAppInstaller.first_icon env mount app_name names).
Proof.
  induction names as [|n names IH]; cbn [LinuxAppInstaller.first_icon]; host_auto.
Qed.

#[export] Hint Resolve host_only_first_icon : host.

Lemma host_only_extract_appimage_icon (env : Env) (path app_name : string) :
  host_only (LinuxAppInstaller.extract_appimage_icon env path app_name).
Proof. unfold LinuxAppInstaller.extract_appimage_icon. host_auto. Qed.

Lemma host_only_write_desktop_files (env : Env) (app_name content : string) :
  host_only (LinuxAppInstaller.write_desktop_files env app_name content).
Proof. unfold LinuxAppInstaller.write_desktop_files. host_auto. Qed.

Lemma host_only_update_desktop_database (env : Env) :
  host_only (LinuxAppInstaller.update_desktop_database env).
Proof. unfold LinuxAppInstaller.update_desktop_database. host_auto. Qed.

#[export] Hint Resolve host_only_extract_appimage_icon host_only_write_desktop_files
  host_only_update_desktop_database : host.

Lemma host_only_create_appimage_desktop_entry (env : Env) (path : string) :
  host_only (LinuxAppInstaller.create_appimage_desktop_entry env path).
Proof. unfold LinuxAppInstaller.create_appimage_desktop_entry. host_auto. Qed.

Lemma host_only_write_tar_entries (env : Env) (l : list string) :
  host_only (LinuxAppInstaller.write_tar_entries env l).
Proof.
  induction l as [|x l IH]; cbn [LinuxAppInstaller.write_tar_entries]; host_auto.
Qed.

#[export] Hint Resolve host_only_create_appimage_desktop_entry host_only_write_tar_entries
  : host.

Lemma host_only_create_tar_desktop_entries (env : Env) (dir : string) :
  host_only (LinuxAppInstaller.create_tar_desktop_entries env dir).
Proof. unfold LinuxAppInstaller.create_tar_desktop_entries. host_auto. Qed.

Lemma host_only_create_executable_desktop_entry (env : Env) (path : string) :
  host_only (LinuxAppInstaller.create_executable_desktop_entry env path).
Proof. unfold LinuxAppInstaller.create_executable_desktop_entry. host_auto. Qed.

Lemma host_only_setup_application_directories (env : Env) (app_name : string) :
  host_only (LinuxAppInstaller.setup_application_directories env app_name).
Proof. unfold LinuxAppInstaller.setup_application_directories. host_auto. Qed.

Lemma host_only_create_uninstall_entry (env : Env) (app_name path : string)
    (cmd : option string) :
  host_only (LinuxAppInstaller.create_uninstall_entry env app_name path cmd).
Proof. unfold LinuxAppInstaller.create_uninstall_entry. host_auto. Qed.

Lemma host_only_associate (env : Env) (app_name ext : string) :
  host_only (LinuxAppInstaller.associate env app_name ext).
Proof. unfold LinuxAppInstaller.associate. host_auto. Qed.

#[export] Hint Resolve host_only_associate : host.

Lemma host_only_associate_all (env : Env) (app_name : string) (exts : list string) :
  host_only (LinuxAppInstaller.associate_all env app_name exts).
Proof.
  induction exts as [|x l IH]; cbn [LinuxAppInstaller.associate_all]; host_auto.
Qed.

#[export] Hint Resolve host_only_associate_all : host.

Lemma host_only_setup_file_associations (env : Env) (app_name : string)
    (exts : option (list string)) :
  host_only (LinuxAppInstaller.setup_file_associations env app_name exts).
Proof. unfold LinuxAppInstaller.setup_file_associations. host_auto. Qed.

#[export] Hint Resolve host_only_create_tar_desktop_entries
  host_only_create_executable_desktop_entry host_only_setup_application_directories
  host_only_create_uninstall_entry host_only_setup_file_associations : host.

Lemma host_only_post_install_setup (env : Env) (app_name path file_type : string) :
  host_only (LinuxAppInstaller.post_install_setup env app_name path file_type).
Proof. unfold LinuxAppInstaller.post_install_setup. host_auto. Qed.

#[export] Hint Resolve host_only_post_install_setup : host.

Lemma host_only_method (env : Env) (f : procedure) (path : string) :
  host_only (LinuxAppInstaller.method env f path).
Proof.
  destruct f; cbn [LinuxAppInstaller.method];
    [unfold LinuxAppInstaller.install_deb | unfold LinuxAppInstaller.install_appimage
    |unfold LinuxAppInstaller.install_tar | unfold LinuxAppInstaller.install_snap
    |unfold LinuxAppInstaller.install_flatpak
    |unfold LinuxAppInstaller.install_executable];
    host_auto.
Qed.

Lemma runs_attempts {A} (marks : list syscall) (m : M World A) :
  runs marks m -> attempts marks m.
Proof.
  intros H w. destruct (H w) as [[a Ha] Hl]. split; [|exact Hl].
  rewrite Ha. discriminate.
Qed.


Lemma attempts_fs_call_bind {A} (env : Env) (c : syscall)
    (effect : gset string -> gset string) (k : unit -> M World A) :
  (forall u, host_only (k u)) -> attempts [c] (bind (fs_call env c effect) k).
Proof.
  intros Hk w. unfold bind, fs_call. destruct (fault env c w); cbn [fst snd].
  - split; [discriminate|]. exists [c]. split; [reflexivity|reflexivity].
  - set (w1 := set_files _ _). destruct (Hk tt w1) as [Hd [_ _ _ _ [l Hl] _]].
    split; [exact Hd|]. exists (c :: l). split.
    + rewrite Hl. subst w1. cbn [calls set_files record_call].
      now rewrite <- app_assoc.
    + apply sublist_skip. apply sublist_nil_l.
Qed.


Lemma runs_bind {A B} (l1 l2 : list syscall) (m : M World A) (k : A -> M World B) :
  runs l1 m -> (forall a, runs l2 (k a)) -> runs (l1 ++ l2) (bind m k).
Proof.
  intros Hm Hk w. unfold bind. destruct (Hm w) as [[a Ha] [l [Hl Hs]]].
  destruct (m w) as [r w1]. cbn [fst snd] in *. subst r.
  destruct (Hk a w1) as [Hd [l' [Hl' Hs']]]. split; [exact Hd|].
  exists (l ++ l'). split.
  - rewrite Hl', Hl. now rewrite <- app_assoc.
  - now apply sublist_app.
Qed.

Lemma runs_ret {A} (a : A) : runs [] (ret a).
Proof.
  intros w. split; [now exists a|]. exists []. split; [now rewrite app_nil_r|reflexivity].
Qed.

Lemma runs_logging (l : level) (msg : string) : runs [] (logging l msg).
Proof.
  intros w. split; [now exists tt|]. exists []. split; [now rewrite app_nil_r|reflexivity].
Qed.

(** A step that catches what its body raises, and whose handler logs,
    returns; the calls its body began with have been made. *)
Lemma runs_try_except {A} (marks : list syscall) (body : M World A)
    (handler : exn -> M World A) :
  attempts marks body -> (forall e, runs [] (handler e)) ->
  runs marks (try_except body handler).
Proof.
  intros Hb Hh w. unfold try_except. destruct (Hb w) as [Hd [l [Hl Hs]]].
  destruct (body w) as [[a|e|] w1]; cbn [fst snd] in *.
  - split; [now exists a|]. now exists l.
  - destruct (Hh e w1) as [Hr [l' [Hl' _]]]. split; [exact Hr|].
    exists (l ++ l'). split.
    + rewrite Hl', Hl. now rewrite <- app_assoc.
    + now apply sublist_inserts_r.
  - contradiction.
Qed.

Lemma runs_weaken {A} (l l' : list syscall) (m : M World A) :
  l' `sublist_of` l -> runs l m -> runs l' m.
Proof.
  intros Hs H w. destruct (H w) as [Hr [k [Hk Hk']]]. split; [exact Hr|].
  exists k. split; [exact Hk|]. now transitivity l.
Qed.

Lemma runs_handler {A} (l : level) (msg : string) (a : A) :
  runs [] (logging l msg ;; ret a).
Proof. apply (runs_bind [] []); [apply runs_logging|intros; apply runs_ret]. Qed.

Lemma attempts_bind_l {A B} (marks : list syscall) (m : M World A) (k : A -> M World B) :
  attempts marks m -> (forall a, host_only (k a)) -> attempts marks (bind m k).
Proof.
  intros Hm Hk w. unfold bind. destruct (Hm w) as [Hd [l [Hl Hs]]].
  destruct (m w) as [[a|e|] w1]; cbn [fst snd] in *.
  - destruct (Hk a w1) as [Hd' [_ _ _ _ [l' Hl'] _]]. split; [exact Hd'|].
    exists (l ++ l'). split.
    + rewrite Hl', Hl. now rewrite <- app_assoc.
    + now apply sublist_inserts_r.
  - split; [discriminate|]. now exists l.
  - contradiction.
Qed.


Lemma attempts_write_desktop_files (env : Env) (app_name content : string) :
  attempts [menu_directory env app_name]
    (LinuxAppInstaller.write_desktop_files env app_name content).
Proof.
  unfold LinuxAppInstaller.write_desktop_files, makedirs.
  apply attempts_fs_call_bind. intros _. host_auto.
Qed.


Lemma runs_setup_application_directories (env : Env) (app_name : string) :
  runs [data_directory env app_name]
    (LinuxAppInstaller.setup_application_directories env app_name).
Proof.
  unfold LinuxAppInstaller.setup_application_directories. apply runs_try_except.
  - unfold makedirs. apply attempts_fs_call_bind. intros _. host_auto.
  - intros e. apply runs_handler.
Qed.

Lemma runs_create_uninstall_entry (env : Env) (app_name install_path : string) :
  runs [uninstall_entry env app_name install_path]
    (LinuxAppInstaller.create_uninstall_entry env app_name install_path None).
Proof.
  unfold LinuxAppInstaller.create_uninstall_entry. apply runs_try_except.
  - unfold write_text. apply attempts_fs_call_bind. intros _. host_auto.
  - intros e. apply runs_logging.
Qed.

Lemma runs_setup_file_associations (env : Env) (app_name ext : string)
    (exts : list string) :
  runs [mime_directory env]
    (LinuxAppInstaller.setup_file_associations env app_name (Some (ext :: exts))).
Proof.
  cbn [LinuxAppInstaller.setup_file_associations]. apply runs_try_except.
  - cbn [LinuxAppInstaller.associate_all]. apply attempts_bind_l.
    + unfold LinuxAppInstaller.associate, makedirs.
      apply attempts_fs_call_bind. intros _. host_auto.
    + intros _. host_auto.
  - intros e. apply runs_logging.
Qed.




Lemma runs_create_executable_desktop_entry (env : Env) (path : string) :
  runs [menu_directory env (fst (Py.splitext (Py.basename path)))]
    (LinuxAppInstaller.create_executable_desktop_entry env path).
Proof.
  unfold LinuxAppInstaller.create_executable_desktop_entry. apply runs_try_except.
  - apply attempts_bind_l.
    + apply attempts_write_desktop_files.
    + intros _. host_auto.
  - intros e. apply runs_logging.
Qed.

Lemma runs_setup_file_associations_any (env : Env) (app_name : string)
    (exts : option (list string)) :
  runs [] (LinuxAppInstaller.setup_file_associations env app_name exts).
Proof.
  destruct exts as [[|ext exts]|]; try apply runs_ret.
  apply (runs_weaken [mime_directory env]); [apply sublist_nil_l|].
  apply runs_setup_file_associations.
Qed.

(** [post_install_setup] for any kind of file: the directories and the
    uninstall entry are begun, and the call returns. *)
Lemma runs_post_install_setup (env : Env) (app_name install_path file_type : string) :
  runs [data_directory env app_name; uninstall_entry env app_name install_path]
    (LinuxAppInstaller.post_install_setup env app_name install_path file_type).
Proof.
  unfold LinuxAppInstaller.post_install_setup. apply runs_try_except.
  - apply runs_attempts.
    apply (runs_bind [data_directory env app_name]
             [uninstall_entry env app_name install_path]).
    { apply runs_setup_application_directories. }
    intros dirs.
    apply (runs_bind [uninstall_entry env app_name install_path] []).
    { apply runs_create_uninstall_entry. }
    intros _.
    apply (runs_bind [] []).
    { destruct (List.find _ _); [apply runs_setup_file_associations_any|apply runs_ret]. }
    intros _. apply (runs_bind [] []); [apply runs_logging|intros; apply runs_ret].
  - intros e. apply runs_handler.
Qed.



(** On that host each step logs its failure and the install succeeds. *)
Example install_appimage_on_hostile_host :
  let r := LinuxAppInstaller.install_appimage hostile_host "/d/app.AppImage"
             (world_of {["/d/app.AppImage"]} []) in
  fst r = Ok "AppImage installed to /home/user/Applications/app.AppImage with desktop integration"
  /\ fst <$> log (snd r) = [DEBUG; WARNING; WARNING; WARNING; WARNING; INFO].
Proof. vm_compute. split; reflexivity. Qed.

(** ** The interactive entry point (C10) *)

Lemma check_file_spec (env : Env) (path : string) (w : World) :
  MainWindow.check_file env path w
  = match rejection env path w with
    | Some reason => (Raise (Exception reason), record_log ERROR reason w)
    | None => (Ok tt, w)
    end.
Proof.
  unfold MainWindow.check_file, rejection, bind, get_world, logging, modify_world, raise, ret.
  destruct (path_exists path w); cbn [negb]; [|reflexivity].
  destruct (access_r env path w); cbn [negb]; [|reflexivity].
  now destruct (getsize env path w =? 0).
Qed.

Lemma rejection_bad_file (env : Env) (path : string) (w : World) :
  path_exists path w = false \/ access_r env path w = false \/ getsize env path w = 0 ->
  exists reason, rejection env path w = Some reason
    /\ reason ∈ ["File does not exist: " +:+ path; "File is not readable: " +:+ path;
                 "File is empty: " +:+ path].
Proof.
  intros H. unfold rejection.
  destruct (path_exists path w); cbn [negb].
  - destruct (access_r env path w); cbn [negb].
    + destruct (Z.eqb_spec (getsize env path w) 0) as [E|E].
      * eexists. split; [reflexivity|]. rewrite !elem_of_cons. auto.
      * destruct H as [H|[H|H]]; congruence.
    + eexists. split; [reflexivity|]. rewrite !elem_of_cons. auto.
  - eexists. split; [reflexivity|]. rewrite !elem_of_cons. auto.
Qed.

(** C10. When no install is in flight, [install_file] answers a path that
    does not exist, cannot be read or has no bytes with the error dialog of
    that test, whatever the suffix of the path, and returns: the error is
    logged, the flag stays unset, no worker is made, and no call on the
    host and no signal is made. *)
Theorem install_file_rejects_bad_file (env : Env) (path : string) (a : App) (w : World) :
  installing a = false ->
  MainWindow.worker_is_running a = false ->
  path_exists path w = false \/ access_r env path w = false \/ getsize env path w = 0 ->
  exists reason,
    reason ∈ ["File does not exist: " +:+ path; "File is not readable: " +:+ path;
              "File is empty: " +:+ path]
    /\ MainWindow.install_file env path (a, w)
       = (Ok tt, (set_window (show_dialog (Critical "Error" reason)) a,
                  record_log ERROR reason w))
    /\ installing (set_window (show_dialog (Critical "Error" reason)) a) = false
    /\ current_worker (set_window (show_dialog (Critical "Error" reason)) a)
       = current_worker a
    /\ calls (record_log ERROR reason w) = calls w
    /\ files (record_log ERROR reason w) = files w
    /\ signals (record_log ERROR reason w) = signals w.
Proof.
  intros Hi Hw Hbad.
  destruct (rejection_bad_file env path w Hbad) as [reason [Hr Hin]].
  exists reason. split; [exact Hin|]. split.
  - unfold MainWindow.install_file. unfold bind at 1. unfold self at 1. cbn [fst snd].
    rewrite Hi, Hw. unfold bind at 1. unfold try_except. unfold bind at 1.
    unfold liftW at 1. cbn [fst snd]. rewrite check_file_spec, Hr.
    reflexivity.
  - repeat split. exact Hi.
Qed.

(** The theorem on a path that does not exist. *)
Lemma install_file_rejects_bad_file_witness :
  exists reason,
    MainWindow.install_file quiet_host "/d/missing.xyz" (app_of [], world_of ∅ [])
    = (Ok tt, (set_window (show_dialog (Critical "Error" reason)) (app_of []),
               record_log ERROR reason (world_of ∅ []))).
Proof.
  destruct (install_file_rejects_bad_file quiet_host "/d/missing.xyz" (app_of [])
              (world_of ∅ [])) as [reason [_ [H _]]].
  - reflexivity.
  - reflexivity.
  - left. reflexivity.
  - now exists reason.
Defined.

(** The file is tested before its suffix: a missing file with a suffix
    that is not supported is reported as missing. *)
Example install_file_tests_the_file_first :
  dialogs (window (fst (snd (MainWindow.install_file quiet_host "/d/missing.xyz"
                               (app_of [], world_of ∅ [])))))
  = [Critical "Error" "File does not exist: /d/missing.xyz"]
  /\ dialogs (window (fst (snd (MainWindow.install_file quiet_host "/d/present.xyz"
                                  (app_of [], world_of {["/d/present.xyz"]} [])))))
     = [Critical "Error" "Unsupported file type: xyz"].
Proof. vm_compute. split; reflexivity. Qed.

(** While an install is in flight a request only sets the notice. *)
Lemma install_file_busy (env : Env) (path : string) (a : App) (w : World) :
  installing a = true \/ MainWindow.worker_is_running a = true ->
  MainWindow.install_file env path (a, w)
  = (Ok tt, (set_window (set_status_label MainWindow.busy_notice) a, w)).
Proof.
  intros H. unfold MainWindow.install_file. unfold bind at 1. unfold self. cbn [fst snd].
  destruct (installing a); [reflexivity|].
  destruct H as [H|H]; [discriminate|]. now rewrite H.
Qed.

(** ** The completion handlers and the queue (C1, C3) *)

Lemma set_history_same (a : App) : set_history (installation_history a) a = a.
Proof. now destruct a. Qed.

(** [load_history] returns or raises; it replaces the history in memory
    and, apart from a record in the log, leaves the world as it is. *)
Lemma load_history_frame (env : Env) (a : App) (w : World) :
  exists r h w',
    MainWindow.load_history env (a, w) = (r, (set_history h a, w'))
    /\ r <> Diverges /\ frame w w' /\ files w' = files w /\ calls w' = calls w.
Proof.
  assert (Flog : forall msg, frame w (record_log ERROR msg w)).
  { intros msg. split; try reflexivity. cbn. now apply prefix_app_r. }
  destruct (history_json w) as [| |records] eqn:Hj.
  - exists (Ok tt), [], w. rewrite (load_history_missing env a w Hj).
    repeat split; try discriminate; reflexivity.
  - eexists (Ok tt), [], _. rewrite (load_history_unparsable env a w Hj).
    split; [reflexivity|]. split; [discriminate|]. split; [apply Flog|]. now split.
  - pose proof (load_history_parsed env a w records Hj) as Hp.
    destruct (load_entries env records w) as [[loaded|e|] w1]; [| |contradiction].
    + rewrite Hp.
      pose proof (update_history_display_spec (set_history loaded a) w) as Hd.
      destruct (forallb displayable _).
      * exists (Ok tt), loaded, w. rewrite Hd.
        repeat split; try discriminate; reflexivity.
      * destruct Hd as [e Hd]. exists (Raise e), loaded, w. rewrite Hd.
        repeat split; try discriminate; reflexivity.
    + eexists (Ok tt), [], _. rewrite Hp.
      split; [reflexivity|]. split; [discriminate|]. split; [apply Flog|]. now split.
Qed.

(** [on_batch_task_completed]: the first task of the queue with the id gets
    the final status and the message, it is saved once to the ledger, and
    it stays in the queue; without such a task nothing happens. *)
Lemma on_batch_task_completed_spec (env : Env) (id : string) (success : bool)
    (msg : string) (a : App) (w : World) :
  match List.find (fun r => String.eqb (task_id (heap w r)) id) (installation_queue a) with
  | None => MainWindow.on_batch_task_completed env id success msg (a, w) = (Ok tt, (a, w))
  | Some r =>
      let task := set_message msg
                    (set_status (if success then "completed" else "failed") (heap w r)) in
      let data := Task.to_dict env
                    <$> lastn 1000 (installation_history a ++ [object_of task]) in
      exists res h w',
        MainWindow.on_batch_task_completed env id success msg (a, w)
        = (res, (set_history h a, w'))
        /\ res <> Diverges
        /\ heap w' r = task
        /\ (forall r', r <> r' -> heap w' r' = heap w r')
        /\ calls w' = calls w ++ [WriteJson "history.json" data]
  end.
Proof.
  destruct (List.find _ (installation_queue a)) as [r|] eqn:F.
  - intros task data.
    unfold MainWindow.on_batch_task_completed. unfold bind at 1. unfold self at 1.
    unfold bind at 1. unfold liftW at 1, get_world. cbn [fst snd]. rewrite F.
    unfold bind at 1. unfold liftW at 1, modify_world at 1. cbn [fst snd].
    unfold bind at 1. unfold liftW at 1, modify_world at 1. cbn [fst snd].
    unfold bind at 1. rewrite save_history_entry_spec.
    task_simpl. fold task. fold data.
    unfold bind at 1. unfold MainWindow.update_queue_display at 1, ret at 1.
    match goal with |- context [MainWindow.load_history env (?a1, ?w1)] =>
      destruct (load_history_frame env a1 w1) as [res [h [w' [Hl [Hd [Hf [_ Hc]]]]]]];
      rewrite Hl
    end.
    exists res, h, w'. split; [f_equal; f_equal; now destruct a|].
    split; [exact Hd|].
    rewrite (frame_heap _ _ Hf), Hc.
    destruct (fault env _ _); task_simpl; (split; [reflexivity|]); split;
      try reflexivity; intros r' Hr; now rewrite !fn_lookup_insert_ne by exact Hr.
  - unfold MainWindow.on_batch_task_completed. unfold bind at 1. unfold self at 1.
    unfold bind at 1. unfold liftW at 1, get_world. cbn [fst snd]. now rewrite F.
Qed.

Lemma processed_other (env : Env) (q : list nat) (w : World) (r : nat) :
  r ∉ q -> heap (processed env q w) r = heap w r.
Proof.
  revert w. induction q as [|r0 q IH]; intros w H; [reflexivity|].
  rewrite processed_cons.
  apply not_elem_of_cons in H as [H1 H2].
  rewrite IH by exact H2. apply run_task_other. congruence.
Qed.

(** [start_batch_installation] with a queue and no batch running: the
    installer is made from a copy of the queue, and the call of
    [set_installer], which [BatchInstaller] does not define, raises; the
    signals are not connected and the thread is not started. *)
Lemma start_batch_installation_raises (a : App) (w : World) :
  installation_queue a <> [] ->
  MainWindow.batch_is_running a = false ->
  MainWindow.start_batch_installation (a, w)
  = (Raise (AttributeError "'BatchInstaller' object has no attribute 'set_installer'"),
     (set_batch_installer
        (Some (mkThread (BatchInstaller.init (installation_queue a)) false false)) a, w)).
Proof.
  intros Hq Hr. unfold MainWindow.start_batch_installation.
  unfold bind at 1. unfold self at 1. cbn [fst snd].
  destruct (installation_queue a) as [|r q] eqn:E; [contradiction|].
  rewrite Hr. reflexivity.
Qed.

(** A file chosen in the dialog enters the queue as a new task object, in
    the status queued, behind the tasks that are there. *)
Lemma add_to_queue_queued (env : Env) (path : string) (a : App) (w : World) :
  isfile env path w = true ->
  exists t a' w',
    MainWindow.add_to_queue env [path] (a, w) = (Ok tt, (a', w'))
    /\ installation_queue a' = installation_queue a ++ [next_ref a]
    /\ heap w' (next_ref a) = t
    /\ status t = "queued"
    /\ file_path t = path.
Proof.
  intros Hfile.
  unfold MainWindow.add_to_queue, bind, liftW, get_world, self, set_self, modify_world,
    MainWindow.update_queue_display, ret. cbn [fst snd]. rewrite Hfile.
  unfold Task.init, bind, Task.calculate_hash, get_world, ret. cbn [fst snd].
  eexists _, _, _. split; [reflexivity|].
  cbn [installation_queue set_next_ref set_queue heap set_heap].
  split; [reflexivity|]. split; [apply fn_lookup_insert|]. now split.
Qed.

(** C3 (as amended). A batch is made with a copy of the list of the queue: its
    run empties its own deque. The task objects are shared: after the run
    every task of the queue is completed or failed, with the id and path
    it had, and the other objects are as before. [on_batch_task_completed]
    leaves the queue as it is and writes the final status into the first
    task of the queue with the id. A task enters the queue in the status
    queued. *)
Theorem batch_shares_tasks_with_queue (env : Env) (a : App) (w : World) :
  let queue := installation_queue a in
  let final := processed env queue w in
  BatchInstaller.tasks (BatchInstaller.init queue) = queue
  /\ BatchInstaller.run env (BatchInstaller.init queue, w)
     = (Ok tt, (BatchInstaller.mkObj [] true, record_signal batch_finished final))
  /\ (forall r, r ∈ queue ->
        (status (heap final r) = "completed" \/ status (heap final r) = "failed")
        /\ task_id (heap final r) = task_id (heap w r)
        /\ file_path (heap final r) = file_path (heap w r))
  /\ (forall r, r ∉ queue -> heap final r = heap w r)
  /\ (forall id success msg,
        exists res h w',
          MainWindow.on_batch_task_completed env id success msg (a, w)
          = (res, (set_history h a, w'))
          /\ installation_queue (set_history h a) = queue
          /\ forall r,
               List.find (fun r => String.eqb (task_id (heap w r)) id) queue = Some r ->
               r ∈ queue
               /\ status (heap w' r) = (if success then "completed" else "failed")
               /\ message (heap w' r) = msg)
  /\ (forall path,
        isfile env path w = true ->
        exists t a' w',
          MainWindow.add_to_queue env [path] (a, w) = (Ok tt, (a', w'))
          /\ installation_queue a' = queue ++ [next_ref a]
          /\ heap w' (next_ref a) = t
          /\ status t = "queued"
          /\ file_path t = path).
Proof.
  intros queue final. split; [reflexivity|]. split; [|split; [|split; [|split]]].
  - unfold BatchInstaller.run, BatchInstaller.init.
    unfold bind at 1. unfold self at 1. cbn [fst snd BatchInstaller.tasks].
    unfold bind at 1. rewrite run_loop_spec by lia. reflexivity.
  - intros r Hr. split.
    + apply (processed_done env queue w r). now left.
    + apply processed_identity.
  - intros r Hr. now apply processed_other.
  - intros id success msg.
    pose proof (on_batch_task_completed_spec env id success msg a w) as H.
    fold queue in H.
    destruct (List.find _ queue) as [r|] eqn:F.
    + destruct H as [res [h [w' [H [_ [Hh _]]]]]].
      exists res, h, w'. split; [exact H|]. split; [reflexivity|].
      intros r0 [= <-]. split.
      * apply list_elem_of_In. eapply List.find_some; eassumption.
      * rewrite Hh. now split.
    + exists (Ok tt), (installation_history a), w. rewrite set_history_same.
      split; [exact H|]. split; [reflexivity|]. discriminate.
  - intros path Hfile. now apply add_to_queue_queued.
Qed.

(** C3 (as stated) fails: the queue holds a task that is queued; after the run
    of the batch made from the queue the same queue holds it completed, and
    after the completion handler it holds it failed. *)
Lemma queue_holds_closed_tasks :
  let w := world_of {["/d/a.deb"]} [fresh_task "/d/a.deb"] in
  let a := app_of [0%nat] in
  let after_run :=
    snd (snd (BatchInstaller.run quiet_host
                (BatchInstaller.init (installation_queue a), w))) in
  let after_slot :=
    snd (MainWindow.on_batch_task_completed quiet_host "d41d8cd9" false "boom" (a, w)) in
  status (heap w 0%nat) = "queued"
  /\ installation_queue a = [0%nat]
  /\ status (heap after_run 0%nat) = "completed"
  /\ installation_queue (fst after_slot) = [0%nat]
  /\ status (heap (snd after_slot) 0%nat) = "failed".
Proof. vm_compute. repeat split. Qed.

(** [install_file] touches neither the history nor the queue nor the task
    objects. *)
Lemma install_file_history (env : Env) (path : string) (a : App) (w : World) :
  exists r a' w',
    MainWindow.install_file env path (a, w) = (r, (a', w'))
    /\ installation_history a' = installation_history a
    /\ installation_queue a' = installation_queue a
    /\ history_json w' = history_json w
    /\ heap w' = heap w.
Proof.
  unfold MainWindow.install_file. unfold bind at 1. unfold self. cbn [fst snd].
  destruct (installing a); [eexists _, _, _; split; [reflexivity|now split]|].
  destruct (MainWindow.worker_is_running a);
    [eexists _, _, _; split; [reflexivity|now split]|].
  unfold bind, try_except, liftW. cbn [fst snd]. rewrite check_file_spec.
  destruct (rejection env path w);
    [eexists _, _, _; split; [reflexivity|now split]|].
  cbn [fst snd negb ret].
  case_bool_decide; cbn [negb fst snd].
  - destruct (getattr_install (get_file_type path));
      eexists _, _, _; (split; [reflexivity|now split]).
  - eexists _, _, _; split; [reflexivity|now split].
Qed.

(** [InstallWorker.run] returns with one signal emitted. *)
Lemma worker_run_spec (env : Env) (k : InstallWorker) (w : World) :
  exists w' msg,
    MainWindow.worker_run env k w = (Ok tt, w')
    /\ history_json w' = history_json w
    /\ (signals w' = signals w ++ [finished msg] \/ signals w' = signals w ++ [error msg]).
Proof.
  unfold MainWindow.worker_run, try_except, bind, emit, modify_world.
  destruct (host_only_method env (install_func k) (worker_path k) w)
    as [Hd [_ Hs Hj _ _ _]].
  destruct (LinuxAppInstaller.method env (install_func k) (worker_path k) w)
    as [[msg|e|] w1]; cbn [fst snd] in *; [| |contradiction].
  - eexists _, msg. split; [reflexivity|]. split; [exact Hj|]. left.
    cbn [signals record_signal]. now rewrite Hs.
  - eexists _, (exn_str env e). split; [reflexivity|]. split; [exact Hj|]. right.
    cbn [signals record_signal]. now rewrite Hs.
Qed.

(** C1. An interactive install never reaches the ledger: [install_file]
    leaves the history and its store as they are, the worker emits one of
    [finished] and [error] and leaves the store as it is, and both handlers
    restore the window and show the message without appending to the
    history. *)
Theorem interactive_outcome_not_recorded (env : Env) (path msg : string)
    (k : InstallWorker) (a : App) (w : World) :
  (exists r a' w',
     MainWindow.install_file env path (a, w) = (r, (a', w'))
     /\ installation_history a' = installation_history a
     /\ history_json w' = history_json w)
  /\ (exists w' m,
        MainWindow.worker_run env k w = (Ok tt, w')
        /\ history_json w' = history_json w
        /\ (signals w' = signals w ++ [finished m] \/ signals w' = signals w ++ [error m]))
  /\ (exists a',
        MainWindow.on_install_finished env msg (a, w) = (Ok tt, (a', w))
        /\ installation_history a' = installation_history a
        /\ installing a' = false
        /\ dialogs (window a') = dialogs (window a) ++ [Information "Success" msg])
  /\ (exists a',
        MainWindow.on_install_error env msg (a, w)
        = (Ok tt, (a', record_log ERROR ("Installation failed: " +:+ msg) w))
        /\ installation_history a' = installation_history a
        /\ installing a' = false
        /\ dialogs (window a') = dialogs (window a) ++ [Critical "Installation Failed" msg]).
Proof.
  split; [|split; [|split]].
  - destruct (install_file_history env path a w) as [r [a' [w' [H [H1 [_ [H2 _]]]]]]].
    now exists r, a', w'.
  - apply worker_run_spec.
  - eexists. split; [reflexivity|]. now split.
  - eexists. split; [reflexivity|]. now split.
Qed.

(** An interactive install of a package, from the request to the dialog. *)
Example interactive_install_leaves_history_empty :
  let w := world_of {["/d/a.deb"]} [] in
  let s1 := snd (MainWindow.install_file quiet_host "/d/a.deb" (app_of [], w)) in
  let w2 := snd (MainWindow.worker_run quiet_host (mkWorker ProcDeb "/d/a.deb" true) (snd s1)) in
  let s3 := snd (MainWindow.on_install_finished quiet_host "Successfully installed a.deb"
                   (fst s1, w2)) in
  current_worker (fst s1) = Some (mkWorker ProcDeb "/d/a.deb" true)
  /\ signals w2 = [finished "Successfully installed a.deb"]
  /\ dialogs (window (fst s3)) = [Information "Success" "Successfully installed a.deb"]
  /\ installation_history (fst s3) = []
  /\ history_json (snd s3) = NoFile.
Proof. vm_compute. repeat split. Qed.

(** * Further properties *)

(** ** Files without a suffix, and the tags the batch accepts *)

Lemma rfind_from_app (c : ascii) (s t : string) (i acc : Z) :
  Py.rfind_from c (s +:+ t) i acc
  = Py.rfind_from c t (i + Z.of_nat (String.length s)) (Py.rfind_from c s i acc).
Proof.
  revert i acc. induction s as [|a s IH]; intros i acc.
  - rewrite app_empty_l. cbn [Py.rfind_from String.length]. f_equal. lia.
  - rewrite app_cons. cbn [Py.rfind_from String.length]. rewrite IH. f_equal. lia.
Qed.

Lemma rfind_from_bound (c : ascii) (s : string) (i acc : Z) :
  acc < i -> Py.rfind_from c s i acc < i + Z.of_nat (String.length s).
Proof.
  revert i acc. induction s as [|a s IH]; intros i acc H; cbn [Py.rfind_from String.length].
  - lia.
  - specialize (IH (i + 1) (if Ascii.eqb a c then i else acc)).
    destruct (Ascii.eqb a c); lia.
Qed.

Lemma rfind_app_free (c : ascii) (s t : string) :
  free_of c t = true -> Py.rfind c (s +:+ t) = Py.rfind c s.
Proof. intros H. unfold Py.rfind. rewrite rfind_from_app. now apply rfind_from_free. Qed.

Lemma rfind_bound (c : ascii) (s : string) : Py.rfind c s < Z.of_nat (String.length s).
Proof. unfold Py.rfind. pose proof (rfind_from_bound c s 0 (-1)). lia. Qed.

(** In a path that ends in a name without a dot, no dot comes after the
    last separator. *)
Lemma no_dot_after_separator (pre name : string) :
  pre = "" \/ (exists dir, pre = dir +:+ "/") ->
  free_of "." name = true ->
  free_of "/" name = true ->
  Py.rfind "." (pre +:+ name) <= Py.rfind "/" (pre +:+ name).
Proof.
  intros Hpre Hdot Hsep.
  pose proof (rfind_sep pre name Hpre Hsep) as Hs.
  rewrite (rfind_app_free "." pre name Hdot).
  destruct Hpre as [->|[dir ->]].
  - cbn [String.length] in Hs. unfold Py.rfind at 1. cbn [Py.rfind_from]. lia.
  - rewrite string_length_app in Hs. cbn [String.length] in Hs.
    rewrite (rfind_app_free "." dir "/" eq_refl).
    pose proof (rfind_bound "." dir). lia.
Qed.

Lemma double_suffix_dot (p suffix last : string) :
  free_of "/" suffix = true -> free_of "/" last = true -> free_of "." last = true ->
  Py.endswith p (suffix +:+ String "." last) = true ->
  Py.rfind "/" p < Py.rfind "." p.
Proof.
  intros H1 H2 H3 [q ->]%endswith_inv.
  rewrite (rfind_app_free "/" q); [|now rewrite free_of_app, H1; cbn [free_of]; rewrite H2].
  rewrite <- app_assoc_str. unfold Py.rfind at 2.
  rewrite rfind_from_last by exact H3.
  pose proof (rfind_bound "/" q). rewrite string_length_app. lia.
Qed.

(** X2. A file whose name has no dot has the empty tag, which no dispatcher
    resolves: the window answers [Unsupported file type: ] and the batch
    fails the task, whatever the file is. *)
Theorem file_without_suffix_is_unsupported (pre name : string) :
  pre = "" \/ (exists dir, pre = dir +:+ "/") ->
  free_of "." name = true ->
  free_of "/" name = true ->
  get_file_type (pre +:+ name) = ""
  /\ interactive_dispatch (pre +:+ name) = None
  /\ batch_dispatch (pre +:+ name) = None.
Proof.
  intros Hpre Hdot Hsep.
  pose proof (no_dot_after_separator pre name Hpre Hdot Hsep) as Hle.
  assert (Htag : get_file_type (pre +:+ name) = "").
  { unfold get_file_type.
    destruct (Py.endswith (pre +:+ name) ".tar.gz") eqn:E1.
    { apply (double_suffix_dot _ ".tar" "gz") in E1; [lia|reflexivity..]. }
    destruct (Py.endswith (pre +:+ name) ".tar.xz") eqn:E2.
    { apply (double_suffix_dot _ ".tar" "xz") in E2; [lia|reflexivity..]. }
    unfold Py.splitext.
    destruct (Z.ltb_spec (Py.rfind "/" (pre +:+ name)) (Py.rfind "." (pre +:+ name)));
      [lia|reflexivity]. }
  split; [exact Htag|].
  unfold interactive_dispatch, batch_dispatch. rewrite Htag. split; reflexivity.
Qed.

Lemma file_without_suffix_is_unsupported_witness :
  get_file_type "/opt/v1.2/installer" = "".
Proof.
  exact (proj1 (file_without_suffix_is_unsupported "/opt/v1.2/" "installer"
                  (or_intror (ex_intro _ "/opt/v1.2" eq_refl)) eq_refl eq_refl)).
Defined.

Lemma replace_unreplace (a b : ascii) (s t : string) :
  Py.replace a b s = t -> s ∈ unreplace a b t.
Proof.
  revert t. induction s as [|c s IH]; intros t H.
  - subst t. cbn. apply list_elem_of_singleton. reflexivity.
  - cbn [Py.replace] in H. subst t. cbn [unreplace].
    destruct (Ascii.eqb_spec c a) as [->|Hca].
    + rewrite Ascii.eqb_refl. apply elem_of_app. left.
      apply list_elem_of_fmap. exists s. split; [reflexivity|]. now apply IH.
    + destruct (Ascii.eqb_spec c b) as [->|Hcb].
      * apply elem_of_app. right.
        apply list_elem_of_fmap. exists s. split; [reflexivity|]. now apply IH.
      * destruct (Ascii.eqb_spec c a) as [|_]; [contradiction|].
        apply list_elem_of_fmap. exists s. split; [reflexivity|]. now apply IH.
Qed.

Lemma getattr_install_accepts (ext : string) :
  (exists f, getattr_install ext = Some f)
  <-> ext ∈ supported_types ++ ["tar_gz"; "tar_xz"; "tar"; "executable"].
Proof.
  split.
  - intros [f H]. unfold getattr_install in H.
    destruct (List.find _ install_methods) as [m|] eqn:F; [|discriminate].
    apply List.find_some in F as [Hin Heq]. apply String.eqb_eq in Heq.
    assert (Hs : exists s, fst m = "install_" +:+ s
                          /\ s ∈ ["deb"; "appimage"; "tar_gz"; "tar_xz"; "tgz"; "tar"; "snap";
                                  "flatpak"; "run"; "bin"; "executable"]).
    { unfold install_methods in Hin. cbn [In] in Hin.
      repeat (destruct Hin as [<-|Hin];
              [eexists; split; [reflexivity|]; rewrite !elem_of_cons; auto 15|]).
      contradiction. }
    destruct Hs as [s [Hm Hs]]. rewrite Hm in Heq.
    assert (Hr : Py.replace "." "_" ext = s).
    { cbn in Heq. now injection Heq. }
    apply replace_unreplace in Hr.
    repeat (apply elem_of_cons in Hs as [->|Hs];
            [vm_compute in Hr; unfold supported_types; cbn [app];
             repeat (apply elem_of_cons in Hr as [->|Hr]; [rewrite !elem_of_cons; auto 20|]);
             now apply elem_of_nil in Hr|]).
    now apply elem_of_nil in Hs.
  - unfold supported_types. cbn [app]. intros H.
    repeat (apply elem_of_cons in H as [->|H]; [eexists; reflexivity|]).
    now apply elem_of_nil in H.
Qed.

(** X3. The dispatcher of the batch resolves a procedure for exactly
    thirteen tags: the nine of the list that the window tests, on which the
    two dispatchers agree, and [tar_gz], [tar_xz], [tar] and [executable]. *)
Theorem batch_dispatch_accepted_tags (path : string) :
  ((exists f, batch_dispatch path = Some f)
   <-> get_file_type path ∈ supported_types ++ ["tar_gz"; "tar_xz"; "tar"; "executable"])
  /\ ((exists f, interactive_dispatch path = Some f)
      <-> get_file_type path ∈ supported_types)
  /\ ((exists f, interactive_dispatch path = Some f) ->
      batch_dispatch path = interactive_dispatch path).
Proof.
  split; [apply getattr_install_accepts|]. split.
  - unfold interactive_dispatch. case_bool_decide as H; split.
    + intros _. exact H.
    + intros _. apply getattr_install_accepts. apply elem_of_app. now left.
    + intros [f Hf]. discriminate.
    + intros H'. contradiction.
  - unfold interactive_dispatch, batch_dispatch. case_bool_decide; [reflexivity|].
    intros [f Hf]. discriminate.
Qed.

(** X4. A task of the batch whose tag resolves to no method is closed as
    failed with the message [Unsupported file type: <tag>]: the round makes
    no call on the host, logs the failure once and emits the first progress
    signal, the last one and [task_completed], without the one at 50. *)
Theorem batch_rejects_unknown_tag (env : Env) (r : nat) (w : World) :
  let t := heap w r in
  let tag := get_file_type (file_path t) in
  let reason := "Unsupported file type: " +:+ tag in
  getattr_install tag = None ->
  exists w',
    BatchInstaller.run_task env r w = (Ok tt, w')
    /\ status (heap w' r) = "failed"
    /\ message (heap w' r) = reason
    /\ signals w' = signals w ++ [starting t;
                                   progress_updated (task_id t) 100 ("Failed: " +:+ reason);
                                   task_completed (task_id t) false reason]
    /\ log w' = log w ++ [(ERROR, "Installation failed for " +:+ file_path t +:+ ": " +:+ reason)]
    /\ calls w' = calls w
    /\ files w' = files w.
Proof.
  intros t tag reason H.
  unfold BatchInstaller.run_task, BatchInstaller.attempt, BatchInstaller.failed,
    try_except, bind, modify_world, datetime_now, BatchInstaller.attr, emit, logging,
    modify_world, raise.
  task_simpl. fold t. fold tag. rewrite H. task_simpl.
  eexists. split; [reflexivity|]. task_simpl.
  unfold starting. rewrite <- !app_assoc. now repeat split.
Qed.

Lemma batch_rejects_unknown_tag_witness :
  exists w',
    BatchInstaller.run_task quiet_host 0 (world_of {["/d/notes.txt"]} [fresh_task "/d/notes.txt"])
    = (Ok tt, w')
    /\ message (heap w' 0%nat) = "Unsupported file type: txt".
Proof.
  destruct (batch_rejects_unknown_tag quiet_host 0
              (world_of {["/d/notes.txt"]} [fresh_task "/d/notes.txt"]))
    as [w' [H [_ [Hm _]]]].
  - reflexivity.
  - exists w'. split; [exact H|exact Hm].
Defined.

(** ** The outcome of the install procedures *)

Lemma run_command_cases (env : Env) (cmd : list string) (w : World) :
  if child_ok env cmd w then
    BatchInstaller.run_command env cmd w = (Ok tt, after_command env cmd w)
    /\ LinuxAppInstaller.run_command env cmd w = (Ok tt, after_command env cmd w)
  else
    (exists e w', BatchInstaller.run_command env cmd w = (Raise e, w')
                  /\ calls w' = calls w ++ [Spawn cmd 300])
    /\ (exists e w', LinuxAppInstaller.run_command env cmd w = (Raise e, w')
                     /\ calls w' = calls w ++ [Spawn cmd 300]).
Proof.
  unfold child_ok, BatchInstaller.run_command, LinuxAppInstaller.run_command,
    try_except_only, bind, subprocess_run, after_command.
  destruct (child env cmd w) as [err|seconds rc out err|seconds reason|]; cbn [andb].
  - split; eexists _, _; (split; [reflexivity|reflexivity]).
  - destruct (seconds <=? 300); cbn [andb].
    + cbn [returncode]. destruct (Z.eqb_spec rc 0) as [->|Hrc].
      * rewrite bool_decide_eq_false_2 by tauto. split; reflexivity.
      * rewrite bool_decide_eq_true_2 by exact Hrc.
        split; eexists _, _; (split; [reflexivity|reflexivity]).
    + split; eexists _, _; (split; [reflexivity|reflexivity]).
  - destruct (seconds <=? 300); split; eexists _, _; (split; [reflexivity|reflexivity]).
  - split; eexists _, _; (split; [reflexivity|reflexivity]).
Qed.

Lemma run_command_inv_Ok (env : Env) (cmd : list string) (w w' : World) (u : unit) :
  LinuxAppInstaller.run_command env cmd w = (Ok u, w') ->
  child_ok env cmd w = true /\ w' = after_command env cmd w.
Proof.
  intros H. pose proof (run_command_cases env cmd w) as Hc.
  destruct (child_ok env cmd w).
  - destruct Hc as [_ Hl]. rewrite Hl in H. now injection H as <-.
  - destruct Hc as [_ [e [w1 [Hl _]]]]. now rewrite Hl in H.
Qed.

(** X5. [install_deb], in the batch and in the window: without [dpkg]
    nothing is started; [apt-get install -f] is started only after [dpkg -i]
    has exited with status 0 in time and with output that is text; and the
    procedure returns, with its one message, exactly when both commands
    have. *)
Theorem install_deb_outcome (env : Env) (path : string) (w : World) :
  let dpkg := ["pkexec"; "dpkg"; "-i"; path] in
  let fix_deps := ["pkexec"; "apt-get"; "install"; "-f"] in
  let both := which env "dpkg" w && child_ok env dpkg w
              && child_ok env fix_deps (after_command env dpkg w) in
  let outcome := fun (r : res string * World) =>
    ((exists msg, fst r = Ok msg) <-> both = true)
    /\ (both = true -> fst r = Ok ("Successfully installed " +:+ Py.basename path))
    /\ (which env "dpkg" w = false ->
        r = (Raise (Exception "dpkg not found. Please install dpkg."), w))
    /\ calls (snd r)
       = calls w ++ (if which env "dpkg" w
                     then Spawn dpkg 300
                          :: (if child_ok env dpkg w then [Spawn fix_deps 300] else [])
                     else []) in
  outcome (BatchInstaller.install_deb env path w)
  /\ outcome (LinuxAppInstaller.install_deb env path w).
Proof.
  intros dpkg fix_deps both outcome. subst outcome both. cbv beta.
  pose proof (run_command_cases env dpkg w) as H1.
  pose proof (run_command_cases env fix_deps (after_command env dpkg w)) as H2.
  split.
  all: unfold BatchInstaller.install_deb, LinuxAppInstaller.install_deb, bind, get_world,
         raise, ret; cbn [fst snd]; fold dpkg fix_deps.
  all: destruct (which env "dpkg" w); cbn [negb andb];
         [|rewrite app_nil_r; split; [split; [intros [? [=]]|discriminate]|];
           (split; [discriminate|]); split; reflexivity].
  all: destruct (child_ok env dpkg w); cbn [andb].
  all: try (destruct H1 as [[e1 [w1 [E1 Hc1]]] [e2 [w2 [E2 Hc2]]]];
            rewrite ?E1, ?E2; cbn [fst snd]; rewrite ?Hc1, ?Hc2;
            split; [split; [intros [? [=]]|discriminate]|];
            (split; [discriminate|]); (split; [discriminate|]); reflexivity).
  all: destruct H1 as [E1 E2]; rewrite ?E1, ?E2.
  all: destruct (child_ok env fix_deps (after_command env dpkg w)).
  all: try (destruct H2 as [[e1 [w1 [E3 Hc1]]] [e2 [w2 [E4 Hc2]]]];
            rewrite ?E3, ?E4; cbn [fst snd]; rewrite ?Hc1, ?Hc2;
            cbn [after_command calls set_files record_call]; rewrite <- !app_assoc;
            split; [split; [intros [? [=]]|discriminate]|];
            (split; [discriminate|]); (split; [discriminate|]); reflexivity).
  all: destruct H2 as [E3 E4]; rewrite ?E3, ?E4; cbn [fst snd];
         cbn [after_command calls set_files record_call]; rewrite <- !app_assoc;
         (split; [split; [reflexivity|intros _; eexists; reflexivity]|]);
         (split; [reflexivity|]); (split; [discriminate|]); reflexivity.
Qed.

(** X6. [install_snap] and [install_flatpak], in the batch and in the
    window: when the tool is not found the procedure raises before anything
    is started; else it starts one command ([snap install] through [pkexec]
    and with [--dangerous], [flatpak install --user] without [pkexec]) and
    returns exactly when that command has exited with status 0 in time and
    with output that is text. *)
Theorem store_package_outcome (env : Env) (path : string) (w : World) :
  let snap := ["pkexec"; "snap"; "install"; path; "--dangerous"] in
  let flatpak := ["flatpak"; "install"; "--user"; path] in
  let outcome := fun (tool : string) (cmd : list string) (missing : string)
                     (r : res string * World) =>
    ((exists msg, fst r = Ok msg) <-> which env tool w && child_ok env cmd w = true)
    /\ (which env tool w && child_ok env cmd w = true ->
        r = (Ok ("Successfully installed " +:+ Py.basename path), after_command env cmd w))
    /\ (which env tool w = false -> r = (Raise (Exception missing), w))
    /\ calls (snd r) = calls w ++ (if which env tool w then [Spawn cmd 300] else []) in
  outcome "snap" snap "snap not found. Please install snapd."
          (BatchInstaller.install_snap env path w)
  /\ outcome "snap" snap "snap not found. Please install snapd."
             (LinuxAppInstaller.install_snap env path w)
  /\ outcome "flatpak" flatpak "flatpak not found. Please install flatpak."
             (BatchInstaller.install_flatpak env path w)
  /\ outcome "flatpak" flatpak "flatpak not found. Please install flatpak."
             (LinuxAppInstaller.install_flatpak env path w).
Proof.
  intros snap flatpak outcome. subst outcome. cbv beta.
  pose proof (run_command_cases env snap w) as H1.
  pose proof (run_command_cases env flatpak w) as H2.
  split; [|split; [|split]].
  all: unfold BatchInstaller.install_snap, LinuxAppInstaller.install_snap,
         BatchInstaller.install_flatpak, LinuxAppInstaller.install_flatpak,
         bind, get_world, raise, ret; cbn [fst snd]; fold snap flatpak.
  1,2: destruct (which env "snap" w); cbn [negb andb];
         [|rewrite app_nil_r; split; [split; [intros [? [=]]|discriminate]|];
           (split; [discriminate|]); split; reflexivity];
       destruct (child_ok env snap w);
         [destruct H1 as [E1 E2]; rewrite ?E1, ?E2; cbn [fst snd];
          (split; [split; [reflexivity|intros _; eexists; reflexivity]|]);
          (split; [reflexivity|]); (split; [discriminate|]); reflexivity
         |destruct H1 as [[e1 [w1 [E1 Hc1]]] [e2 [w2 [E2 Hc2]]]];
          rewrite ?E1, ?E2; cbn [fst snd]; rewrite ?Hc1, ?Hc2;
          split; [split; [intros [? [=]]|discriminate]|];
          (split; [discriminate|]); (split; [discriminate|]); reflexivity].
  all: destruct (which env "flatpak" w); cbn [negb andb];
         [|rewrite app_nil_r; split; [split; [intros [? [=]]|discriminate]|];
           (split; [discriminate|]); split; reflexivity];
       destruct (child_ok env flatpak w);
         [destruct H2 as [E1 E2]; rewrite ?E1, ?E2; cbn [fst snd];
          (split; [split; [reflexivity|intros _; eexists; reflexivity]|]);
          (split; [reflexivity|]); (split; [discriminate|]); reflexivity
         |destruct H2 as [[e1 [w1 [E1 Hc1]]] [e2 [w2 [E2 Hc2]]]];
          rewrite ?E1, ?E2; cbn [fst snd]; rewrite ?Hc1, ?Hc2;
          split; [split; [intros [? [=]]|discriminate]|];
          (split; [discriminate|]); (split; [discriminate|]); reflexivity].
Qed.

Lemma bind_Ok {S A B} (m : M S A) (k : A -> M S B) (s s1 : S) (a : A) :
  m s = (Ok a, s1) -> bind m k s = k a s1.
Proof. unfold bind. now intros ->. Qed.

Lemma bind_Raise {S A B} (m : M S A) (k : A -> M S B) (s s1 : S) (e : exn) :
  m s = (Raise e, s1) -> bind m k s = (Raise e, s1).
Proof. unfold bind. now intros ->. Qed.

Lemma try_except_Ok {S A} (body : M S A) (handler : exn -> M S A) (s s1 : S) (a : A) :
  body s = (Ok a, s1) -> try_except body handler s = (Ok a, s1).
Proof. unfold try_except. now intros ->. Qed.

Lemma try_except_Raise {S A} (body : M S A) (handler : exn -> M S A) (s s1 : S) (e : exn) :
  body s = (Raise e, s1) -> try_except body handler s = handler e s1.
Proof. unfold try_except. now intros ->. Qed.

Lemma chmod_cases (env : Env) (path : string) (w : World) :
  if chmod_ok env path w then chmod env path w = (Ok tt, record_call (Chmod path) w)
  else exists e, chmod env path w = (Raise e, record_call (Chmod path) w).
Proof.
  unfold chmod_ok, chmod, fs_call.
  destruct (path_exists path w); cbn [andb]; [|eexists; reflexivity].
  destruct (fault env (Chmod path) w); [eexists; reflexivity|reflexivity].
Qed.

Lemma runs_Ok {A} (marks : list syscall) (m : M World A) (w : World) :
  runs marks m -> exists a w', m w = (Ok a, w').
Proof.
  intros H. destruct (H w) as [[a Ha] _].
  exists a, (snd (m w)). destruct (m w) as [r w']. cbn in Ha. now subst r.
Qed.

(** X7. [install_run], [install_bin] and [install_executable]: the file is
    started, with [pkexec bash], only once its mode is set, and the
    procedure returns exactly when the mode could be set and the child has
    exited with status 0 in time and with output that is text, in the batch
    and in the window alike: the
    desktop integration that the window adds does not change whether the
    procedure succeeds. A failure leaves the window's procedure as an
    [Exception] whose message begins with [Failed to execute installer: ]. *)
Theorem install_executable_outcome (env : Env) (path : string) (w : World) :
  let cmd := ["pkexec"; "bash"; path] in
  let ok := chmod_ok env path w && child_ok env cmd (record_call (Chmod path) w) in
  ((exists msg w', BatchInstaller.install_executable env path w = (Ok msg, w')) <-> ok = true)
  /\ ((exists msg w', LinuxAppInstaller.install_executable env path w = (Ok msg, w'))
      <-> ok = true)
  /\ (ok = true ->
      BatchInstaller.install_executable env path w
      = (Ok ("Executed " +:+ Py.basename path),
         after_command env cmd (record_call (Chmod path) w))
      /\ fst (LinuxAppInstaller.install_executable env path w)
         = Ok ("Executed " +:+ Py.basename path +:+ " with desktop integration"))
  /\ (chmod_ok env path w = false ->
      calls (snd (BatchInstaller.install_executable env path w)) = calls w ++ [Chmod path]
      /\ calls (snd (LinuxAppInstaller.install_executable env path w))
         = calls w ++ [Chmod path])
  /\ (forall e, fst (LinuxAppInstaller.install_executable env path w) = Raise e ->
      exists reason, e = Exception ("Failed to execute installer: " +:+ reason)).
Proof.
  intros cmd ok. subst ok.
  pose proof (chmod_cases env path w) as Hc.
  pose proof (run_command_cases env cmd (record_call (Chmod path) w)) as Hr.
  unfold BatchInstaller.install_executable, LinuxAppInstaller.install_executable.
  fold cmd.
  destruct (chmod_ok env path w); cbn [andb].
  - rewrite (bind_Ok _ _ _ _ _ Hc).
    destruct (child_ok env cmd (record_call (Chmod path) w)).
    + destruct Hr as [Hb Hl].
      rewrite (bind_Ok _ _ _ _ _ Hb). unfold ret at 1.
      set (body := (chmod env path ;; _)).
      assert (Hbody : exists w', body w = (Ok tt, w')).
      { unfold body. rewrite (bind_Ok _ _ _ _ _ Hc), (bind_Ok _ _ _ _ _ Hl).
        set (w2 := after_command env cmd (record_call (Chmod path) w)).
        assert (H1 : exists w3,
                  (if negb (Py.startswith (Py.lower (Py.basename path)) "install"
                            || Py.startswith (Py.lower (Py.basename path)) "setup"
                            || Py.startswith (Py.lower (Py.basename path)) "configure")
                   then LinuxAppInstaller.create_executable_desktop_entry env path
                   else ret tt) w2 = (Ok tt, w3)).
        { destruct (negb _).
          - destruct (runs_Ok _ _ w2 (runs_create_executable_desktop_entry env path))
              as [[] [w3 H3]]. now exists w3.
          - now exists w2. }
        destruct H1 as [w3 H3]. rewrite (bind_Ok _ _ _ _ _ H3).
        destruct (runs_Ok _ _ w3 (runs_post_install_setup env
                    (fst (Py.splitext (Py.basename path))) path "executable"))
          as [m [w4 H4]].
        rewrite (bind_Ok _ _ _ _ _ H4). now exists w4. }
      destruct Hbody as [w' Hbody].
      rewrite (bind_Ok _ _ _ _ _ (try_except_Ok _ _ _ _ _ Hbody)). unfold ret.
      split; [split; [reflexivity|intros _; eexists _, _; reflexivity]|].
      split; [split; [reflexivity|intros _; eexists _, _; reflexivity]|].
      split; [intros _; split; reflexivity|].
      split; [discriminate|]. intros e [=].
    + destruct Hr as [[e1 [w1 [Hb Hc1]]] [e2 [w2 [Hl Hc2]]]].
      rewrite (bind_Raise _ _ _ _ _ Hb).
      set (body := (chmod env path ;; _)).
      assert (Hbody : body w = (Raise e2, w2)).
      { unfold body. now rewrite (bind_Ok _ _ _ _ _ Hc), (bind_Raise _ _ _ _ _ Hl). }
      rewrite (bind_Raise _ _ _ _ (Exception ("Failed to execute installer: " +:+ exn_str env e2))
                 (try_except_Raise _ _ _ _ _ Hbody)).
      split; [split; [intros [? [? [=]]]|discriminate]|].
      split; [split; [intros [? [? [=]]]|discriminate]|].
      split; [discriminate|]. split; [discriminate|].
      intros e [= <-]. eexists; reflexivity.
  - destruct Hc as [e Hc].
    rewrite (bind_Raise _ _ _ _ _ Hc).
    set (body := (chmod env path ;; _)).
    assert (Hbody : body w = (Raise e, record_call (Chmod path) w)).
    { unfold body. now rewrite (bind_Raise _ _ _ _ _ Hc). }
    rewrite (bind_Raise _ _ _ _ (Exception ("Failed to execute installer: " +:+ exn_str env e))
               (try_except_Raise _ _ _ _ _ Hbody)).
    split; [split; [intros [? [? [=]]]|discriminate]|].
    split; [split; [intros [? [? [=]]]|discriminate]|].
    split; [discriminate|]. split; [intros _; split; reflexivity|].
    intros e' [= <-]. eexists; reflexivity.
Qed.

Lemma bind_inv_Ok {S A B} (m : M S A) (k : A -> M S B) (s s' : S) (b : B) :
  bind m k s = (Ok b, s') -> exists a s1, m s = (Ok a, s1) /\ k a s1 = (Ok b, s').
Proof.
  unfold bind. destruct (m s) as [[a| |] s1]; [|discriminate|discriminate].
  intros H. now exists a, s1.
Qed.

Lemma fs_call_inv_Ok (env : Env) (c : syscall) (effect : gset string -> gset string)
    (w w' : World) (u : unit) :
  fs_call env c effect w = (Ok u, w') ->
  w' = set_files (effect (files w)) (record_call c w).
Proof. unfold fs_call. destruct (fault env c w); [discriminate|]. now intros [= _ <-]. Qed.

Lemma batch_run_command_inv_Ok (env : Env) (cmd : list string) (w w' : World) (u : unit) :
  BatchInstaller.run_command env cmd w = (Ok u, w') ->
  child_ok env cmd w = true /\ w' = after_command env cmd w.
Proof.
  intros H. pose proof (run_command_cases env cmd w) as Hc.
  destruct (child_ok env cmd w).
  - destruct Hc as [Hb _]. rewrite Hb in H. now injection H as <-.
  - destruct Hc as [[e [w1 [Hb _]]] _]. now rewrite Hb in H.
Qed.

Lemma chmod_inv_Ok (env : Env) (path : string) (w w' : World) (u : unit) :
  chmod env path w = (Ok u, w') -> w' = record_call (Chmod path) w.
Proof.
  intros H. pose proof (chmod_cases env path w) as Hc.
  destruct (chmod_ok env path w).
  - rewrite Hc in H. now injection H as <-.
  - destruct Hc as [e Hc]. now rewrite Hc in H.
Qed.

(** X8. When [BatchInstaller.install_tar] returns, it has made the directory
    [~/Applications], the directory named after the archive without its last
    suffix, and one run of [tar -xf]; the script [install.sh] is run, with
    [pkexec bash] and after its mode is set, exactly when the extraction has
    left one in that directory; nothing else is called. *)
Theorem batch_install_tar_steps (env : Env) (path : string) (w : World) (msg : string)
    (w' : World) :
  BatchInstaller.install_tar env path w = (Ok msg, w') ->
  let app_dir := expanduser env "~/Applications" in
  let extract_dir := Py.path_join app_dir (fst (Py.splitext (Py.basename path))) in
  let script := Py.path_join extract_dir "install.sh" in
  let extract := ["tar"; "-xf"; path; "-C"; extract_dir] in
  msg = "Extracted to " +:+ extract_dir
  /\ exists extracted,
       calls extracted = calls w ++ [MakeDirs app_dir; MakeDirs extract_dir; Spawn extract 300]
       /\ child_ok env extract
            (snd (makedirs env extract_dir (snd (makedirs env app_dir w)))) = true
       /\ files extracted
          = aftermath env extract (snd (makedirs env extract_dir (snd (makedirs env app_dir w))))
       /\ calls w'
          = calls extracted
            ++ (if path_exists script extracted
                then [Chmod script; Spawn ["pkexec"; "bash"; script] 300]
                else []).
Proof.
  intros H app_dir extract_dir script extract.
  unfold BatchInstaller.install_tar in H. fold app_dir extract_dir script extract in H.
  apply bind_inv_Ok in H as [[] [w1 [H1 H]]].
  apply bind_inv_Ok in H as [[] [w2 [H2 H]]].
  apply bind_inv_Ok in H as [[] [w3 [H3 H]]].
  apply bind_inv_Ok in H as [w3' [w3'' [Hg H]]].
  unfold get_world in Hg. injection Hg as <- <-.
  apply bind_inv_Ok in H as [[] [w4 [H4 H]]].
  unfold ret in H. injection H as <- <-.
  pose proof (fs_call_inv_Ok _ _ _ _ _ _ H1) as E1.
  pose proof (fs_call_inv_Ok _ _ _ _ _ _ H2) as E2.
  apply batch_run_command_inv_Ok in H3 as [Hok E3].
  unfold makedirs in *. rewrite H1. cbn [snd]. rewrite H2. cbn [snd].
  split; [reflexivity|]. exists w3.
  split.
  { rewrite E3, E2, E1. cbn [after_command calls set_files record_call].
    now rewrite <- !app_assoc. }
  split; [exact Hok|]. split; [now rewrite E3|].
  destruct (path_exists script w3).
  - apply bind_inv_Ok in H4 as [[] [w5 [H5 H6]]].
    apply chmod_inv_Ok in H5. apply batch_run_command_inv_Ok in H6 as [_ E6].
    rewrite E6, H5. cbn [after_command calls set_files record_call].
    now rewrite <- !app_assoc.
  - unfold ret in H4. injection H4 as <-. now rewrite app_nil_r.
Qed.

Lemma batch_install_tar_steps_witness :
  "Extracted to /home/user/Applications/app.tar"
  = "Extracted to " +:+ Py.path_join (expanduser quiet_host "~/Applications")
                          (fst (Py.splitext (Py.basename "/d/app.tar.gz"))).
Proof.
  pose (w := world_of {["/d/app.tar.gz"]} []).
  exact (proj1 (batch_install_tar_steps quiet_host "/d/app.tar.gz" w
                  "Extracted to /home/user/Applications/app.tar"
                  (snd (BatchInstaller.install_tar quiet_host "/d/app.tar.gz" w))
                  eq_refl)).
Defined.

Lemma try_except_inv_Ok {S A} (body : M S A) (handler : exn -> M S A) (s s' : S) (a : A) :
  try_except body handler s = (Ok a, s') ->
  body s = (Ok a, s')
  \/ exists e s1, body s = (Raise e, s1) /\ handler e s1 = (Ok a, s').
Proof.
  unfold try_except. destruct (body s) as [[a0|e|] s1]; intros H.
  - now left.
  - right. now exists e, s1.
  - discriminate.
Qed.

Lemma basename_app (pre rest : string) :
  pre = "" \/ (exists dir, pre = dir +:+ "/") ->
  free_of "/" rest = true ->
  Py.basename (pre +:+ rest) = rest.
Proof.
  intros Hpre Hrest. unfold Py.basename.
  rewrite (rfind_sep pre rest Hpre Hrest), Nat2Z.id. apply drop_app_length.
Qed.

Lemma splitext_name (c : ascii) (stem ext : string) :
  Ascii.eqb c "." = false ->
  free_of "/" (String c stem) = true ->
  free_of "/" ext = true ->
  free_of "." ext = true ->
  Py.splitext (String c stem +:+ String "." ext) = (String c stem, String "." ext).
Proof.
  intros Hc Hs He Hd.
  apply (splitext_last_suffix "" c stem ext); auto.
Qed.

(** The messages with which the two [install_tar] return name the
    directory made from the name of the archive without its last suffix. *)
Lemma install_tar_message (env : Env) (path : string) (w : World) (msg : string)
    (w' : World) :
  let extract_dir := Py.path_join (expanduser env "~/Applications")
                       (fst (Py.splitext (Py.basename path))) in
  (BatchInstaller.install_tar env path w = (Ok msg, w') ->
   msg = "Extracted to " +:+ extract_dir)
  /\ (LinuxAppInstaller.install_tar env path w = (Ok msg, w') ->
      msg = "Extracted to " +:+ extract_dir +:+ " with desktop integration").
Proof.
  intros extract_dir. split; intros H.
  - unfold BatchInstaller.install_tar in H. fold extract_dir in H.
    repeat (apply bind_inv_Ok in H as [? [? [_ H]]]).
    unfold ret in H. now injection H as <-.
  - unfold LinuxAppInstaller.install_tar in H. fold extract_dir in H.
    apply bind_inv_Ok in H as [d [w1 [Hb H]]].
    unfold ret in H. injection H as <- <-.
    apply try_except_inv_Ok in Hb as [Hb|[e [s1 [_ Hh]]]]; [|discriminate].
    repeat (apply bind_inv_Ok in Hb as [? [? [_ Hb]]]).
    unfold ret in Hb. now injection Hb as <-.
Qed.

(** The two [install_tar] that return have begun with the directory
    [~/Applications], the directory made from the name of the archive, and
    the run of [tar] into that directory. *)
Lemma install_tar_first_calls (env : Env) (path : string) (w : World) (msg : string)
    (w' : World) :
  let app_dir := expanduser env "~/Applications" in
  let extract_dir := Py.path_join app_dir (fst (Py.splitext (Py.basename path))) in
  let begun := [MakeDirs app_dir; MakeDirs extract_dir;
                Spawn ["tar"; "-xf"; path; "-C"; extract_dir] 300] in
  (BatchInstaller.install_tar env path w = (Ok msg, w') ->
   exists l, calls w' = calls w ++ begun ++ l)
  /\ (LinuxAppInstaller.install_tar env path w = (Ok msg, w') ->
      exists l, calls w' = calls w ++ begun ++ l).
Proof.
  intros app_dir extract_dir begun.
  assert (Hgrow : forall (m : M World string) w3 r,
            host_only m -> m w3 = (r, w') ->
            calls w3 = calls w ++ begun -> exists l, calls w' = calls w ++ begun ++ l).
  { intros m w3 r Hm E Hc. destruct (Hm w3) as [_ F]. rewrite E in F. cbn [snd] in F.
    destruct (frame_calls _ _ F) as [l Hl]. exists l. now rewrite Hl, Hc, <- app_assoc. }
  split; intros H.
  - unfold BatchInstaller.install_tar in H. fold app_dir extract_dir in H.
    apply bind_inv_Ok in H as [[] [w1 [H1 H]]].
    apply bind_inv_Ok in H as [[] [w2 [H2 H]]].
    apply bind_inv_Ok in H as [[] [w3 [H3 H]]].
    apply fs_call_inv_Ok in H1. apply fs_call_inv_Ok in H2.
    apply batch_run_command_inv_Ok in H3 as [_ H3].
    eapply (Hgrow _ w3); [|exact H|].
    + host_auto.
    + rewrite H3, H2, H1. cbn [after_command calls set_files record_call].
      now rewrite <- !app_assoc.
  - unfold LinuxAppInstaller.install_tar in H. fold app_dir extract_dir in H.
    apply bind_inv_Ok in H as [d [w1 [Hb H]]].
    unfold ret in H. injection H as _ <-.
    apply try_except_inv_Ok in Hb as [Hb|[e [s1 [_ Hh]]]]; [|discriminate].
    apply bind_inv_Ok in Hb as [[] [w2 [H1 Hb]]].
    apply bind_inv_Ok in Hb as [[] [w3 [H2 Hb]]].
    apply bind_inv_Ok in Hb as [[] [w4 [H3 Hb]]].
    apply fs_call_inv_Ok in H1. apply fs_call_inv_Ok in H2.
    apply run_command_inv_Ok in H3 as [_ H3].
    eapply (Hgrow _ w4); [|exact Hb|].
    + host_auto.
    + rewrite H3, H2, H1. cbn [after_command calls set_files record_call].
      now rewrite <- !app_assoc.
Qed.

(** X9. An archive [name.tar.gz] or [name.tar.xz] is extracted into the
    directory [~/Applications/name.tar], which keeps the [.tar] of the name:
    only the last suffix is taken off. An archive [name.tgz] is extracted
    into [~/Applications/name]. In the batch and in the window alike, this
    is the directory that is made, the directory that [tar -C] is given,
    and the directory that the message names. *)
Theorem archive_directory_keeps_tar (pre : string) (c : ascii) (stem : string) :
  pre = "" \/ (exists dir, pre = dir +:+ "/") ->
  Ascii.eqb c "." = false ->
  free_of "/" (String c stem) = true ->
  let name := String c stem in
  let app_dir := fun env => expanduser env "~/Applications" in
  let extracted_into := fun env (path dir : string) (w w' : World) =>
    exists l, calls w' = calls w ++ [MakeDirs (app_dir env); MakeDirs dir;
                                     Spawn ["tar"; "-xf"; path; "-C"; dir] 300] ++ l in
  (forall env w msg w' suffix,
     suffix = ".tar.gz" \/ suffix = ".tar.xz" ->
     let path := pre +:+ name +:+ suffix in
     let dir := Py.path_join (app_dir env) (name +:+ ".tar") in
     (BatchInstaller.install_tar env path w = (Ok msg, w') ->
      msg = "Extracted to " +:+ dir /\ extracted_into env path dir w w')
     /\ (LinuxAppInstaller.install_tar env path w = (Ok msg, w') ->
         msg = "Extracted to " +:+ dir +:+ " with desktop integration"
         /\ extracted_into env path dir w w'))
  /\ (forall env w msg w',
        let path := pre +:+ name +:+ ".tgz" in
        let dir := Py.path_join (app_dir env) name in
        (BatchInstaller.install_tar env path w = (Ok msg, w') ->
         msg = "Extracted to " +:+ dir /\ extracted_into env path dir w w')
        /\ (LinuxAppInstaller.install_tar env path w = (Ok msg, w') ->
            msg = "Extracted to " +:+ dir +:+ " with desktop integration"
            /\ extracted_into env path dir w w')).
Proof.
  intros Hpre Hc Hname name app_dir extracted_into. subst app_dir extracted_into. cbv beta.
  assert (Hsplit : forall mid ext,
            free_of "/" mid = true -> free_of "/" ext = true -> free_of "." ext = true ->
            fst (Py.splitext (Py.basename (pre +:+ name +:+ mid +:+ String "." ext)))
            = name +:+ mid).
  { intros mid ext Hmid Hext Hdot. subst name.
    rewrite basename_app; [|exact Hpre|].
    2:{ rewrite !free_of_app, Hname, Hmid. cbn [free_of andb]. now rewrite Hext. }
    rewrite <- app_assoc_str, app_cons.
    rewrite splitext_name; auto.
    now rewrite <- app_cons, free_of_app, Hname, Hmid. }
  assert (Hnil : name +:+ "" = name).
  { clear. induction name as [|a s IH]; [reflexivity|]. rewrite app_cons. now rewrite IH. }
  split.
  - intros env w msg w' suffix Hsuf path dir. subst path dir.
    pose proof (install_tar_message env (pre +:+ name +:+ suffix) w msg w') as Hm.
    pose proof (install_tar_first_calls env (pre +:+ name +:+ suffix) w msg w') as Hf.
    cbv zeta in Hm, Hf.
    assert (E : fst (Py.splitext (Py.basename (pre +:+ name +:+ suffix))) = name +:+ ".tar").
    { destruct Hsuf as [->| ->].
      - apply (Hsplit ".tar" "gz"); reflexivity.
      - apply (Hsplit ".tar" "xz"); reflexivity. }
    rewrite E in Hm, Hf. destruct Hm as [Hm1 Hm2], Hf as [Hf1 Hf2].
    split; intros H; (split; [auto|auto]).
  - intros env w msg w' path dir. subst path dir.
    pose proof (install_tar_message env (pre +:+ name +:+ ".tgz") w msg w') as Hm.
    pose proof (install_tar_first_calls env (pre +:+ name +:+ ".tgz") w msg w') as Hf.
    cbv zeta in Hm, Hf.
    assert (E : fst (Py.splitext (Py.basename (pre +:+ name +:+ ".tgz"))) = name).
    { pose proof (Hsplit "" "tgz" eq_refl eq_refl eq_refl) as E.
      rewrite Hnil in E. exact E. }
    rewrite E in Hm, Hf. destruct Hm as [Hm1 Hm2], Hf as [Hf1 Hf2].
    split; intros H; (split; [auto|auto]).
Qed.

Lemma archive_directory_keeps_tar_witness :
  let w := world_of {["/d/app.tar.gz"]} [] in
  let dir := Py.path_join (expanduser quiet_host "~/Applications") ("app" +:+ ".tar") in
  exists msg w',
    LinuxAppInstaller.install_tar quiet_host "/d/app.tar.gz" w = (Ok msg, w')
    /\ msg = "Extracted to " +:+ dir +:+ " with desktop integration"
    /\ exists l, calls w' = calls w ++ [MakeDirs (expanduser quiet_host "~/Applications");
                                        MakeDirs dir;
                                        Spawn ["tar"; "-xf"; "/d/app.tar.gz"; "-C"; dir] 300]
                                   ++ l.
Proof.
  intros w dir.
  exists (default "" (match fst (LinuxAppInstaller.install_tar quiet_host "/d/app.tar.gz" w)
                      with Ok m => Some m | _ => None end)),
         (snd (LinuxAppInstaller.install_tar quiet_host "/d/app.tar.gz" w)).
  assert (E : LinuxAppInstaller.install_tar quiet_host "/d/app.tar.gz" w
              = (Ok (default "" (match fst (LinuxAppInstaller.install_tar quiet_host
                                                "/d/app.tar.gz" w)
                                 with Ok m => Some m | _ => None end)),
                 snd (LinuxAppInstaller.install_tar quiet_host "/d/app.tar.gz" w))).
  { vm_compute. reflexivity. }
  split; [exact E|].
  exact (proj2 (proj1 (archive_directory_keeps_tar "/d/" "a" "pp"
                         (or_intror (ex_intro _ "/d" eq_refl)) eq_refl eq_refl)
                  quiet_host w _ _ ".tar.gz" (or_introl eq_refl)) E).
Defined.

Lemma wrapped_failure {A B} (env : Env) (body : M World A) (prefix : string) (g : A -> B)
    (w : World) (e : exn) :
  fst (bind (try_except body
               (fun e => raise (Exception (prefix +:+ exn_str env e))))
            (fun a => ret (g a)) w) = Raise e ->
  exists e0 w1, body w = (Raise e0, w1) /\ e = Exception (prefix +:+ exn_str env e0).
Proof.
  unfold bind, try_except, raise, ret.
  destruct (body w) as [[a|e0|] w1]; cbn [fst]; intros [=].
  subst e. now exists e0, w1.
Qed.

(** X10. The procedures of the window for AppImages, archives and
    executables report every failure under one heading each, whatever step
    failed: an archive whose [install.sh] fails after a good extraction is
    reported as [Failed to extract archive: ...], like one that [tar]
    refuses. The message after the heading is that of the error that was
    caught. The procedures for [.deb], snap and flatpak packages wrap
    nothing: what they raise is the one message about the missing tool, or
    the very error that [run_command] raised for the command that failed,
    be it the [Exception] of the wrapper, the [OSError] of the spawn or the
    [UnicodeDecodeError] of the output. *)
Theorem window_failures_are_wrapped (env : Env) (f : procedure) (path : string)
    (w : World) (e : exn) :
  fst (LinuxAppInstaller.method env f path w) = Raise e ->
  let unwrapped := fun (tool missing : string) (cmd : list string) =>
    (which env tool w = false /\ e = Exception missing)
    \/ (which env tool w = true
        /\ fst (LinuxAppInstaller.run_command env cmd w) = Raise e) in
  match f with
  | ProcAppImage =>
      exists e0, e = Exception ("Failed to install AppImage: " +:+ exn_str env e0)
  | ProcTar => exists e0, e = Exception ("Failed to extract archive: " +:+ exn_str env e0)
  | ProcExecutable =>
      exists e0, e = Exception ("Failed to execute installer: " +:+ exn_str env e0)
  | ProcDeb =>
      let dpkg := ["pkexec"; "dpkg"; "-i"; path] in
      unwrapped "dpkg" "dpkg not found. Please install dpkg." dpkg
      \/ (which env "dpkg" w = true
          /\ child_ok env dpkg w = true
          /\ fst (LinuxAppInstaller.run_command env ["pkexec"; "apt-get"; "install"; "-f"]
                   (after_command env dpkg w)) = Raise e)
  | ProcSnap =>
      unwrapped "snap" "snap not found. Please install snapd."
                ["pkexec"; "snap"; "install"; path; "--dangerous"]
  | ProcFlatpak =>
      unwrapped "flatpak" "flatpak not found. Please install flatpak."
                ["flatpak"; "install"; "--user"; path]
  end.
Proof.
  intros H unwrapped. subst unwrapped. cbv beta.
  assert (One : forall tool missing cmd (k : M World string),
            (forall w1, exists msg, k w1 = (Ok msg, w1)) ->
            fst (bind get_world (fun w0 =>
                   if negb (which env tool w0) then raise (Exception missing)
                   else bind (LinuxAppInstaller.run_command env cmd) (fun _ => k)) w)
            = Raise e ->
            (which env tool w = false /\ e = Exception missing)
            \/ (which env tool w = true
                /\ fst (LinuxAppInstaller.run_command env cmd w) = Raise e)).
  { intros tool missing cmd k Hk H1.
    unfold bind at 1 in H1. unfold get_world in H1.
    destruct (which env tool w); cbn [negb] in H1.
    - right. split; [reflexivity|]. unfold bind in H1.
      destruct (LinuxAppInstaller.run_command env cmd w) as [[[]|e1|] w1]; cbn [fst] in *.
      + destruct (Hk w1) as [msg Hm]. cbv beta in H1. rewrite Hm in H1. discriminate.
      + now injection H1 as <-.
      + discriminate.
    - left. split; [reflexivity|]. now injection H1 as <-. }
  destruct f; cbn [LinuxAppInstaller.method] in H.
  - unfold LinuxAppInstaller.install_deb in H.
    unfold bind at 1 in H. unfold get_world in H.
    destruct (which env "dpkg" w) eqn:Hw; cbn [negb] in H.
    2:{ left. left. split; [reflexivity|]. now injection H as <-. }
    pose proof (run_command_cases env ["pkexec"; "dpkg"; "-i"; path] w) as H1.
    destruct (child_ok env ["pkexec"; "dpkg"; "-i"; path] w) eqn:Hok.
    + right. split; [reflexivity|]. split; [exact Hok|].
      destruct H1 as [_ H1]. rewrite (bind_Ok _ _ _ _ _ H1) in H.
      unfold bind in H.
      destruct (LinuxAppInstaller.run_command env _ (after_command env _ w))
        as [[[]|e2|] w2]; cbn [fst] in *; [discriminate|now injection H as <-|discriminate].
    + left. right. split; [reflexivity|].
      destruct H1 as [_ [e1 [w1 [H1 _]]]]. rewrite (bind_Raise _ _ _ _ _ H1) in H.
      rewrite H1. cbn [fst] in *. now injection H as <-.
  - apply wrapped_failure in H as [e0 [w1 [_ ->]]]. now exists e0.
  - apply wrapped_failure in H as [e0 [w1 [_ ->]]]. now exists e0.
  - apply (One "snap" _ _ (ret ("Successfully installed " +:+ Py.basename path)));
      [intros w1; now eexists|exact H].
  - apply (One "flatpak" _ _ (ret ("Successfully installed " +:+ Py.basename path)));
      [intros w1; now eexists|exact H].
  - apply wrapped_failure in H as [e0 [w1 [_ ->]]]. now exists e0.
Qed.

Lemma window_failures_are_wrapped_witness :
  let env := with_child (fun argv _ =>
               match argv with
               | "tar" :: _ => Exits 1 0 "" ""
               | _ => Exits 1 1 "" "install.sh: line 3: make: command not found"
               end) quiet_host in
  let w := world_of {["/d/app.tgz"; "/home/user/Applications/app/install.sh"]} [] in
  exists e0,
    fst (LinuxAppInstaller.install_tar env "/d/app.tgz" w)
    = Raise (Exception ("Failed to extract archive: " +:+ exn_str env e0)).
Proof.
  intros env w.
  destruct (window_failures_are_wrapped env ProcTar "/d/app.tgz" w
              (Exception "Failed to extract archive: install.sh: line 3: make: command not found"))
    as [e0 H].
  - vm_compute. reflexivity.
  - exists e0. cbn [LinuxAppInstaller.method] in *.
    replace (fst (LinuxAppInstaller.install_tar env "/d/app.tgz" w))
      with (Raise (A := string) (Exception "Failed to extract archive: install.sh: line 3: make: command not found"))
      by (vm_compute; reflexivity).
    now rewrite H.
Defined.

(** ** The calls an install may make *)

Lemma only_calls_ret {A} (P : syscall -> bool) (a : A) : only_calls P (ret a).
Proof. intros w. exists []. split; [now rewrite app_nil_r|constructor]. Qed.

Lemma only_calls_raise {A} (P : syscall -> bool) (e : exn) : only_calls P (raise (A := A) e).
Proof. intros w. exists []. split; [now rewrite app_nil_r|constructor]. Qed.

Lemma only_calls_get_world (P : syscall -> bool) : only_calls P get_world.
Proof. intros w. exists []. split; [now rewrite app_nil_r|constructor]. Qed.

Lemma only_calls_logging (P : syscall -> bool) (l : level) (msg : string) :
  only_calls P (logging l msg).
Proof. intros w. exists []. split; [now rewrite app_nil_r|constructor]. Qed.

Lemma only_calls_bind {A B} (P : syscall -> bool) (m : M World A) (k : A -> M World B) :
  only_calls P m -> (forall a, only_calls P (k a)) -> only_calls P (bind m k).
Proof.
  intros Hm Hk w. unfold bind. destruct (Hm w) as [l1 [E1 F1]].
  destruct (m w) as [[a|e|] w1]; cbn [snd] in *.
  - destruct (Hk a w1) as [l2 [E2 F2]]. exists (l1 ++ l2).
    split; [now rewrite E2, E1, <- app_assoc|now apply Forall_app].
  - now exists l1.
  - now exists l1.
Qed.

Lemma only_calls_try_except {A} (P : syscall -> bool) (body : M World A)
    (handler : exn -> M World A) :
  only_calls P body -> (forall e, only_calls P (handler e)) ->
  only_calls P (try_except body handler).
Proof.
  intros Hm Hk w. unfold try_except. destruct (Hm w) as [l1 [E1 F1]].
  destruct (body w) as [[a|e|] w1]; cbn [snd] in *.
  - now exists l1.
  - destruct (Hk e w1) as [l2 [E2 F2]]. exists (l1 ++ l2).
    split; [now rewrite E2, E1, <- app_assoc|now apply Forall_app].
  - now exists l1.
Qed.

Lemma only_calls_try_except_only {A} (P : syscall -> bool) (catches : exn -> bool)
    (body : M World A) (handler : exn -> M World A) :
  only_calls P body -> (forall e, only_calls P (handler e)) ->
  only_calls P (try_except_only catches body handler).
Proof.
  intros Hm Hk w. unfold try_except_only. destruct (Hm w) as [l1 [E1 F1]].
  destruct (body w) as [[a|e|] w1]; cbn [snd] in *.
  - now exists l1.
  - destruct (catches e); [|now exists l1].
    destruct (Hk e w1) as [l2 [E2 F2]]. exists (l1 ++ l2).
    split; [now rewrite E2, E1, <- app_assoc|now apply Forall_app].
  - now exists l1.
Qed.

Lemma only_calls_one {A} (P : syscall -> bool) (c : syscall) (m : M World A) :
  P c = true -> (forall w, calls (snd (m w)) = calls w ++ [c]) -> only_calls P m.
Proof. intros Hc Hm w. exists [c]. split; [apply Hm|now repeat constructor]. Qed.

Lemma only_calls_fs_call (P : syscall -> bool) (env : Env) (c : syscall)
    (effect : gset string -> gset string) :
  P c = true -> only_calls P (fs_call env c effect).
Proof.
  intros Hc. apply (only_calls_one P c); [exact Hc|].
  intros w. unfold fs_call. now destruct (fault env c w).
Qed.

Lemma only_calls_move (P : syscall -> bool) (env : Env) (src dst : string) :
  P (Move src dst) = true -> only_calls P (move env src dst).
Proof.
  intros Hc. apply (only_calls_one P (Move src dst)); [exact Hc|].
  intros w. unfold move, fs_call.
  destruct (path_exists src w); [|reflexivity]. now destruct (fault env _ w).
Qed.

Lemma only_calls_chmod (P : syscall -> bool) (env : Env) (path : string) :
  P (Chmod path) = true -> only_calls P (chmod env path).
Proof.
  intros Hc. apply (only_calls_one P (Chmod path)); [exact Hc|].
  intros w. unfold chmod, fs_call.
  destruct (path_exists path w); [|reflexivity]. now destruct (fault env _ w).
Qed.

Lemma only_calls_subprocess_run (P : syscall -> bool) (env : Env) (argv : list string)
    (timeout : Z) :
  P (Spawn argv timeout) = true -> only_calls P (subprocess_run env argv timeout).
Proof.
  intros Hc. apply (only_calls_one P (Spawn argv timeout)); [exact Hc|].
  intros w. apply subprocess_run_calls.
Qed.

Lemma only_calls_resolve_destination (P : syscall -> bool) (dest : string) :
  only_calls P (resolve_destination dest).
Proof.
  intros w. exists []. split; [|constructor]. rewrite app_nil_r.
  unfold resolve_destination. destruct (path_exists dest w); [|reflexivity].
  destruct (Py.splitext dest) as [base ext]. now destruct (count_up _ _ _ _ _).
Qed.

Lemma only_calls_batch_run_command (P : syscall -> bool) (env : Env) (cmd : list string) :
  P (Spawn cmd 300) = true -> only_calls P (BatchInstaller.run_command env cmd).
Proof.
  intros Hc. apply (only_calls_one P (Spawn cmd 300)); [exact Hc|].
  intros w. apply run_command_once.
Qed.

Lemma only_calls_run_command (P : syscall -> bool) (env : Env) (cmd : list string) :
  P (Spawn cmd 300) = true -> only_calls P (LinuxAppInstaller.run_command env cmd).
Proof.
  intros Hc. apply (only_calls_one P (Spawn cmd 300)); [exact Hc|].
  intros w. apply run_command_once.
Qed.

Ltac calls_step :=
  match goal with
  | |- only_calls _ (bind _ _) => apply only_calls_bind; [|intros ?]
  | |- only_calls _ (try_except _ _) => apply only_calls_try_except; [|intros ?]
  | |- only_calls _ (ret _) => apply only_calls_ret
  | |- only_calls _ (raise _) => apply only_calls_raise
  | |- only_calls _ get_world => apply only_calls_get_world
  | |- only_calls _ (logging _ _) => apply only_calls_logging
  | |- only_calls _ (makedirs _ _) => apply only_calls_fs_call; reflexivity
  | |- only_calls _ (write_text _ _ _) => apply only_calls_fs_call; reflexivity
  | |- only_calls _ (copy2 _ _ _) => apply only_calls_fs_call; reflexivity
  | |- only_calls _ (move _ _ _) => apply only_calls_move; reflexivity
  | |- only_calls _ (chmod _ _) => apply only_calls_chmod; reflexivity
  | |- only_calls _ (subprocess_run _ _ _) => apply only_calls_subprocess_run; reflexivity
  | |- only_calls _ (resolve_destination _) => apply only_calls_resolve_destination
  | |- only_calls _ (BatchInstaller.run_command _ _) =>
      apply only_calls_batch_run_command; reflexivity
  | |- only_calls _ (LinuxAppInstaller.run_command _ _) =>
      apply only_calls_run_command; reflexivity
  | |- only_calls _ (if ?b then _ else _) => destruct b
  | |- only_calls _ (match ?x with _ => _ end) => destruct x
  end.

Ltac calls_auto := repeat calls_step.

Lemma only_calls_batch_method (env : Env) (f : procedure) (path : string) :
  only_calls batch_call (BatchInstaller.method env f path).
Proof.
  destruct f; cbn [BatchInstaller.method];
    unfold BatchInstaller.install_deb, BatchInstaller.install_appimage,
      BatchInstaller.install_tar, BatchInstaller.install_snap,
      BatchInstaller.install_flatpak, BatchInstaller.install_executable;
    calls_auto.
Qed.

Lemma only_calls_quiet {A} (P : syscall -> bool) (m : M World A) :
  (forall w, calls (snd (m w)) = calls w) -> only_calls P m.
Proof. intros H w. exists []. split; [now rewrite app_nil_r|constructor]. Qed.

Lemma only_calls_run_task (env : Env) (r : nat) :
  only_calls batch_call (BatchInstaller.run_task env r).
Proof.
  unfold BatchInstaller.run_task, BatchInstaller.attempt, BatchInstaller.failed.
  repeat first
    [ apply only_calls_bind; [|intros ?]
    | apply only_calls_try_except; [|intros ?]
    | apply only_calls_batch_method
    | apply only_calls_raise
    | apply only_calls_quiet; reflexivity
    | match goal with |- only_calls _ (match ?x with _ => _ end) => destruct x end ].
Qed.

(** X11. The install procedures of the batch, a round of its loop and a
    whole run call the host only to make directories, move the AppImage, set
    modes and run six commands, each with the timeout of 300 seconds: they
    write no file, copy none, remove none and leave the store of the history
    alone, so a package installed by the batch gets no menu entry, shortcut,
    icon or uninstall entry. *)
Theorem batch_procedures_call (env : Env) (f : procedure) (path : string) (r : nat)
    (q : list nat) (w : World) :
  only_calls batch_call (BatchInstaller.method env f path)
  /\ only_calls batch_call (BatchInstaller.run_task env r)
  /\ exists l, calls (processed env q w) = calls w ++ l
               /\ Forall (fun c => batch_call c = true) l.
Proof.
  split; [apply only_calls_batch_method|]. split; [apply only_calls_run_task|].
  revert w. induction q as [|r0 q IH]; intros w.
  - exists []. split; [now rewrite app_nil_r|constructor].
  - rewrite processed_cons.
    destruct (only_calls_run_task env r0 w) as [l1 [E1 F1]].
    destruct (IH (snd (BatchInstaller.run_task env r0 w))) as [l2 [E2 F2]].
    exists (l1 ++ l2). split; [now rewrite E2, E1, <- app_assoc|now apply Forall_app].
Qed.

Lemma only_calls_first_icon (P : syscall -> bool) (env : Env) (mount app_name : string)
    (names : list string) :
  (forall p, P (MakeDirs p) = true) -> (forall p q, P (CopyFile p q) = true) ->
  only_calls P (LinuxAppInstaller.first_icon env mount app_name names).
Proof.
  intros Hm Hc. induction names as [|n names IH]; cbn [LinuxAppInstaller.first_icon].
  - apply only_calls_ret.
  - apply only_calls_bind; [apply only_calls_get_world|intros w].
    destruct (path_exists _ w); [|exact IH].
    unfold LinuxAppInstaller.copy_icon.
    apply only_calls_bind; [apply only_calls_fs_call, Hm|intros _].
    apply only_calls_bind; [apply only_calls_fs_call, Hc|intros _].
    apply only_calls_ret.
Qed.

Lemma only_calls_write_desktop_files (P : syscall -> bool) (env : Env)
    (app_name content : string) :
  (forall p, P (MakeDirs p) = true) -> (forall p c, P (WriteText p c) = true) ->
  (forall p, P (Chmod p) = true) ->
  only_calls P (LinuxAppInstaller.write_desktop_files env app_name content).
Proof.
  intros Hm Hw Hc. unfold LinuxAppInstaller.write_desktop_files.
  repeat (apply only_calls_bind; [|intros _]);
    try (apply only_calls_fs_call; auto); apply only_calls_chmod; auto.
Qed.

Lemma only_calls_write_tar_entries (P : syscall -> bool) (env : Env)
    (executables : list string) :
  (forall p, P (MakeDirs p) = true) -> (forall p c, P (WriteText p c) = true) ->
  (forall p, P (Chmod p) = true) ->
  only_calls P (LinuxAppInstaller.write_tar_entries env executables).
Proof.
  intros Hm Hw Hc.
  induction executables as [|exe rest IH]; cbn [LinuxAppInstaller.write_tar_entries].
  - apply only_calls_ret.
  - case_bool_decide; [exact IH|].
    apply only_calls_bind; [now apply only_calls_write_desktop_files|intros _; exact IH].
Qed.

Lemma only_calls_associate (P : syscall -> bool) (env : Env) (app_name ext : string) :
  plain P -> (forall d, P (Spawn ["update-mime-database"; d] 300) = true) ->
  only_calls P (LinuxAppInstaller.associate env app_name ext).
Proof.
  intros (Hm & Hw & Hc & Hcp & Hmv) Hs. unfold LinuxAppInstaller.associate.
  apply only_calls_bind; [apply only_calls_fs_call, Hm|intros _].
  apply only_calls_bind; [apply only_calls_fs_call, Hw|intros _].
  apply only_calls_bind; [apply only_calls_run_command, Hs|intros _].
  apply only_calls_bind; [apply only_calls_fs_call, Hm|intros _].
  apply only_calls_bind; [apply only_calls_get_world|intros w].
  apply only_calls_bind; [|intros d; apply only_calls_fs_call, Hw].
  destruct (path_exists _ w); [|apply only_calls_ret].
  destruct (read_lines env _ w); [apply only_calls_ret|apply only_calls_raise].
Qed.

Lemma only_calls_setup_file_associations (P : syscall -> bool) (env : Env)
    (app_name : string) (exts : option (list string)) :
  plain P -> (forall d, P (Spawn ["update-mime-database"; d] 300) = true) ->
  only_calls P (LinuxAppInstaller.setup_file_associations env app_name exts).
Proof.
  intros HP Hs. unfold LinuxAppInstaller.setup_file_associations.
  destruct exts as [[|ext exts]|]; try apply only_calls_ret.
  apply only_calls_try_except; [|intros e; apply only_calls_logging].
  generalize (ext :: exts). intros l.
  induction l as [|x l IH]; cbn [LinuxAppInstaller.associate_all].
  - apply only_calls_ret.
  - apply only_calls_bind; [now apply only_calls_associate|intros _; exact IH].
Qed.

(** [post_install_setup] without the file associations: what is left of it
    for a type that is no key of its table. *)
Lemma only_calls_post_install_setup (P : syscall -> bool) (env : Env)
    (app_name install_path file_type : string) :
  plain P ->
  (forall kv, List.find (fun kv => String.eqb (fst kv) file_type)
                        LinuxAppInstaller.file_associations = Some kv ->
              forall d, P (Spawn ["update-mime-database"; d] 300) = true) ->
  only_calls P (LinuxAppInstaller.post_install_setup env app_name install_path file_type).
Proof.
  intros HP Hs. pose proof HP as (Hm & Hw & Hc & Hcp & Hmv).
  unfold LinuxAppInstaller.post_install_setup.
  apply only_calls_try_except.
  2:{ intros e. apply only_calls_bind; [apply only_calls_logging|intros _].
      apply only_calls_ret. }
  apply only_calls_bind.
  { unfold LinuxAppInstaller.setup_application_directories.
    apply only_calls_try_except.
    - repeat (apply only_calls_bind; [apply only_calls_fs_call, Hm|intros _]).
      apply only_calls_ret.
    - intros e. apply only_calls_bind; [apply only_calls_logging|intros _].
      apply only_calls_ret. }
  intros dirs. apply only_calls_bind.
  { unfold LinuxAppInstaller.create_uninstall_entry.
    apply only_calls_try_except; [|intros e; apply only_calls_logging].
    apply only_calls_bind; [apply only_calls_fs_call, Hw|intros _].
    apply only_calls_chmod, Hc. }
  intros _. apply only_calls_bind.
  { destruct (List.find _ _) as [kv|] eqn:F; [|apply only_calls_ret].
    apply only_calls_setup_file_associations; [exact HP|]. now apply (Hs kv). }
  intros _. apply only_calls_bind; [apply only_calls_logging|intros _].
  apply only_calls_ret.
Qed.

Lemma only_calls_update_desktop_database (P : syscall -> bool) (env : Env) :
  (forall d, P (Spawn ["update-desktop-database"; d] 300) = true) ->
  only_calls P (LinuxAppInstaller.update_desktop_database env).
Proof. intros H. apply only_calls_run_command, H. Qed.

Lemma only_calls_create_tar_desktop_entries (P : syscall -> bool) (env : Env)
    (dir : string) :
  plain P -> (forall d, P (Spawn ["update-desktop-database"; d] 300) = true) ->
  only_calls P (LinuxAppInstaller.create_tar_desktop_entries env dir).
Proof.
  intros (Hm & Hw & Hc & Hcp & Hmv) Hs. unfold LinuxAppInstaller.create_tar_desktop_entries.
  apply only_calls_try_except; [|intros e; apply only_calls_logging].
  apply only_calls_bind; [apply only_calls_get_world|intros w].
  apply only_calls_bind; [now apply only_calls_write_tar_entries|intros _].
  destruct (_ <$> _); [apply only_calls_ret|now apply only_calls_update_desktop_database].
Qed.

Lemma only_calls_create_executable_desktop_entry (P : syscall -> bool) (env : Env)
    (path : string) :
  plain P -> (forall d, P (Spawn ["update-desktop-database"; d] 300) = true) ->
  only_calls P (LinuxAppInstaller.create_executable_desktop_entry env path).
Proof.
  intros (Hm & Hw & Hc & Hcp & Hmv) Hs.
  unfold LinuxAppInstaller.create_executable_desktop_entry.
  apply only_calls_try_except; [|intros e; apply only_calls_logging].
  apply only_calls_bind; [now apply only_calls_write_desktop_files|intros _].
  now apply only_calls_update_desktop_database.
Qed.

Lemma only_calls_create_appimage_desktop_entry (P : syscall -> bool) (env : Env)
    (path : string) :
  plain P -> (forall d, P (Spawn ["update-desktop-database"; d] 300) = true) ->
  P (Spawn [path; "--appimage-mount"] 10) = true ->
  only_calls P (LinuxAppInstaller.create_appimage_desktop_entry env path).
Proof.
  intros (Hm & Hw & Hc & Hcp & Hmv) Hs Hmount.
  unfold LinuxAppInstaller.create_appimage_desktop_entry.
  apply only_calls_try_except; [|intros e; apply only_calls_logging].
  apply only_calls_bind.
  { unfold LinuxAppInstaller.extract_appimage_icon.
    apply only_calls_try_except.
    2:{ intros e. apply only_calls_bind; [apply only_calls_logging|intros _].
        apply only_calls_ret. }
    apply only_calls_bind; [apply only_calls_fs_call, Hm|intros _].
    apply only_calls_bind; [apply only_calls_subprocess_run, Hmount|intros r].
    destruct (_ && _); [|apply only_calls_ret].
    apply only_calls_bind; [apply only_calls_get_world|intros w].
    destruct (path_exists _ w); [|now apply only_calls_first_icon].
    unfold LinuxAppInstaller.copy_icon.
    apply only_calls_bind; [apply only_calls_fs_call, Hm|intros _].
    apply only_calls_bind; [apply only_calls_fs_call, Hcp|intros _].
    apply only_calls_ret. }
  intros icon. apply only_calls_bind; [now apply only_calls_write_desktop_files|intros _].
  now apply only_calls_update_desktop_database.
Qed.

Lemma plain_window_call : plain window_call.
Proof. now repeat split. Qed.

Lemma plain_association_free : plain association_free.
Proof. now repeat split. Qed.

(** X12. Whatever the host does, an install procedure of the window removes
    no file and leaves the store of the history alone; the commands it
    starts are the six of the batch, [update-desktop-database] and
    [update-mime-database], each with the timeout of 300 seconds, and the
    installed AppImage itself with [--appimage-mount] and 10 seconds. *)
Theorem window_procedures_call (env : Env) (f : procedure) (path : string) :
  only_calls window_call (LinuxAppInstaller.method env f path).
Proof.
  pose proof plain_window_call as HP. pose proof HP as (Hm & Hw & Hc & Hcp & Hmv).
  assert (Hdb : forall d, window_call (Spawn ["update-desktop-database"; d] 300) = true)
    by reflexivity.
  assert (Hmime : forall d, window_call (Spawn ["update-mime-database"; d] 300) = true)
    by reflexivity.
  destruct f; cbn [LinuxAppInstaller.method].
  - unfold LinuxAppInstaller.install_deb. calls_auto.
  - unfold LinuxAppInstaller.install_appimage.
    apply only_calls_bind; [|intros d; apply only_calls_ret].
    apply only_calls_try_except; [|intros e; apply only_calls_raise].
    apply only_calls_bind; [apply only_calls_fs_call, Hm|intros _].
    apply only_calls_bind; [apply only_calls_resolve_destination|intros dest].
    apply only_calls_bind; [apply only_calls_move, Hmv|intros _].
    apply only_calls_bind; [apply only_calls_chmod, Hc|intros _].
    apply only_calls_bind;
      [apply only_calls_create_appimage_desktop_entry; auto|intros _].
    apply only_calls_bind; [|intros m; apply only_calls_ret].
    apply only_calls_post_install_setup; auto.
  - unfold LinuxAppInstaller.install_tar.
    apply only_calls_bind; [|intros d; apply only_calls_ret].
    apply only_calls_try_except; [|intros e; apply only_calls_raise].
    apply only_calls_bind; [apply only_calls_fs_call, Hm|intros _].
    apply only_calls_bind; [apply only_calls_fs_call, Hm|intros _].
    apply only_calls_bind; [apply only_calls_run_command; reflexivity|intros _].
    apply only_calls_bind; [apply only_calls_create_tar_desktop_entries; auto|intros _].
    apply only_calls_bind; [apply only_calls_get_world|intros w].
    apply only_calls_bind.
    { destruct (path_exists _ w); [|apply only_calls_ret].
      apply only_calls_bind; [apply only_calls_chmod, Hc|intros _].
      apply only_calls_run_command; reflexivity. }
    intros _. apply only_calls_bind; [|intros m; apply only_calls_ret].
    apply only_calls_post_install_setup; auto.
  - unfold LinuxAppInstaller.install_snap. calls_auto.
  - unfold LinuxAppInstaller.install_flatpak. calls_auto.
  - unfold LinuxAppInstaller.install_executable.
    apply only_calls_bind; [|intros d; apply only_calls_ret].
    apply only_calls_try_except; [|intros e; apply only_calls_raise].
    apply only_calls_bind; [apply only_calls_chmod, Hc|intros _].
    apply only_calls_bind; [apply only_calls_run_command; reflexivity|intros _].
    apply only_calls_bind.
    { destruct (negb _); [|apply only_calls_ret].
      apply only_calls_create_executable_desktop_entry; auto. }
    intros _. apply only_calls_bind; [|intros m; apply only_calls_ret].
    apply only_calls_post_install_setup; auto.
Qed.

(** X13. Only the procedure for AppImages can register a file association.
    The procedures for archives and for executables hand
    [post_install_setup] the types [tar] and [executable], which are no keys
    of its table, so its entries for [tar.gz], [tar.xz], [run] and [bin] are
    never used: no procedure but [install_appimage] runs
    [update-mime-database]. *)
Theorem associations_for_appimages_only (env : Env) (f : procedure) (path : string) :
  f <> ProcAppImage ->
  only_calls association_free (LinuxAppInstaller.method env f path).
Proof.
  intros Hf.
  pose proof plain_association_free as HP. pose proof HP as (Hm & Hw & Hc & Hcp & Hmv).
  assert (Hdb : forall d, association_free (Spawn ["update-desktop-database"; d] 300) = true)
    by reflexivity.
  destruct f; [|contradiction| | | |]; cbn [LinuxAppInstaller.method].
  - unfold LinuxAppInstaller.install_deb. calls_auto.
  - unfold LinuxAppInstaller.install_tar.
    apply only_calls_bind; [|intros d; apply only_calls_ret].
    apply only_calls_try_except; [|intros e; apply only_calls_raise].
    apply only_calls_bind; [apply only_calls_fs_call, Hm|intros _].
    apply only_calls_bind; [apply only_calls_fs_call, Hm|intros _].
    apply only_calls_bind; [apply only_calls_run_command; reflexivity|intros _].
    apply only_calls_bind; [apply only_calls_create_tar_desktop_entries; auto|intros _].
    apply only_calls_bind; [apply only_calls_get_world|intros w].
    apply only_calls_bind.
    { destruct (path_exists _ w); [|apply only_calls_ret].
      apply only_calls_bind; [apply only_calls_chmod, Hc|intros _].
      apply only_calls_run_command; reflexivity. }
    intros _. apply only_calls_bind; [|intros m; apply only_calls_ret].
    apply only_calls_post_install_setup; [exact HP|]. intros kv [=].
  - unfold LinuxAppInstaller.install_snap. calls_auto.
  - unfold LinuxAppInstaller.install_flatpak. calls_auto.
  - unfold LinuxAppInstaller.install_executable.
    apply only_calls_bind; [|intros d; apply only_calls_ret].
    apply only_calls_try_except; [|intros e; apply only_calls_raise].
    apply only_calls_bind; [apply only_calls_chmod, Hc|intros _].
    apply only_calls_bind; [apply only_calls_run_command; reflexivity|intros _].
    apply only_calls_bind.
    { destruct (negb _); [|apply only_calls_ret].
      apply only_calls_create_executable_desktop_entry; auto. }
    intros _. apply only_calls_bind; [|intros m; apply only_calls_ret].
    apply only_calls_post_install_setup; [exact HP|]. intros kv [=].
Qed.

Lemma associations_for_appimages_only_witness :
  only_calls association_free (LinuxAppInstaller.method quiet_host ProcTar "/d/app.tar.gz").
Proof.
  apply (associations_for_appimages_only quiet_host ProcTar "/d/app.tar.gz"). discriminate.
Defined.

Lemma writes_entries_of_entry (env : Env) (executables : list string) (exe content : string) :
  exe ∈ executables ->
  Py.basename exe ∉ ["install.sh"; "uninstall.sh"; "configure"] ->
  only_calls (writes_entries_of env executables)
    (LinuxAppInstaller.write_desktop_files env (Py.basename exe) content).
Proof.
  intros Hin Hskip.
  assert (Hw : forall path c,
            path = expanduser env ("~/.local/share/applications/" +:+ Py.basename exe
                                   +:+ ".desktop")
            \/ path = expanduser env ("~/Desktop/" +:+ Py.basename exe +:+ ".desktop") ->
            writes_entries_of env executables (WriteText path c) = true).
  { intros path c Hp. cbn [writes_entries_of]. apply existsb_exists.
    exists exe. split; [now apply list_elem_of_In|]. cbv zeta.
    rewrite bool_decide_eq_false_2 by exact Hskip. cbn [negb andb].
    apply orb_true_iff. destruct Hp as [-> | ->]; [left|right]; apply String.eqb_refl. }
  unfold LinuxAppInstaller.write_desktop_files.
  apply only_calls_bind; [now apply only_calls_fs_call|intros _].
  apply only_calls_bind; [apply only_calls_fs_call, Hw; now left|intros _].
  apply only_calls_bind; [apply only_calls_fs_call, Hw; now right|intros _].
  apply only_calls_bind; [now apply only_calls_chmod|intros _].
  now apply only_calls_chmod.
Qed.

Lemma writes_entries_of_loop (env : Env) (executables l : list string) :
  l ⊆ executables ->
  only_calls (writes_entries_of env executables) (LinuxAppInstaller.write_tar_entries env l).
Proof.
  induction l as [|exe l IH]; intros Hsub; cbn [LinuxAppInstaller.write_tar_entries].
  - apply only_calls_ret.
  - assert (Hl : l ⊆ executables) by (intros x Hx; apply Hsub; now right).
    case_bool_decide as Hskip; [now apply IH|].
    apply only_calls_bind; [|intros _; now apply IH].
    apply writes_entries_of_entry; [apply Hsub; now left|exact Hskip].
Qed.

Lemma skipped_entries_write_nothing (env : Env) (l : list string) :
  Forall (fun exe => Py.basename exe ∈ ["install.sh"; "uninstall.sh"; "configure"]) l ->
  only_calls (fun c => negb (writes_text c)) (LinuxAppInstaller.write_tar_entries env l).
Proof.
  induction 1 as [|exe l Hexe _ IH]; cbn [LinuxAppInstaller.write_tar_entries].
  - apply only_calls_ret.
  - now rewrite bool_decide_eq_true_2 by exact Hexe.
Qed.

(** X14. [create_tar_desktop_entries] writes menu entries and shortcuts for
    the first three executables it finds and for no other, and among the
    three not for [install.sh], [uninstall.sh] and [configure]: the limit is
    applied before the installer scripts are left out, so the scripts use up
    places. When the first three found are all such scripts, no entry is
    written although more executables may have been found. *)
Theorem tar_entries_for_first_three (env : Env) (extract_dir : string) (w : World) :
  let executables := found_executables env extract_dir w in
  exists l,
    calls (snd (LinuxAppInstaller.create_tar_desktop_entries env extract_dir w))
    = calls w ++ l
    /\ Forall (fun c => writes_entries_of env (firstn 3 executables) c = true) l
    /\ (Forall (fun exe => Py.basename exe ∈ ["install.sh"; "uninstall.sh"; "configure"])
               (firstn 3 executables) ->
        Forall (fun c => writes_text c = false) l).
Proof.
  intros executables.
  set (m := LinuxAppInstaller.write_tar_entries env (firstn 3 executables) ;;
            match executables with
            | [] => ret tt
            | _ :: _ => LinuxAppInstaller.update_desktop_database env
            end).
  set (handler := fun e => logging WARNING ("Failed to create desktop entries for "
                                            +:+ extract_dir +:+ ": " +:+ exn_str env e)).
  assert (E : LinuxAppInstaller.create_tar_desktop_entries env extract_dir w
              = try_except m handler w) by reflexivity.
  rewrite E.
  assert (H1 : only_calls (writes_entries_of env (firstn 3 executables))
                 (try_except m handler)).
  { apply only_calls_try_except; [|intros e; apply only_calls_logging].
    apply only_calls_bind; [now apply writes_entries_of_loop|intros _].
    destruct executables; [apply only_calls_ret|].
    now apply only_calls_run_command. }
  destruct (H1 w) as [l [Hl Hf]]. exists l. split; [exact Hl|]. split; [exact Hf|].
  intros Hskip.
  assert (H2 : only_calls (fun c => negb (writes_text c)) (try_except m handler)).
  { apply only_calls_try_except; [|intros e; apply only_calls_logging].
    apply only_calls_bind; [now apply skipped_entries_write_nothing|intros _].
    destruct executables; [apply only_calls_ret|].
    now apply only_calls_run_command. }
  destruct (H2 w) as [l' [Hl' Hf']].
  rewrite Hl in Hl'. apply app_inv_head in Hl'. subst l'.
  eapply list.Forall_impl; [exact Hf'|]. intros c Hc. now apply negb_true_iff in Hc.
Qed.

Lemma tar_entries_for_first_three_witness :
  let env := mkEnv (expanduser quiet_host) (child quiet_host) (aftermath quiet_host)
               (fault quiet_host) (torn quiet_host) (which quiet_host) (isfile quiet_host)
               (access_r quiet_host) (access_x quiet_host)
               (fun dir _ => [(dir, "install.sh"); (dir, "uninstall.sh");
                              (dir, "configure"); (dir +:+ "/bin", "app")])
               (fun _ _ => Some "#!/bin/sh")
               (read_lines quiet_host) (getsize quiet_host) (sha256_hex quiet_host)
               (md5_hex8 quiet_host) (clock quiet_host) (isoformat quiet_host)
               (fromisoformat quiet_host) (repr_argv quiet_host) (repr_str quiet_host)
               (load_error quiet_host) in
  let w := world_of ∅ [] in
  found_executables env "/home/user/Applications/app" w
  = ["/home/user/Applications/app/install.sh"; "/home/user/Applications/app/uninstall.sh";
     "/home/user/Applications/app/configure"; "/home/user/Applications/app/bin/app"]
  /\ exists l,
       calls (snd (LinuxAppInstaller.create_tar_desktop_entries env
                     "/home/user/Applications/app" w)) = calls w ++ l
       /\ Forall (fun c => writes_text c = false) l.
Proof.
  intros env w. split; [reflexivity|].
  destruct (tar_entries_for_first_three env "/home/user/Applications/app" w)
    as [l [Hl [_ Hs]]].
  exists l. split; [exact Hl|]. apply Hs.
  repeat constructor; cbn; rewrite !elem_of_cons; auto.
Defined.









(** X16. What a round of the batch tells the window agrees with what it
    writes into the task: the round ends with one [task_completed] that
    carries the id of the task, the message now stored in the task, and the
    flag that is true exactly when the status stored is [completed]; before
    it come the progress signals 10, 50 and 100, or 10 and 100 when no
    procedure was found. The attribute [progress] of the task itself is
    never written: it is what it was before the round. *)
Theorem round_signals_agree_with_task (env : Env) (r : nat) (w : World) :
  let t := heap w r in
  exists w' before success,
    BatchInstaller.run_task env r w = (Ok tt, w')
    /\ signals w'
       = signals w ++ before ++ [task_completed (task_id t) success (message (heap w' r))]
    /\ (percents before = [10; 50; 100] \/ percents before = [10; 100])
    /\ Forall (fun s => exists p m, s = progress_updated (task_id t) p m) before
    /\ status (heap w' r) = (if success then "completed" else "failed")
    /\ progress (heap w' r) = progress t
    /\ task_id (heap w' r) = task_id t
    /\ start_time (heap w' r) = Some (clock env (ticks w))
    /\ end_time (heap w' r) = Some (clock env (S (ticks w))).
Proof.
  intros t.
  destruct (run_task_spec env r w) as [w' [Hrun [Hd [Hh [_ [Hs _]]]]]].
  fold t in Hh, Hs.
  set (result := install_result env r w) in *.
  exists w'.
  unfold task_signals in Hs. rewrite Hh.
  cbn [message status progress task_id start_time end_time closed_task].
  destruct result as [msg|e|]; [| |contradiction]; cbn [final_status final_message] in *.
  - exists ([starting t]
            ++ match getattr_install (get_file_type (file_path t)) with
               | Some _ => [installing_signal t]
               | None => []
               end ++ [progress_updated (task_id t) 100 msg]), true.
    split; [exact Hrun|]. split.
    { rewrite Hs. now rewrite <- !app_assoc. }
    split; [destruct (getattr_install _); [now left|now right]|].
    split.
    { unfold starting, installing_signal.
      destruct (getattr_install _); repeat constructor; eexists _, _; reflexivity. }
    now repeat split.
  - exists ([starting t]
            ++ match getattr_install (get_file_type (file_path t)) with
               | Some _ => [installing_signal t]
               | None => []
               end ++ [progress_updated (task_id t) 100 ("Failed: " +:+ exn_str env e)]),
           false.
    split; [exact Hrun|]. split.
    { rewrite Hs. now rewrite <- !app_assoc. }
    split; [destruct (getattr_install _); [now left|now right]|].
    split.
    { unfold starting, installing_signal.
      destruct (getattr_install _); repeat constructor; eexists _, _; reflexivity. }
    now repeat split.
Qed.

(** ** Records of the store that cannot be read, and writes that fail *)

(** X17. What [from_dict] makes of fields that are missing or empty. A
    record without [file_path] raises [KeyError]. A record with a
    [file_path] alone gives a queued task with the defaults: the hash
    [unknown] and the size 0 replace what [__init__] has just computed from
    the file. A record written by [to_dict] for a task with the empty id is
    read back with the id made from the path. *)
Theorem from_dict_missing_fields (env : Env) (L : EnvLaws env) (w : World) :
  (forall data,
     data !! "file_path" = None ->
     Task.from_dict env data w = (Raise (KeyError "file_path"), w))
  /\ (forall path,
        Task.from_dict env {["file_path" := PStr path]} w
        = (Ok (Some (mkTask path (md5_hex8 env path) "queued" 0 "" None None "unknown" 0)),
           w))
  /\ (forall t,
        task_id t = "" ->
        Task.from_dict env (Task.to_dict env t) w
        = (Ok (Some (mkTask (file_path t) (md5_hex8 env (file_path t)) (status t)
                            (progress t) (message t) (start_time t) (end_time t)
                            (file_hash t) (file_size t))), w)).
Proof.
  split; [|split].
  - intros data H. unfold Task.from_dict, Task.object_from_dict. now rewrite H.
  - intros path. unfold Task.from_dict, Task.object_from_dict.
    rewrite lookup_singleton_eq.
    unfold Task.choose_task_id, Task.read_timestamp.
    rewrite !(lookup_singleton_ne "file_path") by discriminate.
    reflexivity.
  - intros t Hid.
    destruct (to_dict_lookup env t) as (H1 & H2 & H3 & H4 & H5 & H6 & H7 & H8 & H9).
    unfold Task.from_dict, Task.object_from_dict. rewrite H1.
    unfold Task.choose_task_id. rewrite H2, Hid.
    unfold bind, of_res, ret. cbn [fst snd Task.truthy String.eqb negb Task.probe].
    rewrite (read_timestamp_wire env L _ _ _ H6), (read_timestamp_wire env L _ _ _ H7).
    rewrite H3, H4, H5, H8, H9. reflexivity.
Qed.

Lemma from_dict_missing_fields_witness :
  Task.from_dict quiet_host {["file_path" := PStr "/d/a.deb"]} (world_of {["/d/a.deb"]} [])
  = (Ok (Some (mkTask "/d/a.deb" "d41d8cd9" "queued" 0 "" None None "unknown" 0)),
     world_of {["/d/a.deb"]} []).
Proof.
  exact (proj1 (proj2 (from_dict_missing_fields quiet_host quiet_host_laws
                         (world_of {["/d/a.deb"]} []))) "/d/a.deb").
Defined.

Lemma load_entries_raises (env : Env) (data : list (gmap string pyval)) (w : World)
    (bad : gmap string pyval) (e : exn) :
  bad ∈ data ->
  fst (Task.from_dict env bad w) = Raise e ->
  exists e', load_entries env data w = (Raise e', w).
Proof.
  intros Hin Hbad. apply from_dict_raises in Hbad.
  induction data as [|d data IH]; [now apply elem_of_nil in Hin|].
  cbn [load_entries]. unfold bind at 1.
  destruct (object_from_dict_reads env d w) as [Hw Hd].
  destruct (Task.object_from_dict env d w) as [[t|e1|] w1] eqn:E; cbn [fst snd] in *;
    subst w1.
  - apply elem_of_cons in Hin as [->|Hin].
    + rewrite E in Hbad. discriminate.
    + destruct (IH Hin) as [e' He]. unfold bind. rewrite He. now exists e'.
  - now exists e1.
  - contradiction.
Qed.

(** X18. One record of the store that [from_dict] refuses, such as a record
    without [file_path], makes [load_history] drop the whole history: it
    returns with the empty history and one error in the log, whatever the
    other records hold. *)
Theorem one_bad_record_empties_history (env : Env) (a : App) (w : World)
    (data : list (gmap string pyval)) (bad : gmap string pyval) :
  history_json w = Dumped data ->
  bad ∈ data ->
  bad !! "file_path" = None \/ (exists e, fst (Task.from_dict env bad w) = Raise e) ->
  exists reason,
    MainWindow.load_history env (a, w)
    = (Ok tt, (set_history [] a,
               record_log ERROR ("Failed to load history: " +:+ reason) w)).
Proof.
  intros Hj Hin Hbad.
  assert (He : exists e, fst (Task.from_dict env bad w) = Raise e).
  { destruct Hbad as [Hk|He]; [|exact He].
    exists (KeyError "file_path"). unfold Task.from_dict, Task.object_from_dict.
    now rewrite Hk. }
  destruct He as [e He].
  destruct (load_entries_raises env data w bad e Hin He) as [e' Hl].
  exists (exn_str env e').
  pose proof (load_history_parsed env a w data Hj) as Hp.
  now rewrite Hl in Hp.
Qed.

Lemma one_bad_record_empties_history_witness :
  let t := mkTask "/d/a.deb" "d41d8cd9" "completed" 0 "Successfully installed a.deb"
                  (Some 0) (Some 1) "unknown" 0 in
  let data := [Task.to_dict quiet_host t; {["status" := PStr "completed"]}] in
  let w := set_history_json (Dumped data) (world_of ∅ []) in
  exists reason,
    MainWindow.load_history quiet_host (app_of [], w)
    = (Ok tt, (set_history [] (app_of []),
               record_log ERROR ("Failed to load history: " +:+ reason) w)).
Proof.
  intros t data w.
  apply (one_bad_record_empties_history quiet_host (app_of []) w data
           {["status" := PStr "completed"]}).
  - reflexivity.
  - unfold data. rewrite !elem_of_cons. auto.
  - left. reflexivity.
Defined.

(** X19. [on_batch_task_completed] reloads the history from the store after
    it has saved the entry. When the write fails and leaves the store
    unreadable or absent, the handler returns with the failure logged and
    the history of the window empty: the entry and all entries before it are
    gone from memory too. *)
Theorem failed_save_forgets_history (env : Env) (id : string) (success : bool)
    (msg : string) (a : App) (w : World) (r : nat) (err : string) :
  List.find (fun r => String.eqb (task_id (heap w r)) id) (installation_queue a) = Some r ->
  let w1 := update_task r (set_message msg)
              (update_task r (set_status (if success then "completed" else "failed")) w) in
  let data := Task.to_dict env
                <$> lastn 1000 (installation_history a ++ [object_of (heap w1 r)]) in
  fault env (WriteJson "history.json" data) w1 = Some err ->
  torn env w1 = Unparsable \/ torn env w1 = NoFile ->
  exists w',
    MainWindow.on_batch_task_completed env id success msg (a, w)
    = (Ok tt, (set_history [] a, w'))
    /\ calls w' = calls w ++ [WriteJson "history.json" data]
    /\ (ERROR, "Failed to save history: " +:+ err) ∈ log w'.
Proof.
  intros F w1 data Hfault Htorn.
  unfold MainWindow.on_batch_task_completed. unfold bind at 1. unfold self at 1.
  unfold bind at 1. unfold liftW at 1, get_world. cbn [fst snd]. rewrite F.
  unfold bind at 1. unfold liftW at 1, modify_world at 1. cbn [fst snd].
  unfold bind at 1. unfold liftW at 1, modify_world at 1. cbn [fst snd].
  fold w1.
  unfold bind at 1. rewrite save_history_entry_spec. cbv zeta. fold data.
  rewrite Hfault.
  unfold bind at 1. unfold MainWindow.update_queue_display at 1, ret at 1.
  set (w2 := record_log ERROR ("Failed to save history: " +:+ err) _).
  assert (Hj : history_json w2 = torn env w1) by reflexivity.
  assert (Hc : calls w2 = calls w ++ [WriteJson "history.json" data]) by reflexivity.
  assert (Hl : (ERROR, "Failed to save history: " +:+ err) ∈ log w2).
  { unfold w2. cbn [log record_log]. apply elem_of_app. right. now left. }
  destruct Htorn as [Ht|Ht]; rewrite Ht in Hj.
  - rewrite (load_history_unparsable env _ w2 Hj).
    eexists. split; [f_equal; f_equal; now destruct a|].
    cbn [calls log record_log]. split; [exact Hc|].
    apply elem_of_app. now left.
  - rewrite (load_history_missing env _ w2 Hj).
    eexists. split; [f_equal; f_equal; now destruct a|]. now split.
Qed.

Lemma failed_save_forgets_history_witness :
  let env := with_fault (fun c _ => match c with
                                    | WriteJson _ _ => Some "No space left on device"
                                    | _ => None
                                    end) quiet_host in
  let old := mkTask "/d/old.deb" "0ld0ld0l" "completed" 0 "Successfully installed old.deb"
                    (Some 0) (Some 1) "unknown" 0 in
  let a := set_history [object_of old] (app_of [0%nat]) in
  let w := world_of {["/d/a.deb"]} [fresh_task "/d/a.deb"] in
  exists w',
    MainWindow.on_batch_task_completed env "d41d8cd9" true "Successfully installed a.deb" (a, w)
    = (Ok tt, (set_history [] a, w')).
Proof.
  intros env old a w.
  destruct (failed_save_forgets_history env "d41d8cd9" true "Successfully installed a.deb"
              a w 0%nat "No space left on device") as [w' [H _]].
  - reflexivity.
  - reflexivity.
  - left. reflexivity.
  - exists w'. exact H.
Defined.

Lemma with_fault_laws (f : syscall -> World -> option string) (env : Env) :
  EnvLaws env -> EnvLaws (with_fault f env).
Proof. intros [H1 H2 H3]. split; assumption. Qed.

(** X20. [clear_history]: after the answer No nothing has changed. After the
    answer Yes the history of the window is empty and the call returns; the
    store is removed when there is one, with one call, and when that call
    fails the failure is logged and the store stays as it is. Once the store
    is gone, [load_history] gives the empty history. *)
Theorem clear_history_outcome (env : Env) (a : App) (w : World) :
  MainWindow.clear_history env false (a, w) = (Ok tt, (a, w))
  /\ exists w',
       MainWindow.clear_history env true (a, w) = (Ok tt, (set_history [] a, w'))
       /\ match history_json w with
          | NoFile => w' = w
          | _ =>
              calls w' = calls w ++ [Remove "history.json"]
              /\ match fault env (Remove "history.json") w with
                 | None => history_json w' = NoFile /\ log w' = log w
                 | Some err =>
                     history_json w' = history_json w
                     /\ log w' = log w ++ [(ERROR, "Failed to delete history file: " +:+ err)]
                 end
          end
       /\ (history_json w' = NoFile ->
           MainWindow.load_history env (set_history [] a, w')
           = (Ok tt, (set_history [] a, w'))).
Proof.
  split; [reflexivity|].
  assert (Hload : forall w', history_json w' = NoFile ->
            MainWindow.load_history env (set_history [] a, w')
            = (Ok tt, (set_history [] a, w'))).
  { intros w' H. now rewrite (load_history_missing env _ w' H). }
  unfold MainWindow.clear_history, bind, set_self, try_except, liftW, get_world,
    remove_history_json, logging, modify_world, MainWindow.update_history_display, self,
    ret.
  cbn [fst snd installation_history set_history lastn length skipn rev MainWindow.show_rows
       Nat.sub].
  destruct (history_json w) eqn:Hj; cbn [fst snd].
  - exists w. split; [reflexivity|]. split; [reflexivity|]. apply Hload.
  - destruct (fault env (Remove "history.json") w) as [err|]; cbn [fst snd];
      (eexists; split; [reflexivity|]); (split; [|apply Hload]);
      cbn [calls log history_json record_call record_log set_history_json exn_str];
      now rewrite ?Hj.
  - destruct (fault env (Remove "history.json") w) as [err|]; cbn [fst snd];
      (eexists; split; [reflexivity|]); (split; [|apply Hload]);
      cbn [calls log history_json record_call record_log set_history_json exn_str];
      now rewrite ?Hj.
Qed.

(** X21. When the store cannot be removed, a cleared history is back at the
    next [load_history], which [on_batch_task_completed] calls. *)
Theorem cleared_history_returns (env : Env) (L : EnvLaws env) (a : App) (w : World)
    (l : list InstallationTask) (err : string) :
  Forall (fun t => task_id t <> "") l ->
  history_json w = Dumped (Task.to_dict env <$> (object_of <$> l)) ->
  fault env (Remove "history.json") w = Some err ->
  exists w',
    MainWindow.clear_history env true (a, w) = (Ok tt, (set_history [] a, w'))
    /\ MainWindow.load_history env (set_history [] a, w')
       = (Ok tt, (set_history (object_of <$> l) a, w')).
Proof.
  intros Hl Hj Hf.
  unfold MainWindow.clear_history, bind, set_self, try_except, liftW, get_world,
    remove_history_json, logging, modify_world, MainWindow.update_history_display, self,
    ret.
  cbn [fst snd installation_history set_history lastn length skipn rev MainWindow.show_rows
       Nat.sub].
  rewrite Hj. cbn [fst snd]. rewrite Hf. cbn [fst snd].
  eexists. split; [reflexivity|].
  rewrite (load_history_dumped env L _ _ l Hl); [now destruct a|]. exact Hj.
Qed.

Lemma cleared_history_returns_witness :
  let env := with_fault (fun c _ => match c with
                                    | Remove _ => Some "Permission denied"
                                    | _ => None
                                    end) quiet_host in
  let t := mkTask "/d/a.deb" "d41d8cd9" "completed" 0 "Successfully installed a.deb"
                  (Some 0) (Some 1) "unknown" 0 in
  let w := set_history_json (Dumped [Task.to_dict env t]) (world_of ∅ []) in
  let a := set_history [object_of t] (app_of []) in
  exists w',
    MainWindow.clear_history env true (a, w) = (Ok tt, (set_history [] a, w'))
    /\ MainWindow.load_history env (set_history [] a, w')
       = (Ok tt, (set_history [object_of t] a, w')).
Proof.
  intros env t w a.
  apply (cleared_history_returns env (with_fault_laws _ _ quiet_host_laws) a w [t] "Permission denied").
  - repeat constructor. discriminate.
  - reflexivity.
  - reflexivity.
Defined.

(** ** The queue and the requests of the window *)

Lemma filter_sublist {A} (f : A -> bool) (l : list A) : List.filter f l `sublist_of` l.
Proof.
  induction l as [|x l IH]; cbn [List.filter]; [constructor|].
  destruct (f x); [now apply sublist_skip|now apply sublist_cons].
Qed.

(** One round of the loop of [add_to_queue] for a regular file. *)
Lemma add_to_queue_step (env : Env) (path : string) (rest : list string) (a : App)
    (w : World) :
  isfile env path w = true ->
  exists t,
    MainWindow.add_to_queue env (path :: rest) (a, w)
    = MainWindow.add_to_queue env rest
        (set_next_ref (S (next_ref a)) (set_queue (installation_queue a ++ [next_ref a]) a),
         set_heap (<[next_ref a := t]> (heap w)) w)
    /\ task_id t = md5_hex8 env path
    /\ status t = "queued"
    /\ file_path t = path.
Proof.
  intros Hfile. cbn [MainWindow.add_to_queue].
  unfold bind at 1. unfold liftW at 1, get_world at 1. cbn [fst snd]. rewrite Hfile.
  unfold bind at 1. unfold bind at 1. unfold liftW at 1.
  unfold Task.init, bind, Task.calculate_hash, get_world, ret. cbn [fst snd].
  unfold self, liftW, modify_world, set_self, MainWindow.update_queue_display, ret.
  cbn [fst snd]. eexists. split; [reflexivity|]. now split.
Qed.

(** X22. [remove_from_queue] takes out of the queue every task that has the
    id of the selected item, not one task: the tasks with another id stay,
    in their order. The id of a task is made from its path alone, so a file
    that was added twice is in the queue twice under one id, and removing
    one of the two items removes both. *)
Theorem remove_from_queue_removes_all_with_id (env : Env) (path : string) (a : App)
    (w : World) :
  (forall id,
     exists a',
       MainWindow.remove_from_queue (Some id) (a, w) = (Ok tt, (a', w))
       /\ installation_queue a'
          = List.filter (fun r => negb (String.eqb (task_id (heap w r)) id))
                        (installation_queue a)
       /\ (forall r, r ∈ installation_queue a' -> task_id (heap w r) <> id)
       /\ installation_queue a' `sublist_of` installation_queue a
       /\ installation_history a' = installation_history a)
  /\ ((forall w', files w' = files w -> isfile env path w' = true) ->
      exists a2 w2,
        MainWindow.add_to_queue env [path; path] (a, w) = (Ok tt, (a2, w2))
        /\ installation_queue a2 = installation_queue a ++ [next_ref a; S (next_ref a)]
        /\ task_id (heap w2 (next_ref a)) = md5_hex8 env path
        /\ task_id (heap w2 (S (next_ref a))) = md5_hex8 env path
        /\ exists a3,
             MainWindow.remove_from_queue (Some (md5_hex8 env path)) (a2, w2)
             = (Ok tt, (a3, w2))
             /\ installation_queue a3
                = List.filter (fun r => negb (String.eqb (task_id (heap w2 r))
                                                          (md5_hex8 env path)))
                              (installation_queue a)
             /\ (next_ref a ∉ installation_queue a3)
             /\ (S (next_ref a) ∉ installation_queue a3)).
Proof.
  split.
  - intros id. eexists. split; [reflexivity|].
    cbn [installation_queue set_queue installation_history fst snd].
    split; [reflexivity|]. split; [|split; [|reflexivity]].
    + intros r Hr. apply list_elem_of_In, List.filter_In in Hr as [_ Hr].
      apply negb_true_iff in Hr. now apply String.eqb_neq in Hr.
    + apply filter_sublist.
  - intros Hfile.
    destruct (add_to_queue_step env path [path] a w) as [t1 [E1 [Hid1 _]]];
      [now apply Hfile|].
    set (a1 := set_next_ref (S (next_ref a))
                 (set_queue (installation_queue a ++ [next_ref a]) a)) in E1.
    set (w1 := set_heap (<[next_ref a := t1]> (heap w)) w) in E1.
    destruct (add_to_queue_step env path [] a1 w1) as [t2 [E2 [Hid2 _]]];
      [now apply Hfile|].
    rewrite E1, E2. cbn [MainWindow.add_to_queue]. unfold ret at 1.
    eexists _, _. split; [reflexivity|].
    cbn [installation_queue set_next_ref set_queue next_ref a1 w1 heap set_heap].
    split; [now rewrite <- app_assoc|].
    split.
    { rewrite fn_lookup_insert_ne by lia. now rewrite fn_lookup_insert. }
    split; [now rewrite fn_lookup_insert|].
    eexists. split; [reflexivity|].
    cbn [installation_queue set_next_ref set_queue fst snd heap set_heap].
    rewrite !List.filter_app. cbn [List.filter].
    rewrite (fn_lookup_insert_ne _ (S (next_ref a)) (next_ref a)) by lia.
    rewrite !fn_lookup_insert. rewrite Hid1, Hid2.
    rewrite String.eqb_refl. cbn [negb]. rewrite !app_nil_r.
    split; [reflexivity|].
    split; intros Hin; apply list_elem_of_In, List.filter_In in Hin as [_ Hin];
      apply negb_true_iff, String.eqb_neq in Hin; apply Hin.
    + rewrite fn_lookup_insert_ne by lia. now rewrite fn_lookup_insert.
    + now rewrite fn_lookup_insert.
Qed.

Lemma remove_from_queue_removes_all_with_id_witness :
  exists a3 w2,
    (MainWindow.add_to_queue quiet_host ["/d/a.deb"; "/d/a.deb"] ;;
     MainWindow.remove_from_queue (Some "d41d8cd9"))
      (app_of [], world_of {["/d/a.deb"]} [])
    = (Ok tt, (a3, w2))
    /\ installation_queue a3 = [].
Proof.
  destruct (proj2 (remove_from_queue_removes_all_with_id quiet_host "/d/a.deb" (app_of [])
                     (world_of {["/d/a.deb"]} [])))
    as [a2 [w2 [H1 [_ [_ [_ [a3 [H3 [H4 _]]]]]]]]].
  - intros w' Hw'. unfold quiet_host, isfile, path_exists. rewrite Hw'. reflexivity.
  - exists a3, w2. split.
    + unfold bind. rewrite H1. exact H3.
    + rewrite H4. reflexivity.
Defined.

(** X23. A completion that arrives for an id no task of the queue has is
    dropped: when the queue is cleared, or the task removed, while its batch
    runs, the handler writes no status, saves no entry and does not touch
    the store. *)
Theorem completion_after_removal_is_dropped (env : Env) (id : string) (success : bool)
    (msg : string) (a : App) (w : World) :
  (MainWindow.clear_queue ;; MainWindow.on_batch_task_completed env id success msg) (a, w)
  = (Ok tt, (set_queue [] a, w))
  /\ (MainWindow.remove_from_queue (Some id) ;;
      MainWindow.on_batch_task_completed env id success msg) (a, w)
     = (Ok tt,
        (set_queue (List.filter (fun r => negb (String.eqb (task_id (heap w r)) id))
                                (installation_queue a)) a, w)).
Proof.
  split.
  - reflexivity.
  - unfold bind at 1.
    change (MainWindow.remove_from_queue (Some id) (a, w))
      with (Ok tt, (set_queue (List.filter
                                 (fun r => negb (String.eqb (task_id (heap w r)) id))
                                 (installation_queue a)) a, w)).
    cbv iota beta.
    pose proof (on_batch_task_completed_spec env id success msg
                  (set_queue (List.filter
                                (fun r => negb (String.eqb (task_id (heap w r)) id))
                                (installation_queue a)) a) w) as H.
    destruct (List.find _ _) as [r|] eqn:F; [|exact H].
    apply List.find_some in F as [Fin Feq].
    cbn [installation_queue set_queue] in Fin.
    apply List.filter_In in Fin as [_ Fin]. rewrite Feq in Fin. discriminate.
Qed.

Lemma interactive_dispatch_inv (path : string) (f : procedure) :
  interactive_dispatch path = Some f ->
  get_file_type path ∈ supported_types /\ getattr_install (get_file_type path) = Some f.
Proof.
  unfold interactive_dispatch. case_bool_decide as H; [|discriminate]. now split.
Qed.

Lemma install_file_accepts (env : Env) (path : string) (f : procedure) (a : App)
    (w : World) :
  installing a = false ->
  MainWindow.worker_is_running a = false ->
  rejection env path w = None ->
  interactive_dispatch path = Some f ->
  MainWindow.install_file env path (a, w) = (Ok tt, (accepted f path a, w)).
Proof.
  intros Hi Hw Hr Hd. apply interactive_dispatch_inv in Hd as [Hs Hg].
  unfold MainWindow.install_file. unfold bind at 1. unfold self at 1. cbn [fst snd].
  rewrite Hi, Hw. unfold bind at 1. unfold try_except. unfold bind at 1.
  unfold liftW at 1. cbn [fst snd]. rewrite check_file_spec, Hr.
  unfold ret at 1. cbn [negb]. rewrite bool_decide_eq_true_2 by exact Hs. cbn [negb].
  rewrite Hg. reflexivity.
Qed.

Lemma busy_notice_twice (a : App) :
  set_window (set_status_label MainWindow.busy_notice)
    (set_window (set_status_label MainWindow.busy_notice) a)
  = set_window (set_status_label MainWindow.busy_notice) a.
Proof. reflexivity. Qed.

(** While an install is in flight the loop only sets the notice on the
    status line, once per regular file. *)
Lemma install_each_busy (env : Env) (files : list string) (a : App) (w : World) :
  installing a = true ->
  MainWindow.install_each env files (a, w)
  = (Ok tt, (if existsb (fun p => isfile env p w) files
             then set_window (set_status_label MainWindow.busy_notice) a
             else a, w)).
Proof.
  revert a. induction files as [|p rest IH]; intros a Hi; [reflexivity|].
  cbn [MainWindow.install_each existsb].
  unfold bind at 1. unfold liftW at 1, get_world at 1. cbn [fst snd].
  destruct (isfile env p w); cbn [orb].
  - unfold bind at 1. rewrite install_file_busy by now left.
    rewrite IH by exact Hi.
    destruct (existsb _ rest); [now rewrite busy_notice_twice|reflexivity].
  - unfold bind at 1. unfold ret at 1. now apply IH.
Qed.

Lemma install_each_skips (env : Env) (skipped rest : list string) (a : App) (w : World) :
  Forall (fun p => isfile env p w = false) skipped ->
  MainWindow.install_each env (skipped ++ rest) (a, w)
  = MainWindow.install_each env rest (a, w).
Proof.
  induction 1 as [|p skipped Hp _ IH]; [reflexivity|].
  cbn [app MainWindow.install_each].
  unfold bind at 1. unfold liftW at 1, get_world at 1. cbn [fst snd]. rewrite Hp.
  unfold bind at 1. unfold ret at 1. exact IH.
Qed.

(** X24. Of the files dropped on the window, or chosen in its dialog, at
    most one is installed: the first regular file that [install_file]
    accepts is handed to a worker, and every file after it only meets the
    notice that an installation is in progress; none of them is tested,
    reported or queued. The world is left as it is. *)
Theorem drop_installs_first_file_only (env : Env) (skipped : list string) (path : string)
    (rest : list string) (f : procedure) (a : App) (w : World) :
  installing a = false ->
  MainWindow.worker_is_running a = false ->
  Forall (fun p => isfile env p w = false) skipped ->
  isfile env path w = true ->
  rejection env path w = None ->
  interactive_dispatch path = Some f ->
  let after := if existsb (fun p => isfile env p w) rest
               then set_window (set_status_label MainWindow.busy_notice)
                               (accepted f path a)
               else accepted f path a in
  MainWindow.dropEvent env (skipped ++ path :: rest) (a, w) = (Ok tt, (after, w))
  /\ MainWindow.browse_files env (skipped ++ path :: rest) (a, w) = (Ok tt, (after, w))
  /\ MainWindow.start_installation env (skipped ++ path :: rest) (a, w)
     = (Ok tt, (after, w))
  /\ current_worker after = Some (mkWorker f path true)
  /\ installing after = true
  /\ dialogs (window after) = dialogs (window a)
  /\ installation_queue after = installation_queue a.
Proof.
  intros Hi Hw Hs Hf Hr Hd after.
  assert (E : MainWindow.install_each env (skipped ++ path :: rest) (a, w)
              = (Ok tt, (after, w))).
  { rewrite install_each_skips by exact Hs. cbn [MainWindow.install_each].
    unfold bind at 1. unfold liftW at 1, get_world at 1. cbn [fst snd]. rewrite Hf.
    unfold bind at 1. rewrite (install_file_accepts env path f a w Hi Hw Hr Hd).
    now rewrite install_each_busy. }
  split; [|split; [|split]].
  - unfold MainWindow.dropEvent, MainWindow.reset_drop_style.
    unfold bind at 1. unfold ret at 1. unfold bind at 1. unfold self at 1.
    cbn [fst snd]. now rewrite Hi.
  - unfold MainWindow.browse_files. unfold bind at 1. unfold self at 1.
    cbn [fst snd]. now rewrite Hi.
  - unfold MainWindow.start_installation, MainWindow.browse_files.
    unfold bind at 1. unfold self at 1. cbn [fst snd]. now rewrite Hi.
  - unfold after. now destruct (existsb _ rest).
Qed.

Lemma drop_installs_first_file_only_witness :
  let w := world_of {["/d/a.deb"; "/d/b.deb"]} [] in
  exists after,
    MainWindow.dropEvent quiet_host ["/d/none"; "/d/a.deb"; "/d/b.deb"] (app_of [], w)
    = (Ok tt, (after, w))
    /\ current_worker after = Some (mkWorker ProcDeb "/d/a.deb" true).
Proof.
  intros w.
  destruct (drop_installs_first_file_only quiet_host ["/d/none"] "/d/a.deb" ["/d/b.deb"]
              ProcDeb (app_of []) w) as [H [_ [_ [Hk _]]]].
  - reflexivity.
  - reflexivity.
  - repeat constructor.
  - reflexivity.
  - reflexivity.
  - reflexivity.
  - eexists. split; [exact H|exact Hk].
Defined.

(** X25. [start_batch_installation] never starts a batch. With an empty
    queue it shows the notice that there are no files; with a batch running
    it shows the warning; otherwise it raises [AttributeError] at
    [set_installer], which [BatchInstaller] does not define, after it has
    replaced the installer of the window by a new one that is neither
    connected nor started. The queue, the tasks and the world are left as
    they are. *)
Theorem start_batch_installation_never_starts (a : App) (w : World) :
  exists r a',
    MainWindow.start_batch_installation (a, w) = (r, (a', w))
    /\ MainWindow.batch_is_running a' = MainWindow.batch_is_running a
    /\ installation_queue a' = installation_queue a
    /\ installation_history a' = installation_history a
    /\ match installation_queue a with
       | [] =>
           r = Ok tt
           /\ a' = set_window (show_dialog
                     (Information "No Files" "Please add files to the queue first.")) a
       | _ :: _ =>
           if MainWindow.batch_is_running a then
             r = Ok tt
             /\ a' = set_window (show_dialog
                       (Warning "Installation in Progress"
                                "Batch installation is already running.")) a
           else
             r = Raise (AttributeError
                          "'BatchInstaller' object has no attribute 'set_installer'")
             /\ a' = set_batch_installer
                       (Some (mkThread (BatchInstaller.init (installation_queue a))
                                       false false)) a
       end.
Proof.
  unfold MainWindow.start_batch_installation. unfold bind at 1. unfold self at 1.
  cbn [fst snd].
  destruct (installation_queue a) as [|r0 q] eqn:E.
  - eexists _, _. split; [reflexivity|]. split; [reflexivity|].
    split; [exact E|]. now split.
  - destruct (MainWindow.batch_is_running a) eqn:R.
    + eexists _, _. split; [reflexivity|]. split; [exact R|].
      split; [exact E|]. now split.
    + eexists _, _. split; [reflexivity|]. split; [reflexivity|].
      split; [exact E|]. now split.
Qed.

(** X26. The two handlers of the worker give the window back: after
    [install_file] has accepted a file, whichever of [finished] and [error]
    the worker emits, the handler leaves the window with no install in
    flight and no worker, its controls enabled, the progress bar hidden and
    the status line empty, so that the next request is accepted again; the
    queue and the history are as before the request. *)
Theorem handlers_release_the_window (env : Env) (path : string) (f : procedure)
    (msg : string) (a : App) (w : World) :
  installing a = false ->
  MainWindow.worker_is_running a = false ->
  rejection env path w = None ->
  interactive_dispatch path = Some f ->
  let released := fun (d : dialog) (a' : App) =>
    installing a' = false
    /\ current_worker a' = None
    /\ MainWindow.worker_is_running a' = false
    /\ window a' = mkWindow "" (status_bar (window a)) (dialogs (window a) ++ [d])
                            true true false (batch_install_enabled (window a))
    /\ installation_queue a' = installation_queue a
    /\ installation_history a' = installation_history a
    /\ current_batch_installer a' = current_batch_installer a in
  exists busy,
    MainWindow.install_file env path (a, w) = (Ok tt, (busy, w))
    /\ installing busy = true
    /\ accept_drops (window busy) = false
    /\ browse_enabled (window busy) = false
    /\ (forall other, MainWindow.install_file env other (busy, w)
                      = (Ok tt, (set_window (set_status_label MainWindow.busy_notice) busy,
                                 w)))
    /\ (exists a', MainWindow.on_install_finished env msg (busy, w) = (Ok tt, (a', w))
                   /\ released (Information "Success" msg) a')
    /\ (exists a' w',
          MainWindow.on_install_error env msg (busy, w) = (Ok tt, (a', w'))
          /\ released (Critical "Installation Failed" msg) a'
          /\ w' = record_log ERROR ("Installation failed: " +:+ msg) w).
Proof.
  intros Hi Hw Hr Hd released. subst released. cbv beta.
  exists (accepted f path a).
  split; [now apply install_file_accepts|].
  split; [reflexivity|]. split; [reflexivity|]. split; [reflexivity|].
  split; [intros other; apply install_file_busy; now left|].
  split.
  - eexists. split; [reflexivity|]. now repeat split.
  - eexists _, _. split; [reflexivity|]. now repeat split.
Qed.

Lemma handlers_release_the_window_witness :
  let w := world_of {["/d/a.deb"]} [] in
  exists busy a',
    MainWindow.install_file quiet_host "/d/a.deb" (app_of [], w) = (Ok tt, (busy, w))
    /\ MainWindow.on_install_finished quiet_host "Successfully installed a.deb" (busy, w)
       = (Ok tt, (a', w))
    /\ installing a' = false.
Proof.
  intros w.
  destruct (handlers_release_the_window quiet_host "/d/a.deb" ProcDeb
              "Successfully installed a.deb" (app_of []) w)
    as [busy [H1 [_ [_ [_ [_ [[a' [H2 [H3 _]]] _]]]]]]]; try reflexivity.
  exists busy, a'. split; [exact H1|]. split; [exact H2|exact H3].
Defined.

(** X27. [check_dependencies] asks for [pkexec] and [tar], in this order,
    and for nothing else: with both found it returns and changes nothing;
    else it logs and shows one error, which names the first of the two that
    is missing, and exits with status 1. *)
Theorem check_dependencies_outcome (env : Env) (a : App) (w : World) :
  let missing := if which env "pkexec" w then "tar" else "pkexec" in
  let error_msg := "Required command '" +:+ missing +:+ "' not found. Please install it." in
  if which env "pkexec" w && which env "tar" w then
    MainWindow.check_dependencies env (a, w) = (Ok None, (a, w))
  else
    MainWindow.check_dependencies env (a, w)
    = (Ok (Some 1),
       (set_window (show_dialog (Critical "Missing Dependency" error_msg)) a,
        record_log ERROR error_msg w)).
Proof.
  unfold MainWindow.check_dependencies. cbn [MainWindow.check_commands].
  unfold bind, liftW, get_world, logging, modify_world, set_self, ret. cbn [fst snd].
  destruct (which env "pkexec" w); cbn [negb andb fst snd]; [|reflexivity].
  destruct (which env "tar" w); reflexivity.
Qed.
